(** * Snow SSE client: the request/event correlation engine

    A shallow embedding of [skills/codeWithSnow/scripts/snow_client.py]:
    the JSON values the client receives, the per-operation runtime state of
    [SimpleSnowSSEClient], the event handlers of the stream reader, the
    result builder, the orchestration of one message operation
    (stream, reader thread, POST thread, polling loop, teardown), the
    commands answered by one HTTP call ([abort_task], [delete_session],
    [list_rollback_points], [health_check]), the printed object
    ([ClientResult.to_dict]) and the command line after parsing
    ([validate_args], [run_command], [main]).

    Conventions.
    - Python values that come from [json.loads] are the type [json];
      dictionaries are association lists read with first-match lookup.
    - Python text is a [string] holding the UTF-8 bytes of the text.
    - The two library behaviours the client relies on but does not define,
      [json.loads] and the [repr] of floats, lists and dictionaries, are
      Section variables.  A call of [json.loads] ends with a value, with
      [JSONDecodeError], or with another exception.
    - Debug logging ([_log]) is left out: it does not change the state or
      the Result.  [list_sessions], [load_session], the encoding of images
      and [parse_args] are not modelled: they rest on [datetime], on the
      file system and on [argparse]. *)

Set Warnings "-register-all".
From Stdlib Require Import String Ascii ZArith List Bool Lia DecimalString.
From Stdlib Require Import Floats.PrimFloat.
Import ListNotations.
Local Open Scope string_scope.
Local Open Scope Z_scope.

(** ** JSON values and the Python operations applied to them *)

Inductive json : Type :=
| JNull
| JBool (b : bool)
| JInt (n : Z)
| JFloat (x : float)
| JStr (s : string)
| JArr (items : list json)
| JObj (fields : list (string * json)).

Definition dict := list (string * json).

(** [bool(v)]: Python truth value. *)
Definition truthy (v : json) : bool :=
  match v with
  | JNull => false
  | JBool b => b
  | JInt n => negb (n =? 0)
  | JFloat x => negb (PrimFloat.eqb x PrimFloat.zero)
  | JStr s => negb (s =? "")%string
  | JArr items => match items with [] => false | _ => true end
  | JObj fields => match fields with [] => false | _ => true end
  end.

(** [a or b]. *)
Definition py_or (a b : json) : json := if truthy a then a else b.

(** [d.get(k)]: the value under [k], [None] when the key is absent. *)
Fixpoint dict_get (k : string) (d : dict) : json :=
  match d with
  | [] => JNull
  | (k', v) :: d' => if (k =? k')%string then v else dict_get k d'
  end.

(** [k in d] for a dictionary. *)
Fixpoint dict_has (k : string) (d : dict) : bool :=
  match d with
  | [] => false
  | (k', _) :: d' => (k =? k')%string || dict_has k d'
  end.

(** [d[k] = v]: overwrite in place, or append a new key at the end. *)
Fixpoint dict_set (k : string) (v : json) (d : dict) : dict :=
  match d with
  | [] => [(k, v)]
  | (k', v') :: d' =>
      if (k =? k')%string then (k, v) :: d' else (k', v') :: dict_set k v d'
  end.

Definition is_dict (v : json) : bool :=
  match v with JObj _ => true | _ => false end.

Definition is_list (v : json) : bool :=
  match v with JArr _ => true | _ => false end.

(** [v == "text"] for a string literal on the right. *)
Definition str_eq (v : json) (text : string) : bool :=
  match v with JStr s => (s =? text)%string | _ => false end.

(** Optional[str] seen as a value. *)
Definition of_opt (o : option string) : json :=
  match o with Some s => JStr s | None => JNull end.

(** [type(v).__name__], as it appears in an AttributeError message. *)
Definition type_name (v : json) : string :=
  match v with
  | JNull => "NoneType"
  | JBool _ => "bool"
  | JInt _ => "int"
  | JFloat _ => "float"
  | JStr _ => "str"
  | JArr _ => "list"
  | JObj _ => "dict"
  end.

Definition str_of_Z (n : Z) : string := NilZero.string_of_int (Z.to_int n).

(** ** Text helpers *)

Fixpoint starts_with (p s : string) : bool :=
  match p, s with
  | EmptyString, _ => true
  | String a p', String b s' => Ascii.eqb a b && starts_with p' s'
  | String _ _, EmptyString => false
  end.

(** [needle in hay] for two strings. *)
Fixpoint contains (needle hay : string) : bool :=
  starts_with needle hay
  || match hay with
     | EmptyString => false
     | String _ hay' => contains needle hay'
     end.

Fixpoint drop (n : nat) (s : string) : string :=
  match n, s with
  | O, _ => s
  | S n', String _ s' => drop n' s'
  | S _, EmptyString => EmptyString
  end.

Definition is_crlf (a : ascii) : bool :=
  Ascii.eqb a "013"%char || Ascii.eqb a "010"%char.

(** The ASCII characters [str.lstrip()] removes: tab, LF, VT, FF, CR,
    the separators 0x1c-0x1f and the space. *)
Definition is_space (a : ascii) : bool :=
  let n := nat_of_ascii a in
  ((9 <=? n) && (n <=? 13) || (28 <=? n) && (n <=? 32))%nat.

(** [s.rstrip("\r\n")]. *)
Fixpoint rstrip_crlf (s : string) : string :=
  match s with
  | EmptyString => EmptyString
  | String a s' =>
      match rstrip_crlf s' with
      | EmptyString => if is_crlf a then EmptyString else String a EmptyString
      | t => String a t
      end
  end.

(** The other characters [str.lstrip()] removes, in UTF-8: U+0085 and
    U+00A0 take two bytes; U+1680, U+2000 to U+200A, U+2028, U+2029,
    U+202F, U+205F and U+3000 take three. *)
Definition is_space2 (a b : ascii) : bool :=
  let m := nat_of_ascii a in
  let n := nat_of_ascii b in
  ((m =? 194) && ((n =? 133) || (n =? 160)))%nat.

Definition is_space3 (a b c : ascii) : bool :=
  let l := nat_of_ascii a in
  let m := nat_of_ascii b in
  let n := nat_of_ascii c in
  ((l =? 225) && (m =? 154) && (n =? 128)
   || (l =? 226) && (m =? 128)
      && ((128 <=? n) && (n <=? 138) || (n =? 168) || (n =? 169)
          || (n =? 175))
   || (l =? 226) && (m =? 129) && (n =? 159)
   || (l =? 227) && (m =? 128) && (n =? 128))%nat.

(** [s.lstrip()]: every leading blank character is removed, the ASCII ones
    and the ones of two and three bytes. *)
Fixpoint lstrip (s : string) : string :=
  match s with
  | EmptyString => EmptyString
  | String a s1 =>
      if is_space a then lstrip s1
      else
        match s1 with
        | EmptyString => s
        | String b s2 =>
            if is_space2 a b then lstrip s2
            else
              match s2 with
              | EmptyString => s
              | String c s3 => if is_space3 a b c then lstrip s3 else s
              end
        end
  end.

(** ["\n".join(lines)]. *)
Fixpoint join_lines (lines : list string) : string :=
  match lines with
  | [] => ""
  | [l] => l
  | l :: rest => l ++ String "010"%char (join_lines rest)
  end.

Fixpoint mem (x : string) (xs : list string) : bool :=
  match xs with
  | [] => false
  | y :: ys => (x =? y)%string || mem x ys
  end.

(** ** ClientResult *)

Record ClientResult : Type := {
  status : string;
  session_id : option string;
  messages : list json;
  usage : dict;
  error_code : json;
  message : json;
  suggestion : option string;
  request_id : json;
  request_data : option dict;
  sessions : option (list json);
  total : option Z;
  agents : option (list json);
  current_agent_id : option string;
  available_agents : option (list json);
  rollback_points : option (list json);
  deleted : option bool;
  health : option json
}.

(** [ClientResult(status=st)] with every other field at its default.
    [error_code], [message] and [request_id] are copied from events without
    conversion, so they are values; [JNull] is Python's [None]. *)
Definition result (st : string) : ClientResult :=
  {| status := st; session_id := None; messages := []; usage := [];
     error_code := JNull; message := JNull; suggestion := None;
     request_id := JNull; request_data := None; sessions := None;
     total := None; agents := None; current_agent_id := None;
     available_agents := None; rollback_points := None; deleted := None;
     health := None |}.

Definition with_session_id (v : option string) (r : ClientResult) : ClientResult :=
  Build_ClientResult (status r) v (messages r) (usage r) (error_code r)
     (message r) (suggestion r) (request_id r) (request_data r) (sessions r)
     (total r) (agents r) (current_agent_id r) (available_agents r)
     (rollback_points r) (deleted r) (health r).
Definition with_messages (v : list json) (r : ClientResult) : ClientResult :=
  Build_ClientResult (status r) (session_id r) v (usage r) (error_code r)
     (message r) (suggestion r) (request_id r) (request_data r) (sessions r)
     (total r) (agents r) (current_agent_id r) (available_agents r)
     (rollback_points r) (deleted r) (health r).
Definition with_usage (v : dict) (r : ClientResult) : ClientResult :=
  Build_ClientResult (status r) (session_id r) (messages r) v (error_code r)
     (message r) (suggestion r) (request_id r) (request_data r) (sessions r)
     (total r) (agents r) (current_agent_id r) (available_agents r)
     (rollback_points r) (deleted r) (health r).
Definition with_error_code (v : json) (r : ClientResult) : ClientResult :=
  Build_ClientResult (status r) (session_id r) (messages r) (usage r) v
     (message r) (suggestion r) (request_id r) (request_data r) (sessions r)
     (total r) (agents r) (current_agent_id r) (available_agents r)
     (rollback_points r) (deleted r) (health r).
Definition with_message (v : json) (r : ClientResult) : ClientResult :=
  Build_ClientResult (status r) (session_id r) (messages r) (usage r)
     (error_code r) v (suggestion r) (request_id r) (request_data r)
     (sessions r) (total r) (agents r) (current_agent_id r)
     (available_agents r) (rollback_points r) (deleted r) (health r).
Definition with_suggestion (v : option string) (r : ClientResult) : ClientResult :=
  Build_ClientResult (status r) (session_id r) (messages r) (usage r)
     (error_code r) (message r) v (request_id r) (request_data r)
     (sessions r) (total r) (agents r) (current_agent_id r)
     (available_agents r) (rollback_points r) (deleted r) (health r).
Definition with_request_id (v : json) (r : ClientResult) : ClientResult :=
  Build_ClientResult (status r) (session_id r) (messages r) (usage r)
     (error_code r) (message r) (suggestion r) v (request_data r)
     (sessions r) (total r) (agents r) (current_agent_id r)
     (available_agents r) (rollback_points r) (deleted r) (health r).
Definition with_request_data (v : option dict) (r : ClientResult) : ClientResult :=
  Build_ClientResult (status r) (session_id r) (messages r) (usage r)
     (error_code r) (message r) (suggestion r) (request_id r) v (sessions r)
     (total r) (agents r) (current_agent_id r) (available_agents r)
     (rollback_points r) (deleted r) (health r).
Definition with_agents (v : option (list json)) (r : ClientResult) : ClientResult :=
  Build_ClientResult (status r) (session_id r) (messages r) (usage r)
     (error_code r) (message r) (suggestion r) (request_id r)
     (request_data r) (sessions r) (total r) v (current_agent_id r)
     (available_agents r) (rollback_points r) (deleted r) (health r).
Definition with_current_agent_id (v : option string) (r : ClientResult) : ClientResult :=
  Build_ClientResult (status r) (session_id r) (messages r) (usage r)
     (error_code r) (message r) (suggestion r) (request_id r)
     (request_data r) (sessions r) (total r) (agents r) v
     (available_agents r) (rollback_points r) (deleted r) (health r).
Definition with_available_agents (v : option (list json)) (r : ClientResult) : ClientResult :=
  Build_ClientResult (status r) (session_id r) (messages r) (usage r)
     (error_code r) (message r) (suggestion r) (request_id r)
     (request_data r) (sessions r) (total r) (agents r) (current_agent_id r)
     v (rollback_points r) (deleted r) (health r).
Definition with_health (v : option json) (r : ClientResult) : ClientResult :=
  Build_ClientResult (status r) (session_id r) (messages r) (usage r)
     (error_code r) (message r) (suggestion r) (request_id r)
     (request_data r) (sessions r) (total r) (agents r) (current_agent_id r)
     (available_agents r) (rollback_points r) (deleted r) v.

Definition with_total (v : option Z) (r : ClientResult) : ClientResult :=
  Build_ClientResult (status r) (session_id r) (messages r) (usage r)
     (error_code r) (message r) (suggestion r) (request_id r)
     (request_data r) (sessions r) v (agents r) (current_agent_id r)
     (available_agents r) (rollback_points r) (deleted r) (health r).
Definition with_rollback_points (v : option (list json)) (r : ClientResult)
    : ClientResult :=
  Build_ClientResult (status r) (session_id r) (messages r) (usage r)
     (error_code r) (message r) (suggestion r) (request_id r)
     (request_data r) (sessions r) (total r) (agents r) (current_agent_id r)
     (available_agents r) v (deleted r) (health r).
Definition with_deleted (v : option bool) (r : ClientResult) : ClientResult :=
  Build_ClientResult (status r) (session_id r) (messages r) (usage r)
     (error_code r) (message r) (suggestion r) (request_id r)
     (request_data r) (sessions r) (total r) (agents r) (current_agent_id r)
     (available_agents r) (rollback_points r) v (health r).

(** ** [ClientResult.to_dict] *)

(** [data.setdefault(k, v)]. *)
Definition dict_setdefault (k : string) (v : json) (d : dict) : dict :=
  if dict_has k d then d else dict_set k v d.

(** [if cond: data[k] = v]. *)
Definition set_if (cond : bool) (k : string) (v : json) (d : dict) : dict :=
  if cond then dict_set k v d else d.

(** [if field is not None: data[k] = field]. *)
Definition set_some {A} (k : string) (f : A -> json) (field : option A)
    (d : dict) : dict :=
  match field with Some a => dict_set k (f a) d | None => d end.

(** The keys derived from a non-empty [request_data]. *)
Definition request_keys (st : string) (rd data : dict) : dict :=
  let data := dict_set "request_data" (JObj rd) data in
  if (st =? "requires_confirmation")%string then
    let tool_call :=
      py_or (py_or (dict_get "tool_call" rd) (dict_get "toolCall" rd))
        (dict_get "tool" rd) in
    let available_options :=
      py_or (dict_get "available_options" rd)
        (dict_get "availableOptions" rd) in
    let data := set_if (truthy tool_call) "tool_call" tool_call data in
    let data :=
      set_if (truthy available_options) "available_options"
        available_options data in
    dict_setdefault "message" (JStr "需要确认工具执行") data
  else if (st =? "requires_question")%string then
    let question := dict_get "question" rd in
    let options := dict_get "options" rd in
    let multi_select :=
      match dict_get "multi_select" rd with
      | JNull => dict_get "multiSelect" rd
      | v => v
      end in
    let data := set_if (truthy question) "question" question data in
    let data :=
      match options with JNull => data | _ => dict_set "options" options data
      end in
    let data :=
      match multi_select with
      | JNull => data
      | _ => dict_set "multi_select" (JBool (truthy multi_select)) data
      end in
    dict_setdefault "message" (JStr "AI 需要您回答一个问题") data
  else data.

Definition to_dict (r : ClientResult) : dict :=
  let data : dict :=
    [("status", JStr (status r)); ("session_id", of_opt (session_id r));
     ("messages", JArr (messages r)); ("usage", JObj (usage r))] in
  let data := set_if (truthy (error_code r)) "error_code" (error_code r) data in
  let data := set_if (truthy (message r)) "message" (message r) data in
  let data :=
    set_if (truthy (of_opt (suggestion r))) "suggestion"
      (of_opt (suggestion r)) data in
  let data := set_if (truthy (request_id r)) "request_id" (request_id r) data in
  let data :=
    match request_data r with
    | Some ((_ :: _) as rd) => request_keys (status r) rd data
    | _ => data
    end in
  let data := set_some "sessions" JArr (sessions r) data in
  let data := set_some "total" JInt (total r) data in
  let data := set_some "agents" JArr (agents r) data in
  let data := set_some "current_agent_id" JStr (current_agent_id r) data in
  let data := set_some "available_agents" JArr (available_agents r) data in
  let data := set_some "rollback_points" JArr (rollback_points r) data in
  let data := set_some "deleted" JBool (deleted r) data in
  set_some "health" (fun v => v) (health r) data.

(** ** Runtime state of one operation *)

(** [self._pending_request]: a dictionary with exactly these three keys. *)
Record pending : Type := {
  pr_status : string;
  pr_request_id : json;
  pr_request_data : dict
}.

(** [self._error]: ["error_code"], ["message"] and, when the server sent a
    list, ["available_agents"]. *)
Record stored_error : Type := {
  err_code : json;
  err_message : json;
  err_available_agents : option (list json)
}.

(** [self._final_event]. *)
Record final : Type := {
  fe_type : string;
  fe_data : dict;
  fe_request_id : json
}.

(** The fields of [SimpleSnowSSEClient] that one operation reads and
    writes; the two [threading.Event]s are their flags. *)
Record client : Type := {
  _connected_event : bool;
  _completed_event : bool;
  _completion_events : list string;
  _connection_id : option string;
  _session_id : option string;
  _messages : list json;
  _assistant_final_content : string;
  _assistant_stream_content : string;
  _usage : dict;
  _error : option stored_error;
  _pending_request : option pending;
  _final_event : option final;
  _agent_list_data : option dict;
  _agent_switched_data : option dict;
  _rollback_result_data : option dict;
  _outbound_image_names : list string
}.

Definition set_connected (v : bool) (c : client) : client :=
  Build_client v (_completed_event c) (_completion_events c)
     (_connection_id c) (_session_id c) (_messages c)
     (_assistant_final_content c) (_assistant_stream_content c) (_usage c)
     (_error c) (_pending_request c) (_final_event c) (_agent_list_data c)
     (_agent_switched_data c) (_rollback_result_data c)
     (_outbound_image_names c).
Definition set_completed (v : bool) (c : client) : client :=
  Build_client (_connected_event c) v (_completion_events c)
     (_connection_id c) (_session_id c) (_messages c)
     (_assistant_final_content c) (_assistant_stream_content c) (_usage c)
     (_error c) (_pending_request c) (_final_event c) (_agent_list_data c)
     (_agent_switched_data c) (_rollback_result_data c)
     (_outbound_image_names c).
Definition set_connection_id (v : option string) (c : client) : client :=
  Build_client (_connected_event c) (_completed_event c)
     (_completion_events c) v (_session_id c) (_messages c)
     (_assistant_final_content c) (_assistant_stream_content c) (_usage c)
     (_error c) (_pending_request c) (_final_event c) (_agent_list_data c)
     (_agent_switched_data c) (_rollback_result_data c)
     (_outbound_image_names c).
Definition set_session_id (v : option string) (c : client) : client :=
  Build_client (_connected_event c) (_completed_event c)
     (_completion_events c) (_connection_id c) v (_messages c)
     (_assistant_final_content c) (_assistant_stream_content c) (_usage c)
     (_error c) (_pending_request c) (_final_event c) (_agent_list_data c)
     (_agent_switched_data c) (_rollback_result_data c)
     (_outbound_image_names c).
Definition set_messages (v : list json) (c : client) : client :=
  Build_client (_connected_event c) (_completed_event c)
     (_completion_events c) (_connection_id c) (_session_id c) v
     (_assistant_final_content c) (_assistant_stream_content c) (_usage c)
     (_error c) (_pending_request c) (_final_event c) (_agent_list_data c)
     (_agent_switched_data c) (_rollback_result_data c)
     (_outbound_image_names c).
Definition set_final_content (v : string) (c : client) : client :=
  Build_client (_connected_event c) (_completed_event c)
     (_completion_events c) (_connection_id c) (_session_id c) (_messages c)
     v (_assistant_stream_content c) (_usage c) (_error c)
     (_pending_request c) (_final_event c) (_agent_list_data c)
     (_agent_switched_data c) (_rollback_result_data c)
     (_outbound_image_names c).
Definition set_stream_content (v : string) (c : client) : client :=
  Build_client (_connected_event c) (_completed_event c)
     (_completion_events c) (_connection_id c) (_session_id c) (_messages c)
     (_assistant_final_content c) v (_usage c) (_error c)
     (_pending_request c) (_final_event c) (_agent_list_data c)
     (_agent_switched_data c) (_rollback_result_data c)
     (_outbound_image_names c).
Definition set_usage (v : dict) (c : client) : client :=
  Build_client (_connected_event c) (_completed_event c)
     (_completion_events c) (_connection_id c) (_session_id c) (_messages c)
     (_assistant_final_content c) (_assistant_stream_content c) v (_error c)
     (_pending_request c) (_final_event c) (_agent_list_data c)
     (_agent_switched_data c) (_rollback_result_data c)
     (_outbound_image_names c).
Definition set_error (v : option stored_error) (c : client) : client :=
  Build_client (_connected_event c) (_completed_event c)
     (_completion_events c) (_connection_id c) (_session_id c) (_messages c)
     (_assistant_final_content c) (_assistant_stream_content c) (_usage c) v
     (_pending_request c) (_final_event c) (_agent_list_data c)
     (_agent_switched_data c) (_rollback_result_data c)
     (_outbound_image_names c).
Definition set_pending (v : option pending) (c : client) : client :=
  Build_client (_connected_event c) (_completed_event c)
     (_completion_events c) (_connection_id c) (_session_id c) (_messages c)
     (_assistant_final_content c) (_assistant_stream_content c) (_usage c)
     (_error c) v (_final_event c) (_agent_list_data c)
     (_agent_switched_data c) (_rollback_result_data c)
     (_outbound_image_names c).
Definition set_final_event (v : option final) (c : client) : client :=
  Build_client (_connected_event c) (_completed_event c)
     (_completion_events c) (_connection_id c) (_session_id c) (_messages c)
     (_assistant_final_content c) (_assistant_stream_content c) (_usage c)
     (_error c) (_pending_request c) v (_agent_list_data c)
     (_agent_switched_data c) (_rollback_result_data c)
     (_outbound_image_names c).
Definition set_agent_list (v : option dict) (c : client) : client :=
  Build_client (_connected_event c) (_completed_event c)
     (_completion_events c) (_connection_id c) (_session_id c) (_messages c)
     (_assistant_final_content c) (_assistant_stream_content c) (_usage c)
     (_error c) (_pending_request c) (_final_event c) v
     (_agent_switched_data c) (_rollback_result_data c)
     (_outbound_image_names c).
Definition set_agent_switched (v : option dict) (c : client) : client :=
  Build_client (_connected_event c) (_completed_event c)
     (_completion_events c) (_connection_id c) (_session_id c) (_messages c)
     (_assistant_final_content c) (_assistant_stream_content c) (_usage c)
     (_error c) (_pending_request c) (_final_event c) (_agent_list_data c) v
     (_rollback_result_data c) (_outbound_image_names c).
Definition set_rollback_result (v : option dict) (c : client) : client :=
  Build_client (_connected_event c) (_completed_event c)
     (_completion_events c) (_connection_id c) (_session_id c) (_messages c)
     (_assistant_final_content c) (_assistant_stream_content c) (_usage c)
     (_error c) (_pending_request c) (_final_event c) (_agent_list_data c)
     (_agent_switched_data c) v (_outbound_image_names c).

(** [_reset_runtime_state]: the state every operation starts from. *)
Definition _reset_runtime_state (session : option string)
    (completion_events outbound_image_names : list string) : client :=
  {| _connected_event := false;
     _completed_event := false;
     _completion_events := completion_events;
     _connection_id := None;
     _session_id := session;
     _messages := [];
     _assistant_final_content := "";
     _assistant_stream_content := "";
     _usage := [];
     _error := None;
     _pending_request := None;
     _final_event := None;
     _agent_list_data := None;
     _agent_switched_data := None;
     _rollback_result_data := None;
     _outbound_image_names := outbound_image_names |}.

(** ** Exceptions *)

(** The exception classes the [except] clauses tell apart.  [HTTPError]
    carries what [_http_error_to_result] reads from it; the text of the
    other three is their [str(exc)].  [OtherError] stands for every other
    subclass of [Exception] (RuntimeError, AttributeError, TypeError, ...). *)
Inductive exn : Type :=
| TimeoutError (text : string)
| HTTPError (code : Z) (reason : string) (body : string)
| URLError (text : string)
| OtherError (text : string).

(** How [_build_images_payload] ends: with the encoded list; with a
    FileNotFoundError or ValueError, of which [send_chat] keeps the text;
    or with another exception of [open] or [read] (a directory, a file
    that may not be read), which [send_chat] does not catch. *)
Inductive images_outcome : Type :=
| Encoded (payload : list json)
| Missing (text : string)
| Unreadable (e : exn).

(** [str(exc)]. *)
Definition exn_str (e : exn) : string :=
  match e with
  | TimeoutError t | URLError t | OtherError t => t
  | HTTPError code reason _ =>
      "HTTP Error " ++ str_of_Z code ++ ": " ++ reason
  end.

Definition fields_of (v : json) : dict :=
  match v with JObj d => d | _ => [] end.

(** ** The stream, the configuration and the outside world *)

(** What iterating over the stream response yields next: a line (already
    decoded), the end of the stream, or an exception. *)
Inductive stream_item : Type :=
| RawLine (text : string)
| StreamEnd
| ReadFailure (text : string).

(** The reader thread: the local [data_lines] and whether
    [_event_reader_loop] is still running. *)
Record reader : Type := {
  data_lines : list string;
  alive : bool
}.

(** The constructor arguments of the client that results mention. *)
Record config : Type := {
  _host : string;
  _port : Z;
  _request_timeout : Z
}.

(** What the operation does to the outside: requests issued and teardown
    steps, in program order. *)
Inductive action : Type :=
| AGetEvents
| AStartReader
| APost (path : string) (payload : dict)
| ASetCompleted
| ACloseSocket
| AJoinReader
| ACloseResponse.

Definition is_post (a : action) : bool :=
  match a with APost _ _ => true | _ => false end.

(** One pass of the polling loop as the main thread sees it: what the
    reader thread consumed since the previous observation, the reading of
    [time.monotonic()], and whether [post_done] is set. *)
Record tick : Type := {
  arrivals : list stream_item;
  now : Z;
  post_done : bool
}.

(** Everything outside the client during one operation. *)
Record world : Type := {
  open_outcome : option exn;
  raw_socket : bool;
  connect_items : list stream_item;
  setup_items : list stream_item;
  load_outcome : exn + json;
  create_outcome : exn + json;
  post_outcome : exn + json;
  start_time : Z;
  ticks : list tick
}.

(** The client, its reader thread, the three handles [_close_event_stream]
    releases, and the actions so far. *)
Record machine : Type := {
  cl : client;
  rd : reader;
  _stream_response : bool;
  _stream_sock : bool;
  _reader_thread : bool;
  trace : list action
}.

(** A computation ends with a value, with a raised exception, or [Stuck]
    when the ticks of the world end before the polling loop does. *)
Inductive res (A : Type) : Type :=
| Val (a : A)
| Exc (e : exn)
| Stuck.
Arguments Val {A} a.
Arguments Exc {A} e.
Arguments Stuck {A}.

(** What [_close_event_stream] does after setting the completion flag, for
    the handles it finds: close the socket, join the reader thread when it
    is still running (one second at most), close the response (half a
    second at most). *)
Definition closing_steps (m : machine) : list action :=
  ((if _stream_sock m then [ACloseSocket] else [])
   ++ (if _reader_thread m && alive (rd m) then [AJoinReader] else [])
   ++ (if _stream_response m then [ACloseResponse] else []))%list.

(** The reader thread as [reader.start()] leaves it. *)
Definition fresh_reader : reader := {| data_lines := []; alive := true |}.

(** ** Events as the server frames them: [{type, data}] *)

Definition event (kind : string) (data : json) : dict :=
  [("type", JStr kind); ("data", data)].

Definition user_message (text : string) : dict :=
  event "message" (JObj [("role", JStr "user"); ("content", JStr text)]).

(** An assistant message marked as streaming. *)
Definition assistant_chunk (text : string) : dict :=
  event "message"
    (JObj [("role", JStr "assistant"); ("content", JStr text);
           ("streaming", JBool true)]).

(** An assistant message that is not marked as streaming. *)
Definition assistant_final (text : string) : dict :=
  event "message"
    (JObj [("role", JStr "assistant"); ("content", JStr text)]).

(** What the user branch of the message handler appends to the history. *)
Definition user_entry (text : string) (names : list string) : json :=
  JObj ([("role", JStr "user"); ("content", JStr text)]
        ++ match names with
           | [] => []
           | _ => [("images", JArr (map JStr names))]
           end)%list.

Definition assistant_entry (text : string) : json :=
  JObj [("role", JStr "assistant"); ("content", JStr text)].

(** The [rollback_result] event of a rollback the server refused. *)
Definition rollback_conflict (request : json) : dict :=
  [("type", JStr "rollback_result");
   ("data", JObj [("success", JBool false); ("error", JStr "conflict");
                  ("sessionId", JStr "s1")]);
   ("requestId", request)].

(** A history entry written by the user branch. *)
Definition is_user_entry (v : json) : bool :=
  match v with
  | JObj d => str_eq (dict_get "role" d) "user"
  | _ => false
  end.

Definition is_url_error (e : exn) : bool :=
  match e with
  | HTTPError _ _ _ | URLError _ => true
  | TimeoutError _ | OtherError _ => false
  end.

(** ** [json.loads] *)

(** How a call of [json.loads] ends: with a value, with [JSONDecodeError],
    or with another exception (RecursionError for a document nested too
    deeply, ValueError for an integer literal with too many digits), of
    which the text is kept. *)
Inductive loaded : Type :=
| Parsed (v : json)
| DecodeError
| Raised (text : string).

(** ** The command line: [validate_args], [run_command], [main] *)

(** The parsed arguments [run_command] and [validate_args] read.  An option
    that was not given is [None] (or [false], or the empty list). *)
Record arguments : Type := {
  arg_message : option string;
  arg_session : option string;
  arg_image : list string;
  arg_no_yolo : bool;
  arg_confirm : bool;
  arg_reject : bool;
  arg_answer : bool;
  arg_request_id : option string;
  arg_answer_text : option string;
  arg_abort : bool;
  arg_switch_agent : option string;
  arg_list_sessions : bool;
  arg_load_session : option string;
  arg_delete_session : option string;
  arg_list_agents : bool;
  arg_list_rollback_points : bool;
  arg_rollback_to : option Z;
  arg_rollback_files : bool;
  arg_rollback_file : list string;
  arg_health : bool
}.

(** Truth value of an optional text: given and not empty. *)
Definition given (o : option string) : bool := truthy (of_opt o).

Definition is_some {A} (o : option A) : bool :=
  match o with Some _ => true | None => false end.

Definition nonempty {A} (l : list A) : bool :=
  match l with [] => false | _ => true end.

(** [validate_args]: the error text, or [None] when the combination is
    accepted. *)
Definition validate_args (a : arguments) : option string :=
  if (1 <? length (filter (fun flag : bool => flag)
                     [arg_confirm a; arg_reject a; arg_answer a]))%nat
  then Some "--confirm/--reject/--answer 不能同时使用"
  else if (arg_confirm a || arg_reject a) && negb (given (arg_request_id a))
  then Some "--confirm 或 --reject 需要配合 --request-id"
  else if (arg_confirm a || arg_reject a) && negb (given (arg_session a))
  then Some "--confirm 或 --reject 需要配合 --session"
  else if arg_answer a && negb (given (arg_request_id a))
  then Some "--answer 需要配合 --request-id"
  else if arg_answer a && negb (given (arg_answer_text a))
  then Some "--answer 需要配合 --answer-text"
  else if arg_answer a && negb (given (arg_session a))
  then Some "--answer 需要配合 --session"
  else if arg_abort a && negb (given (arg_session a))
  then Some "--abort 需要配合 --session"
  else if arg_list_rollback_points a && negb (given (arg_session a))
  then Some "--list-rollback-points 需要配合 --session"
  else if is_some (arg_rollback_to a) && negb (given (arg_session a))
  then Some "--rollback-to 需要配合 --session"
  else if nonempty (arg_rollback_file a) && negb (arg_rollback_files a)
  then Some "--rollback-file 需要配合 --rollback-files"
  else if negb (given (arg_message a) || arg_confirm a || arg_reject a
                || arg_answer a || arg_abort a
                || given (arg_switch_agent a) || arg_list_sessions a
                || given (arg_load_session a)
                || given (arg_delete_session a) || arg_list_agents a
                || arg_list_rollback_points a
                || is_some (arg_rollback_to a) || arg_health a)
  then Some "至少需要指定一个动作参数,例如 --message 或 --list-sessions"
  else None.

(** The methods of the client [run_command] calls, each with the arguments
    it is called with; a call ends like any computation of the client. *)
Record client_api : Type := {
  api_health_check : res ClientResult;
  api_list_sessions : res ClientResult;
  api_delete_session : option string -> res ClientResult;
  api_list_rollback_points : option string -> res ClientResult;
  api_rollback_to :
    option string -> Z -> bool -> list string -> res ClientResult;
  api_list_agents : option string -> res ClientResult;
  api_send_tool_confirmation :
    option string -> option string -> bool -> res ClientResult;
  api_send_question_answer :
    option string -> option string -> option string -> res ClientResult;
  api_abort_task : option string -> res ClientResult;
  api_load_session : option string -> res ClientResult;
  api_switch_agent : option string -> option string -> res ClientResult;
  api_send_chat :
    option string -> option string -> list string -> bool ->
    res ClientResult
}.

(** The Result [run_command] ends on when no branch was taken. *)
Definition invalid_combination : ClientResult :=
  with_message (JStr "参数组合无效,请检查命令")
    (with_error_code (JStr "invalid_args") (result "error")).

(** The tail of [run_command]: switch the agent when asked, then chat. *)
Definition switch_then_chat (api : client_api) (a : arguments)
    (active_session_id : option string) : res ClientResult :=
  let chat :=
    if given (arg_message a) then
      api_send_chat api (arg_message a) active_session_id (arg_image a)
        (negb (arg_no_yolo a))
    else Val invalid_combination in
  if given (arg_switch_agent a) then
    match api_switch_agent api (arg_switch_agent a) active_session_id with
    | Val switch_result =>
        if negb (status switch_result =? "success")%string
        then Val switch_result
        else if negb (given (arg_message a)) then Val switch_result
        else chat
    | failure => failure
    end
  else chat.

(** [run_command]. *)
Definition run_command (api : client_api) (a : arguments)
    : res ClientResult :=
  if arg_health a then api_health_check api
  else if arg_list_sessions a then api_list_sessions api
  else if given (arg_delete_session a)
  then api_delete_session api (arg_delete_session a)
  else if arg_list_rollback_points a
  then api_list_rollback_points api (arg_session a)
  else match arg_rollback_to a with
  | Some message_index =>
      api_rollback_to api (arg_session a) message_index
        (arg_rollback_files a) (arg_rollback_file a)
  | None =>
  if arg_list_agents a then api_list_agents api (arg_session a)
  else if arg_confirm a
  then api_send_tool_confirmation api (arg_session a) (arg_request_id a) true
  else if arg_reject a
  then api_send_tool_confirmation api (arg_session a) (arg_request_id a)
         false
  else if arg_answer a
  then api_send_question_answer api (arg_session a) (arg_request_id a)
         (arg_answer_text a)
  else if arg_abort a then api_abort_task api (arg_session a)
  else if given (arg_load_session a) then
    match api_load_session api (arg_load_session a) with
    | Val load_result =>
        if negb (status load_result =? "success")%string
        then Val load_result
        else if negb (given (arg_message a))
                && negb (given (arg_switch_agent a))
        then Val load_result
        else switch_then_chat api a (arg_load_session a)
    | failure => failure
    end
  else switch_then_chat api a (arg_session a)
  end.

(** The statuses for which the process exits with code 0. *)
Definition exit_code (r : ClientResult) : Z :=
  if mem (status r)
       ["success"; "requires_confirmation"; "requires_question"]
  then 0 else 1.

(** [main] after [parse_args]: the object printed and the exit code. *)
Definition main (api : client_api) (a : arguments) : res (dict * Z) :=
  match validate_args a with
  | Some validation_error =>
      Val (to_dict (with_message (JStr validation_error)
                      (with_error_code (JStr "invalid_args")
                         (result "error"))),
           1)
  | None =>
      match run_command api a with
      | Val r => Val (to_dict r, exit_code r)
      | Exc e => Exc e
      | Stuck => Stuck
      end
  end.

(** ** Stand-ins for the two library functions, used to run the model *)

(** A [json.loads] that knows the texts of [table] and rejects the rest. *)
Fixpoint table_loads (table : list (string * json)) (text : string)
    : loaded :=
  match table with
  | [] => DecodeError
  | (t, v) :: rest =>
      if (text =? t)%string then Parsed v else table_loads rest text
  end.

(** A [json.loads] that raises an exception with the text [raised] on
    [deep], and is [loads] elsewhere. *)
Definition raising_loads (deep raised : string) (loads : string -> loaded)
    (text : string) : loaded :=
  if (text =? deep)%string then Raised raised else loads text.

Definition sample_repr (v : json) : string := "<" ++ type_name v ++ ">".

(** ** Sample data *)

Definition quoted (s : string) : string :=
  String "034"%char s ++ String "034"%char "".

Definition newline : string := String "010"%char "".

(** U+00A0 in UTF-8. *)
Definition no_break_space : string :=
  String "194"%char (String "160"%char "").

(** JSON text of a value, for values without floats or characters that
    need escaping. *)
Fixpoint json_text (v : json) : string :=
  match v with
  | JNull => "null"
  | JBool true => "true"
  | JBool false => "false"
  | JInt n => str_of_Z n
  | JFloat _ => "NaN"
  | JStr s => quoted s
  | JArr items =>
      "["
      ++ (fix go (l : list json) : string :=
            match l with
            | [] => ""
            | [x] => json_text x
            | x :: rest => json_text x ++ "," ++ go rest
            end) items
      ++ "]"
  | JObj fields =>
      "{"
      ++ (fix go (d : list (string * json)) : string :=
            match d with
            | [] => ""
            | [(k, x)] => quoted k ++ ":" ++ json_text x
            | (k, x) :: rest =>
                quoted k ++ ":" ++ json_text x ++ "," ++ go rest
            end) fields
      ++ "}"
  end.

Definition connected_event : dict :=
  event "connected" (JObj [("connectionId", JStr "c1")]).

(** The body of an HTTP error whose [error] field is a number. *)
Definition error_body : string := json_text (JObj [("error", JInt 400)]).

Definition sample_values : list json :=
  [JObj connected_event; JObj (user_message "hi");
   JObj (assistant_chunk "a"); JObj (assistant_chunk "ab");
   JObj (event "complete" (JObj [])); JObj (rollback_conflict JNull);
   JObj [("error", JInt 400)]].

Definition sample_loads : string -> loaded :=
  table_loads (map (fun v => (json_text v, v)) sample_values).

(** The two lines that carry one event on the stream. *)
Definition frame (ev : dict) : list stream_item :=
  [RawLine ("data: " ++ json_text (JObj ev) ++ newline); RawLine newline].

Definition sample_cfg : config :=
  {| _host := "localhost"; _port := 9001; _request_timeout := 3600 |}.

Definition session_reply : json :=
  JObj [("success", JBool true); ("session", JObj [("id", JStr "s1")])].

Definition connect_lines : list stream_item := frame connected_event.

(** A world whose stream opens and whose session calls succeed. *)
Definition sample_world (connect : list stream_item) (post : exn + json)
    (passes : list tick) : world :=
  {| open_outcome := None;
     raw_socket := true;
     connect_items := connect;
     setup_items := [];
     load_outcome := inr session_reply;
     create_outcome := inr session_reply;
     post_outcome := post;
     start_time := 0;
     ticks := passes |}.

(** A pass of the polling loop during which the stream delivers nothing. *)
Definition pass (time : Z) (done : bool) : tick :=
  {| arrivals := []; now := time; post_done := done |}.

(** Three such passes; the POST is seen finished on the second, and the
    third is past the deadline. *)
Definition silent_passes : list tick :=
  [pass 1 false; pass 2 true; pass 3600 true].

Definition post_refused : exn + json := inr (JObj [("success", JBool false)]).

Definition post_accepted : exn + json := inr (JObj [("success", JBool true)]).

Definition chat_payload : dict :=
  [("type", JStr "chat"); ("content", JStr "hi"); ("yoloMode", JBool true)].

Definition refused : exn :=
  URLError "<urlopen error [Errno 111] Connection refused>".

Definition timed_out : exn := URLError "<urlopen error timed out>".


(** An integer literal of [n] digits. *)
Fixpoint digits (n : nat) : string :=
  match n with
  | O => ""
  | S n' => String "1"%char (digits n')
  end.

(** A JSON document [json.loads] refuses with ValueError: an integer of
    5000 digits, above the limit of 4300 for the conversion of integers. *)
Definition long_integer : string := digits 5000.

Definition limit_text : string :=
  "Exceeds the limit (4300 digits) for integer string conversion: "
  ++ "value has 5000 digits; use sys.set_int_max_str_digits() "
  ++ "to increase the limit".

Definition limit_loads : string -> loaded :=
  raising_loads long_integer limit_text sample_loads.

(** The answer to the agent probe of [list_agents]: an error that lists the
    agents. *)
Definition probe_error : dict :=
  event "error"
    (JObj [("message", JStr "agent not found");
           ("availableAgents", JArr [JObj [("id", JStr "general")]])]).

(** The terminal event of a switch the server carried out. *)
Definition agent_switched_event : dict :=
  event "agent_switched"
    (JObj [("currentAgentId", JStr "general");
           ("agentName", JStr "General")]).

Definition probe_loads : string -> loaded :=
  table_loads
    (map (fun v => (json_text v, v))
       (JObj probe_error :: JObj agent_switched_event :: sample_values)).

(** A pass of the polling loop during which the reader consumes [items] and
    the POST is seen finished. *)
Definition delivery (time : Z) (items : list stream_item) : tick :=
  {| arrivals := items; now := time; post_done := true |}.

(** A rollback the server answers with a conflict on the second pass. *)
Definition conflict_passes : list tick :=
  [pass 1 false; delivery 2 (frame (rollback_conflict JNull));
   pass 3600 true].

(** A chat answered in one streamed reply and a [complete]. *)
Definition reply_lines : list stream_item :=
  (frame (user_message "hi") ++ frame (assistant_chunk "a")
   ++ frame (event "complete" (JObj [])))%list.

(** The body of an HTTP error whose [error] field is a text. *)
Definition missing_session_body : string :=
  json_text (JObj [("error", JStr "Session not found: s1")]).

Definition confirmation_request : dict :=
  [("type", JStr "tool_confirmation_request");
   ("data", JObj [("tool", JStr "bash")]);
   ("requestId", JStr "req-1")].

(** A client whose methods all succeed, each naming itself. *)
Definition named (method : string) : res ClientResult :=
  Val (with_message (JStr method) (result "success")).

Definition sample_api : client_api :=
  {| api_health_check := named "health_check";
     api_list_sessions := named "list_sessions";
     api_delete_session := fun _ => named "delete_session";
     api_list_rollback_points := fun _ => named "list_rollback_points";
     api_rollback_to := fun _ _ _ _ => named "rollback_to";
     api_list_agents := fun _ => named "list_agents";
     api_send_tool_confirmation := fun _ _ _ => named "send_tool_confirmation";
     api_send_question_answer := fun _ _ _ => named "send_question_answer";
     api_abort_task := fun _ => named "abort_task";
     api_load_session := fun _ => named "load_session";
     api_switch_agent := fun _ _ => named "switch_agent";
     api_send_chat := fun _ _ _ _ => named "send_chat" |}.

(** The arguments of [--load-session s1 --switch-agent general -m hi]. *)
Definition sample_arguments : arguments :=
  {| arg_message := Some "hi";
     arg_session := None;
     arg_image := [];
     arg_no_yolo := false;
     arg_confirm := false;
     arg_reject := false;
     arg_answer := false;
     arg_request_id := None;
     arg_answer_text := None;
     arg_abort := false;
     arg_switch_agent := Some "general";
     arg_list_sessions := false;
     arg_load_session := Some "s1";
     arg_delete_session := None;
     arg_list_agents := false;
     arg_list_rollback_points := false;
     arg_rollback_to := None;
     arg_rollback_files := false;
     arg_rollback_file := [];
     arg_health := false |}.

Section Client.

(** [json.loads]. *)
Variable json_loads : string -> loaded.

(** [repr] of the values whose text Python builds recursively. *)
Variable py_repr : json -> string.

(** The client's configuration, and the world one operation runs in. *)
Variable cfg : config.
Variable w : world.

(** [str(v)]. *)
Definition py_str (v : json) : string :=
  match v with
  | JStr s => s
  | JNull => "None"
  | JBool true => "True"
  | JBool false => "False"
  | JInt n => str_of_Z n
  | JFloat _ | JArr _ | JObj _ => py_repr v
  end.

(** ** The Correlator: event handlers *)

Definition _mark_complete_if_needed (event_type : string) (data : dict)
    (request_id : json) (c : client) : client :=
  if negb (mem event_type (_completion_events c)) then c
  else
    set_completed true
      (set_final_event
         (Some {| fe_type := event_type; fe_data := data;
                  fe_request_id := request_id |}) c).

(** The [connected] branch. *)
Definition on_connected (data : json) (c : client) : client :=
  let connection_id :=
    if is_dict data then dict_get "connectionId" (fields_of data) else JNull in
  set_connected true
    (if truthy connection_id
     then set_connection_id (Some (py_str connection_id)) c
     else c).

(** The [message] branch, [data] being a dictionary.  When no role matches,
    control falls out of the branch to the tests on the other event kinds,
    which all fail for a [message] event: the state is left as it is. *)
Definition on_message (data : dict) (c : client) : client :=
  let role := dict_get "role" data in
  let raw_content := dict_get "content" data in
  let content :=
    match raw_content with JNull => "" | _ => py_str raw_content end in
  if str_eq role "system" && truthy (dict_get "sessionId" data) then
    set_session_id (Some (py_str (dict_get "sessionId" data))) c
  else if str_eq role "user" && negb (content =? "")%string then
    let user_message :=
      ([("role", JStr "user"); ("content", JStr content)]
       ++ match _outbound_image_names c with
          | [] => []
          | names => [("images", JArr (map JStr names))]
          end)%list in
    set_messages (_messages c ++ [JObj user_message])%list c
  else if str_eq role "assistant" then
    if truthy (dict_get "streaming" data)
    then set_stream_content content c
    else set_final_content content c
  else c.

Definition on_interactive (st event_type : string) (data : dict)
    (request_id : json) (c : client) : client :=
  _mark_complete_if_needed event_type data request_id
    (set_pending
       (Some {| pr_status := st; pr_request_id := request_id;
                pr_request_data := data |}) c).

Definition on_agent_list (data : dict) (request_id : json) (c : client)
    : client :=
  let c1 := set_agent_list (Some data) c in
  let c2 :=
    if is_list (dict_get "agents" data) then set_pending None c1 else c1 in
  _mark_complete_if_needed "agent_list" data request_id c2.

Definition on_error (data request_id : json) (c : client) : client :=
  let error_message :=
    if is_dict data then dict_get "message" (fields_of data)
    else JStr (py_str data) in
  let error_code :=
    if is_dict data then dict_get "errorCode" (fields_of data) else JNull in
  let available_agents :=
    if is_dict data then dict_get "availableAgents" (fields_of data)
    else JNull in
  let e :=
    {| err_code := py_or error_code (JStr "server_error");
       err_message := py_or error_message (JStr "SSE 服务返回错误");
       err_available_agents :=
         match available_agents with JArr l => Some l | _ => None end |} in
  _mark_complete_if_needed "error" (fields_of data) request_id
    (set_error (Some e) c).

Definition on_complete (data : dict) (request_id : json) (c : client)
    : client :=
  let c1 :=
    if truthy (dict_get "sessionId" data)
    then set_session_id (Some (py_str (dict_get "sessionId" data))) c
    else c in
  let c2 :=
    match dict_get "usage" data with
    | JObj u => set_usage u c1
    | _ => c1
    end in
  _mark_complete_if_needed "complete" data request_id c2.

(** The body of [_handle_data_block] once the block has parsed to a
    dictionary [event]. *)
Definition handle_event (event : dict) (c : client) : client :=
  let event_type := dict_get "type" event in
  let data :=
    if is_dict (dict_get "data" event) then dict_get "data" event
    else py_or (dict_get "data" event) (JObj []) in
  let request_id := dict_get "requestId" event in
  if str_eq event_type "connected" then on_connected data c
  else if str_eq event_type "message" && is_dict data then
    on_message (fields_of data) c
  else if str_eq event_type "usage" && is_dict data then
    set_usage (fields_of data) c
  else if str_eq event_type "tool_confirmation_request" && is_dict data then
    on_interactive "requires_confirmation" "tool_confirmation_request"
      (fields_of data) request_id c
  else if str_eq event_type "user_question_request" && is_dict data then
    on_interactive "requires_question" "user_question_request"
      (fields_of data) request_id c
  else if str_eq event_type "agent_list" && is_dict data then
    on_agent_list (fields_of data) request_id c
  else if str_eq event_type "agent_switched" && is_dict data then
    _mark_complete_if_needed "agent_switched" (fields_of data) request_id
      (set_agent_switched (Some (fields_of data)) c)
  else if str_eq event_type "rollback_result" && is_dict data then
    _mark_complete_if_needed "rollback_result" (fields_of data) request_id
      (set_rollback_result (Some (fields_of data)) c)
  else if str_eq event_type "error" then on_error data request_id c
  else if str_eq event_type "complete" && is_dict data then
    on_complete (fields_of data) request_id c
  else c.

(** [_handle_data_block]: a block for which [json.loads] raises
    [JSONDecodeError] is logged and dropped; another exception of
    [json.loads] is not caught; a block that parses to something other than
    a dictionary makes [event.get] raise AttributeError, which the handler
    does not catch either. *)
Definition _handle_data_block (data_text : string) (c : client)
    : exn + client :=
  match json_loads data_text with
  | DecodeError => inr c
  | Raised text => inl (OtherError text)
  | Parsed (JObj event) => inr (handle_event event c)
  | Parsed v =>
      inl (OtherError
             ("'" ++ type_name v ++ "' object has no attribute 'get'"))
  end.

(** ** The Correlator: result construction *)

Definition agent_id_text (v : json) : option string :=
  match v with JNull => None | _ => Some (py_str v) end.

Definition final_is (kind : string) (c : client) : bool :=
  match _final_event c with
  | Some fe => (fe_type fe =? kind)%string
  | None => false
  end.

Definition agent_list_result (c : client) (d : dict) : ClientResult :=
  with_current_agent_id (agent_id_text (dict_get "currentAgentId" d))
    (with_agents
       (Some match dict_get "agents" d with JArr l => l | _ => [] end)
       (with_session_id (_session_id c) (result "success"))).

Definition agent_switched_result (c : client) (d : dict) : ClientResult :=
  let agent_name := dict_get "agentName" d in
  with_message
    (JStr (if truthy agent_name
           then "主代理已切换为 " ++ py_str agent_name
           else "主代理切换成功"))
    (with_current_agent_id (agent_id_text (dict_get "currentAgentId" d))
       (with_session_id (_session_id c) (result "success"))).

Definition rollback_result (c : client) (d : dict) : ClientResult :=
  let sid :=
    Some (py_str (py_or (dict_get "sessionId" d) (of_opt (_session_id c)))) in
  if truthy (dict_get "success" d) then
    with_message (JStr "回滚执行成功")
      (with_request_data (Some d)
         (with_session_id sid (result "success")))
  else
    with_request_data (Some d)
      (with_message
         (JStr (py_str (py_or (dict_get "error" d) (JStr "回滚执行失败"))))
         (with_error_code (JStr "rollback_failed")
            (with_session_id sid (result "error")))).

Definition generic_result (c : client) : ClientResult :=
  let assistant_content :=
    if negb (_assistant_final_content c =? "")%string
    then _assistant_final_content c
    else _assistant_stream_content c in
  let merged_messages :=
    if negb (assistant_content =? "")%string
    then (_messages c
          ++ [JObj [("role", JStr "assistant");
                    ("content", JStr assistant_content)]])%list
    else _messages c in
  with_usage (_usage c)
    (with_messages merged_messages
       (with_session_id (_session_id c) (result "success"))).

Definition _build_result (c : client) : ClientResult :=
  match _pending_request c with
  | Some p =>
      with_request_data (Some (pr_request_data p))
        (with_request_id (pr_request_id p)
           (with_usage (_usage c)
              (with_messages (_messages c)
                 (with_session_id (_session_id c) (result (pr_status p))))))
  | None =>
  match _error c with
  | Some e =>
      with_available_agents (err_available_agents e)
        (with_message (err_message e)
           (with_error_code (err_code e)
              (with_usage (_usage c)
                 (with_messages (_messages c)
                    (with_session_id (_session_id c) (result "error"))))))
  | None =>
  match (if final_is "agent_list" c then _agent_list_data c else None) with
  | Some d => agent_list_result c d
  | None =>
  match (if final_is "agent_switched" c then _agent_switched_data c
         else None) with
  | Some d => agent_switched_result c d
  | None =>
  match (if final_is "rollback_result" c then _rollback_result_data c
         else None) with
  | Some d => rollback_result c d
  | None => generic_result c
  end end end end end.

(** ** The Event Stream Reader *)

(** The [except Exception] clause of [_event_reader_loop]. *)
Definition reader_except (text : string) (c : client) : client :=
  if negb (_completed_event c) then
    set_completed true
      (set_error
         (Some {| err_code := JStr "event_stream_error";
                  err_message := JStr ("读取 SSE 事件失败: " ++ text);
                  err_available_agents := None |}) c)
  else c.

(** One turn of the [for raw_line in self._stream_response] loop. *)
Definition reader_step (item : stream_item) (rc : reader * client)
    : reader * client :=
  let (r, c) := rc in
  if negb (alive r) then rc
  else
    match item with
    | StreamEnd => ({| data_lines := data_lines r; alive := false |}, c)
    | ReadFailure text =>
        ({| data_lines := data_lines r; alive := false |},
         reader_except text c)
    | RawLine raw =>
        let line := rstrip_crlf raw in
        if starts_with "data:" line then
          ({| data_lines := (data_lines r ++ [lstrip (drop 5 line)])%list;
              alive := true |}, c)
        else if (line =? "")%string then
          match data_lines r with
          | [] => ({| data_lines := []; alive := negb (_completed_event c) |}, c)
          | lines =>
              match _handle_data_block (join_lines lines) c with
              | inr c' =>
                  ({| data_lines := [];
                      alive := negb (_completed_event c') |}, c')
              | inl e =>
                  ({| data_lines := lines; alive := false |},
                   reader_except (exn_str e) c)
              end
          end
        else rc
    end.

Definition reader_run (items : list stream_item) (rc : reader * client)
    : reader * client :=
  fold_left (fun acc item => reader_step item acc) items rc.

(** ** Error results *)

(** [needle in msg]: substring for text, membership for a list, key lookup
    for a dictionary; [None] is the TypeError every other value raises. *)
Definition py_in (needle : string) (msg : json) : option bool :=
  match msg with
  | JStr s => Some (contains needle s)
  | JArr items => Some (existsb (fun v => str_eq v needle) items)
  | JObj d => Some (dict_has needle d)
  | JNull | JBool _ | JInt _ | JFloat _ => None
  end.

Definition not_iterable (v : json) : exn :=
  OtherError ("argument of type '" ++ type_name v ++ "' is not iterable").

Definition server_hint : string :=
  "请确保 SSE 服务器已启动: snow --sse --sse-port " ++ str_of_Z (_port cfg).

(** [_connection_failed_result]. *)
Definition _connection_failed_result (e : exn) : ClientResult :=
  with_suggestion (Some server_hint)
    (with_message
       (JStr ("无法连接到 SSE 服务器 (" ++ _host cfg ++ ":"
              ++ str_of_Z (_port cfg) ++ "): " ++ exn_str e))
       (with_error_code (JStr "connection_failed") (result "error"))).

(** The first part of [_http_error_to_result]: the dictionary read from the
    body, empty when the body is empty, is not JSON or is not a dictionary.
    An exception of [json.loads] other than [JSONDecodeError] is not
    caught. *)
Definition parse_error_body (body : string) : exn + dict :=
  if (body =? "")%string then inr []
  else match json_loads body with
       | Parsed (JObj d) => inr d
       | Parsed _ | DecodeError => inr []
       | Raised text => inl (OtherError text)
       end.

(** [_http_error_to_result], for an HTTPError with the given status code,
    reason and body text (empty when the body cannot be read).  An
    exception of [json.loads] other than [JSONDecodeError] is not caught.
    The three [in msg] tests raise TypeError when the server's ["error"] or
    ["message"] is a number or a boolean. *)
Definition _http_error_to_result (code : Z) (reason body : string)
    : exn + ClientResult :=
  match parse_error_body body with
  | inl e => inl e
  | inr parsed_body =>
  let msg :=
    py_or (py_or (dict_get "error" parsed_body)
                 (dict_get "message" parsed_body))
          (JStr ("HTTP " ++ str_of_Z code ++ ": " ++ reason)) in
  let session_not_found (text : string) :=
    with_message (JStr (text ++ py_str msg))
      (with_error_code (JStr "session_not_found") (result "error")) in
  match (if code =? 404 then py_in "Session not found" msg else Some false) with
  | None => inl (not_iterable msg)
  | Some true => inr (session_not_found "会话不存在: ")
  | Some false =>
  match (if code =? 400 then py_in "Session not found" msg else Some false) with
  | None => inl (not_iterable msg)
  | Some true => inr (session_not_found "会话不存在或连接已关闭: ")
  | Some false =>
  match py_in "No active connection" msg with
  | None => inl (not_iterable msg)
  | Some true =>
      inr (with_suggestion (Some server_hint)
             (with_message msg
                (with_error_code (JStr "connection_failed")
                   (result "error"))))
  | Some false =>
      inr (with_message msg
             (with_error_code (JStr "server_error") (result "error")))
  end end end end.

(** ** The Operation Orchestrator *)

(** One operation runs three threads: the main thread, the reader thread
    and the POST thread.  The model follows the main thread through
    [_run_message_operation] and takes what the other two do from the
    [world]: how each HTTP call ends, and, at every point where the main
    thread looks at shared state (the wait on the connected flag, each pass
    of the polling loop), the stream items the reader has consumed since
    the previous look.  The reader handles a whole block between two looks;
    the clock is read as an integer. *)

Definition M (A : Type) : Type := machine -> machine * res A.

Definition ret {A} (a : A) : M A := fun m => (m, Val a).

Definition bind {A B} (x : M A) (k : A -> M B) : M B :=
  fun m =>
    let (m1, r) := x m in
    match r with
    | Val a => k a m1
    | Exc e => (m1, Exc e)
    | Stuck => (m1, Stuck)
    end.

Definition raise {A} (e : exn) : M A := fun m => (m, Exc e).

(** [try: body except ...: handler]. *)
Definition try_except {A} (body : M A) (handler : exn -> M A) : M A :=
  fun m =>
    let (m1, r) := body m in
    match r with
    | Exc e => handler e m1
    | _ => (m1, r)
    end.

(** [try: body finally: cleanup], for a cleanup that does not raise. *)
Definition try_finally {A} (body : M A) (cleanup : machine -> machine)
    : M A :=
  fun m =>
    let (m1, r) := body m in
    match r with
    | Stuck => (m1, Stuck)
    | _ => (cleanup m1, r)
    end.

Notation "x <- e1 ;; e2" := (bind e1 (fun x => e2))
  (at level 61, e1 at next level, right associativity).
Notation "e1 ;; e2" := (bind e1 (fun _ => e2))
  (at level 61, right associativity).

Definition get_client : M client := fun m => (m, Val (cl m)).

Definition modify_client (f : client -> client) : M unit :=
  fun m =>
    ({| cl := f (cl m); rd := rd m; _stream_response := _stream_response m;
        _stream_sock := _stream_sock m; _reader_thread := _reader_thread m;
        trace := trace m |}, Val tt).

Definition emit (a : action) : M unit :=
  fun m =>
    ({| cl := cl m; rd := rd m; _stream_response := _stream_response m;
        _stream_sock := _stream_sock m; _reader_thread := _reader_thread m;
        trace := (trace m ++ [a])%list |}, Val tt).

(** The reader thread consumes [items] while the main thread waits. *)
Definition observe (items : list stream_item) (m : machine) : machine :=
  let rc := reader_run items (rd m, cl m) in
  {| cl := snd rc; rd := fst rc; _stream_response := _stream_response m;
     _stream_sock := _stream_sock m; _reader_thread := _reader_thread m;
     trace := trace m |}.

Definition advance (items : list stream_item) : M unit :=
  fun m => (observe items m, Val tt).

(** [_open_event_stream]. *)
Definition _open_event_stream : M unit :=
  emit AGetEvents ;;
  match open_outcome w with
  | Some e => raise e
  | None =>
      fun m =>
        ({| cl := cl m; rd := rd m; _stream_response := true;
            _stream_sock := raw_socket w;
            _reader_thread := _reader_thread m; trace := trace m |}, Val tt)
  end.

(** [reader.start()]: [_event_reader_loop] begins with the stream open. *)
Definition start_reader : M unit :=
  emit AStartReader ;;
  fun m =>
    ({| cl := cl m; rd := {| data_lines := []; alive := _stream_response m |};
        _stream_response := _stream_response m;
        _stream_sock := _stream_sock m; _reader_thread := true;
        trace := trace m |}, Val tt).

(** [_close_event_stream].  Closing the socket makes the reader's blocked
    read fail; by then the completion flag is set, so the reader's
    [except] clause leaves the client as it is. *)
Definition _close_event_stream (m : machine) : machine :=
  {| cl := set_completed true (cl m);
     rd := rd m;
     _stream_response := false;
     _stream_sock := false;
     _reader_thread := false;
     trace := (trace m ++ ASetCompleted :: closing_steps m)%list |}.

Definition opt_truthy (o : option string) : bool :=
  match o with Some s => negb (s =? "")%string | None => false end.

Definition no_get (v : json) : exn :=
  OtherError ("'" ++ type_name v ++ "' object has no attribute 'get'").

(** The [session] entry of a session response, when it carries an id. *)
Definition session_of (response : dict) : option string :=
  match dict_get "session" response with
  | JObj s =>
      if truthy (dict_get "id" s) then Some (py_str (dict_get "id" s))
      else None
  | _ => None
  end.

(** [_bind_session_to_connection]. *)
Definition _bind_session_to_connection (session : string) : M unit :=
  c <- get_client ;;
  if negb (opt_truthy (_connection_id c)) || (session =? "")%string
  then ret tt
  else
    emit (APost "/session/load"
            [("sessionId", JStr session);
             ("connectionId", of_opt (_connection_id c))]) ;;
    advance (setup_items w) ;;
    match load_outcome w with
    | inl _ => ret tt
    | inr (JObj response) =>
        if negb (truthy (dict_get "success" response)) then ret tt
        else match session_of response with
             | Some sid => modify_client (set_session_id (Some sid))
             | None => ret tt
             end
    | inr v => raise (no_get v)
    end.

(** [_ensure_session_for_connection]. *)
Definition _ensure_session_for_connection : M (option string) :=
  c <- get_client ;;
  if negb (opt_truthy (_connection_id c)) then ret None
  else
    emit (APost "/session/create"
            [("connectionId", of_opt (_connection_id c))]) ;;
    advance (setup_items w) ;;
    match create_outcome w with
    | inl _ => ret None
    | inr (JObj response) =>
        if negb (truthy (dict_get "success" response)) then ret None
        else match session_of response with
             | Some sid =>
                 modify_client (set_session_id (Some sid)) ;;
                 c' <- get_client ;;
                 ret (_session_id c')
             | None => ret None
             end
    | inr v => raise (no_get v)
    end.

(** The check of the POST response, made once [post_done] is seen set. *)
Definition check_post_response : M unit :=
  match post_outcome w with
  | inl e => raise e
  | inr post_result =>
      if is_dict post_result
         && negb (truthy (dict_get "success" (fields_of post_result)))
      then raise (OtherError ("发送消息失败: " ++ py_str post_result))
      else ret tt
  end.

(** The [while True] loop.  It returns [post_response_checked] and the
    reading of [post_done] of the pass it left on. *)
Fixpoint poll (wait_sse_completion : bool) (deadline : Z)
    (remaining_ticks : list tick) (post_response_checked : bool)
    : M (bool * bool) :=
  match remaining_ticks with
  | [] => fun m => (m, Stuck)
  | tk :: rest =>
      advance (arrivals tk) ;;
      if deadline - now tk <=? 0
      then raise (TimeoutError "等待 SSE 响应完成超时")
      else
        c <- get_client ;;
        if wait_sse_completion && _completed_event c
        then ret (post_response_checked, post_done tk)
        else if post_done tk && negb post_response_checked then
          check_post_response ;;
          if negb wait_sse_completion then ret (true, post_done tk)
          else poll wait_sse_completion deadline rest true
        else poll wait_sse_completion deadline rest post_response_checked
  end.

(** The [try] block of [_run_message_operation] up to the start of the
    POST thread; its value is the payload sent to [/message]. *)
Definition operation_setup (payload : dict) (session : option string)
    (ensure_session_if_missing : bool) : M dict :=
  _open_event_stream ;;
  start_reader ;;
  advance (connect_items w) ;;
  c <- get_client ;;
  if negb (_connected_event c)
  then raise (TimeoutError "连接 SSE 事件流超时")
  else
    payload' <-
      (if opt_truthy session then
         _bind_session_to_connection
           (match session with Some s => s | None => "" end) ;;
         ret (dict_set "sessionId" (of_opt session) payload)
       else if ensure_session_if_missing then
         effective_session_id <- _ensure_session_for_connection ;;
         if opt_truthy effective_session_id
         then ret (dict_set "sessionId" (of_opt effective_session_id) payload)
         else ret payload
       else ret payload) ;;
    emit (APost "/message" payload') ;;
    ret payload'.

Definition deadline_of : Z := start_time w + _request_timeout cfg.

(** The rest of the [try] block: the polling loop, the check of the POST
    response after it, and [_build_result]. *)
Definition operation_wait (wait_sse_completion : bool) : M ClientResult :=
  left <- poll wait_sse_completion deadline_of (ticks w) false ;;
  (if snd left && negb (fst left) then check_post_response else ret tt) ;;
  c <- get_client ;;
  ret (_build_result c).

Definition operation_body (payload : dict) (session : option string)
    (ensure_session_if_missing wait_sse_completion : bool)
    : M ClientResult :=
  operation_setup payload session ensure_session_if_missing ;;
  operation_wait wait_sse_completion.

(** The [except] clauses of [_run_message_operation], in their order. *)
Definition operation_except (e : exn) : M ClientResult :=
  c <- get_client ;;
  match e with
  | TimeoutError text =>
      ret (with_message (JStr text)
             (with_error_code (JStr "timeout")
                (with_session_id (_session_id c) (result "error"))))
  | HTTPError code reason body =>
      match _http_error_to_result code reason body with
      | inr r => ret r
      | inl e' => raise e'
      end
  | URLError _ => ret (_connection_failed_result e)
  | OtherError text =>
      ret (with_message (JStr text)
             (with_error_code (JStr "unexpected_error")
                (with_session_id (_session_id c) (result "error"))))
  end.

(** The machine an operation starts on: [_reset_runtime_state] has run and
    no stream is open. *)
Definition initial (session : option string)
    (completion_events outbound_image_names : list string) : machine :=
  {| cl := _reset_runtime_state session completion_events
             outbound_image_names;
     rd := {| data_lines := []; alive := false |};
     _stream_response := false;
     _stream_sock := false;
     _reader_thread := false;
     trace := [] |}.

Definition _run_message_operation (payload : dict) (session : option string)
    (completion_events : list string) (ensure_session_if_missing : bool)
    (outbound_image_names : list string) (wait_sse_completion : bool)
    : machine * res ClientResult :=
  try_finally
    (try_except
       (operation_body payload session ensure_session_if_missing
          wait_sse_completion)
       operation_except)
    _close_event_stream
    (initial session completion_events outbound_image_names).

(** ** Public commands *)

Definition chat_events : list string :=
  ["complete"; "tool_confirmation_request"; "user_question_request";
   "error"].

(** [os.path.basename]. *)
Fixpoint basename_from (acc s : string) : string :=
  match s with
  | EmptyString => acc
  | String a s' =>
      if Ascii.eqb a "/"%char then basename_from "" s'
      else basename_from (acc ++ String a "") s'
  end.

(** [send_chat].  [images_payload] is how [_build_images_payload] ends for
    [images]; an exception that is neither FileNotFoundError nor ValueError
    leaves [send_chat] before the operation has started. *)
Definition send_chat (content : string) (session : option string)
    (images : list string) (images_payload : images_outcome)
    (yolo_mode : bool) : machine * res ClientResult :=
  let payload : dict :=
    [("type", JStr "chat"); ("content", JStr content);
     ("yoloMode", JBool yolo_mode)] in
  let run payload image_names :=
    _run_message_operation payload session chat_events true image_names
      true in
  match images with
  | [] => run payload []
  | _ =>
      match images_payload with
      | Encoded encoded =>
          run (dict_set "images" (JArr encoded) payload)
            (map (basename_from "")
               (filter (fun path => negb (path =? "")%string) images))
      | Missing text =>
          (initial session [] [],
           Val (with_message (JStr text)
                  (with_error_code (JStr "invalid_args")
                     (with_session_id session (result "error")))))
      | Unreadable e => (initial session [] [], Exc e)
      end
  end.





Definition switch_agent (agent_id : string) (session : option string)
    : machine * res ClientResult :=
  _run_message_operation
    [("type", JStr "switch_agent"); ("agentId", JStr agent_id)]
    session ["agent_switched"; "error"] true [] true.

(** [list_agents]: the probe with an agent id that does not exist. *)
Definition list_agents (session : option string)
    : machine * res ClientResult :=
  let (m, out) :=
    _run_message_operation
      [("type", JStr "switch_agent");
       ("agentId", JStr "__agent_probe_not_exists__")]
      session ["agent_list"; "error"] true [] true in
  match out with
  | Val raw =>
      match (status raw =? "success")%string, agents raw with
      | true, Some _ => (m, Val raw)
      | _, _ =>
          match available_agents raw with
          | Some listed =>
              (m, Val (with_current_agent_id (current_agent_id raw)
                         (with_agents (Some listed)
                            (with_session_id (session_id raw)
                               (result "success")))))
          | None => (m, Val raw)
          end
      end
  | _ => (m, out)
  end.

Definition rollback_to (session : string) (message_index : Z)
    (rollback_files : bool) (selected_files : list string)
    : machine * res ClientResult :=
  let rollback_payload : dict :=
    ([("messageIndex", JInt message_index);
      ("rollbackFiles", JBool rollback_files)]
     ++ match selected_files with
        | [] => []
        | files => [("selectedFiles", JArr (map JStr files))]
        end)%list in
  _run_message_operation
    [("type", JStr "rollback"); ("rollback", JObj rollback_payload)]
    (Some session) ["rollback_result"; "error"] false [] true.

(** [health_check], given how [_get_json("/health")] ends.  HTTPError is a
    subclass of URLError, so both take the first [except] clause.  A body
    [null] is Python's [None], which is what an absent [health] is. *)
Definition health_check (outcome : exn + json) : ClientResult :=
  match outcome with
  | inr response =>
      with_health (match response with JNull => None | _ => Some response end)
        (result "success")
  | inl (HTTPError _ _ _ as e) | inl (URLError _ as e) =>
      _connection_failed_result e
  | inl e =>
      with_message (JStr (exn_str e))
        (with_error_code (JStr "unexpected_error") (result "error"))
  end.

(** The [except Exception] clause of the session commands. *)
Definition unexpected_error (session : string) (text : string)
    : ClientResult :=
  with_message (JStr text)
    (with_error_code (JStr "unexpected_error")
       (with_session_id (Some session) (result "error"))).

(** The response of a session call that the command accepts: a dictionary
    with a truthy [success].  Anything else raises inside the [try]:
    AttributeError for a value without [get], RuntimeError with the given
    prefix for a refusal. *)
Definition accepted (prefix : string) (response : json) : exn + dict :=
  match response with
  | JObj d =>
      if truthy (dict_get "success" d) then inr d
      else inl (OtherError (prefix ++ py_str response))
  | v => inl (no_get v)
  end.

(** [abort_task], given how the POST to [/message] ends.  There is no
    clause for HTTPError, so an HTTP error status is reported by the
    URLError clause. *)
Definition abort_task (session : string) (outcome : exn + json)
    : ClientResult :=
  let attempt :=
    match outcome with
    | inl e => inl e
    | inr post_result => accepted "发送中断请求失败: " post_result
    end in
  match attempt with
  | inr _ =>
      with_message (JStr "任务已中断")
        (with_session_id (Some session) (result "success"))
  | inl e =>
      if is_url_error e then _connection_failed_result e
      else unexpected_error session (exn_str e)
  end.

(** The three [except] clauses shared by [load_session], [delete_session]
    and [list_rollback_points]. *)
Definition session_except (session : string) (e : exn)
    : exn + ClientResult :=
  match e with
  | HTTPError code reason body => _http_error_to_result code reason body
  | URLError _ => inr (_connection_failed_result e)
  | TimeoutError _ | OtherError _ =>
      inr (unexpected_error session (exn_str e))
  end.

(** [delete_session], given how the DELETE request ends. *)
Definition delete_session (session : string) (outcome : exn + json)
    : exn + ClientResult :=
  let attempt :=
    match outcome with
    | inl e => inl e
    | inr response => accepted "删除会话失败: " response
    end in
  match attempt with
  | inr response =>
      inr (with_message (JStr "会话删除完成")
             (with_deleted (Some (truthy (dict_get "deleted" response)))
                (with_session_id (Some session) (result "success"))))
  | inl e => session_except session e
  end.

(** [list_rollback_points], given how the GET request ends. *)
Definition list_rollback_points (session : string) (outcome : exn + json)
    : exn + ClientResult :=
  let attempt :=
    match outcome with
    | inl e => inl e
    | inr response => accepted "获取回滚点失败: " response
    end in
  match attempt with
  | inr response =>
      let normalized_points :=
        match dict_get "points" response with JArr l => l | _ => [] end in
      inr (with_total (Some (Z.of_nat (length normalized_points)))
             (with_rollback_points (Some normalized_points)
                (with_session_id (Some session) (result "success"))))
  | inl e => session_except session e
  end.

(** ** States of an operation *)

(** The client states an operation passes through before teardown: the
    reset state, then events handled, stream failures recorded, and session
    ids adopted from the session calls. *)
Inductive reachable (session : option string) (evs names : list string)
    : client -> Prop :=
| reach_reset :
    reachable session evs names (_reset_runtime_state session evs names)
| reach_event ev c :
    reachable session evs names c ->
    reachable session evs names (handle_event ev c)
| reach_failure text c :
    reachable session evs names c ->
    reachable session evs names (reader_except text c)
| reach_session sid c :
    reachable session evs names c ->
    reachable session evs names (set_session_id sid c).

(** What holds of every reachable state. *)
Record well_formed (evs : list string) (c : client) : Prop := {
  wf_events : _completion_events c = evs;
  wf_pending :
    forall p, _pending_request c = Some p ->
      pr_status p = "requires_confirmation"
      \/ pr_status p = "requires_question";
  wf_messages : forallb is_user_entry (_messages c) = true;
  wf_completed :
    _completed_event c = true -> _final_event c <> None \/ _error c <> None;
  wf_final :
    forall fe, _final_event c = Some fe -> mem (fe_type fe) evs = true
}.

(** Polling passes in which nothing ends the wait: the deadline is ahead,
    [post_done] is not set and, when the operation waits for the stream,
    the completion flag is not set either.  [idle] gives the machine after
    such passes. *)
Fixpoint idle (wait_sse_completion : bool) (passes : list tick)
    (m : machine) : option machine :=
  match passes with
  | [] => Some m
  | tk :: rest =>
      let m' := observe (arrivals tk) m in
      if (0 <? deadline_of - now tk)
         && negb (post_done tk)
         && negb (wait_sse_completion && _completed_event (cl m'))
      then idle wait_sse_completion rest m'
      else None
  end.

(** A computation that keeps a property of the client. *)
Definition preserves (P : client -> Prop) {A} (x : M A) : Prop :=
  forall m m' r, x m = (m', r) -> P (cl m) -> P (cl m').

(** A computation that cannot run out of passes. *)
Definition ends {A} (x : M A) : Prop := forall m, snd (x m) <> Stuck.

(** The event kinds [_handle_data_block] has a branch for. *)
Definition known_kinds : list string :=
  ["connected"; "message"; "usage"; "tool_confirmation_request";
   "user_question_request"; "agent_list"; "agent_switched";
   "rollback_result"; "error"; "complete"].

(** What an event adds to the message history: the entry of a user message
    with non-empty content, nothing otherwise. *)
Definition history_entry (names : list string) (ev : dict) : list json :=
  match dict_get "data" ev with
  | JObj d =>
      let content :=
        match dict_get "content" d with
        | JNull => ""
        | _ => py_str (dict_get "content" d)
        end in
      if str_eq (dict_get "type" ev) "message"
         && str_eq (dict_get "role" d) "user"
         && negb (content =? "")%string
      then [user_entry content names]
      else []
  | _ => []
  end.

(** The text a [data:] line contributes to its block. *)
Definition line_payload (raw : string) : string :=
  lstrip (drop 5 (rstrip_crlf raw)).

(** The reader has left its loop whenever the completion flag is set. *)
Definition settled (rc : reader * client) : Prop :=
  _completed_event (snd rc) = true -> alive (fst rc) = false.

(** A POST response the polling loop rejects: a dictionary whose [success]
    is falsy. *)
Definition refusal (post_result : json) : bool :=
  is_dict post_result
  && negb (truthy (dict_get "success" (fields_of post_result))).

(** Polling passes in which the deadline is ahead and the completion flag
    is unset, whatever the POST thread does meanwhile.  [quiet] gives the
    machine after such passes. *)
Fixpoint quiet (passes : list tick) (m : machine) : option machine :=
  match passes with
  | [] => Some m
  | tk :: rest =>
      let m' := observe (arrivals tk) m in
      if (0 <? deadline_of - now tk) && negb (_completed_event (cl m'))
      then quiet rest m'
      else None
  end.

(** The POSTs one operation may issue, in order: at most one session call,
    then at most one command. *)
Definition post_sequence_ok (posts : list action) : bool :=
  match posts with
  | [] => true
  | [APost path _] =>
      mem path ["/session/load"; "/session/create"; "/message"]
  | [APost first _; APost second _] =>
      mem first ["/session/load"; "/session/create"]
      && (second =? "/message")%string
  | _ => false
  end.

(** A computation that issues no request. *)
Definition silent {A} (x : M A) : Prop :=
  forall m m' r, x m = (m', r) -> trace m' = trace m.

(** The payload a typed final event is built from is stored when the event
    is recorded, and a recorded [error] event has left its error. *)
Record typed_payloads (c : client) : Prop := {
  tp_agent_list :
    final_is "agent_list" c = true -> _agent_list_data c <> None;
  tp_agent_switched :
    final_is "agent_switched" c = true -> _agent_switched_data c <> None;
  tp_rollback_result :
    final_is "rollback_result" c = true -> _rollback_result_data c <> None;
  tp_error : final_is "error" c = true -> _error c <> None
}.

(** A recorded final event of a typed kind carries the payload stored for
    that kind, and a recorded final event means the completion flag is
    set. *)
Record final_payloads (c : client) : Prop := {
  fp_completed : _final_event c <> None -> _completed_event c = true;
  fp_agent_list :
    forall fe, _final_event c = Some fe -> fe_type fe = "agent_list" ->
      _agent_list_data c = Some (fe_data fe);
  fp_agent_switched :
    forall fe, _final_event c = Some fe -> fe_type fe = "agent_switched" ->
      _agent_switched_data c = Some (fe_data fe);
  fp_rollback_result :
    forall fe, _final_event c = Some fe -> fe_type fe = "rollback_result" ->
      _rollback_result_data c = Some (fe_data fe)
}.

(** The text [_http_error_to_result] classifies: the [error] of the body,
    else its [message], else the status line. *)
Definition http_error_msg (code : Z) (reason : string) (parsed_body : dict)
    : json :=
  py_or (py_or (dict_get "error" parsed_body)
               (dict_get "message" parsed_body))
        (JStr ("HTTP " ++ str_of_Z code ++ ": " ++ reason)).

(** A response that a session command accepts. *)
Definition accepts (outcome : exn + json) : Prop :=
  exists d, outcome = inr (JObj d) /\ truthy (dict_get "success" d) = true.

(** The calls [run_command] can make for given arguments, each with the
    arguments it would be made with. *)
Definition client_calls (api : client_api) (a : arguments)
    : list (res ClientResult) :=
  [api_health_check api;
   api_list_sessions api;
   api_delete_session api (arg_delete_session a);
   api_list_rollback_points api (arg_session a);
   match arg_rollback_to a with
   | Some message_index =>
       api_rollback_to api (arg_session a) message_index
         (arg_rollback_files a) (arg_rollback_file a)
   | None => api_health_check api
   end;
   api_list_agents api (arg_session a);
   api_send_tool_confirmation api (arg_session a) (arg_request_id a) true;
   api_send_tool_confirmation api (arg_session a) (arg_request_id a) false;
   api_send_question_answer api (arg_session a) (arg_request_id a)
     (arg_answer_text a);
   api_abort_task api (arg_session a);
   api_load_session api (arg_load_session a);
   api_switch_agent api (arg_switch_agent a) (arg_session a);
   api_switch_agent api (arg_switch_agent a) (arg_load_session a);
   api_send_chat api (arg_message a) (arg_session a) (arg_image a)
     (negb (arg_no_yolo a));
   api_send_chat api (arg_message a) (arg_load_session a) (arg_image a)
     (negb (arg_no_yolo a))].

(** The keys [to_dict] writes only for some Results. *)
Definition request_key_names : list string :=
  ["request_data"; "tool_call"; "available_options"; "message"; "question";
   "options"; "multi_select"].

(** * Properties *)

(** ** Reachable states are well formed *)

Ltac split_ifs :=
  repeat match goal with
         | |- context [if ?b then _ else _] => destruct b eqn:?
         | |- context [match ?x with _ => _ end] => destruct x eqn:?
         end.

Lemma mark_complete_cases t d r c :
  _mark_complete_if_needed t d r c = c
  \/ (mem t (_completion_events c) = true
      /\ _mark_complete_if_needed t d r c
         = set_completed true
             (set_final_event
                (Some {| fe_type := t; fe_data := d; fe_request_id := r |})
                c)).
Proof.
  unfold _mark_complete_if_needed.
  destruct (mem t (_completion_events c)); cbn; auto.
Qed.

Lemma well_formed_mark t d r evs c :
  well_formed evs c -> well_formed evs (_mark_complete_if_needed t d r c).
Proof.
  intros [He Hp Hm Hc Hf].
  destruct (mark_complete_cases t d r c) as [-> | [Hin ->]].
  - constructor; assumption.
  - constructor; cbn; auto.
    + intros _. left. discriminate.
    + intros fe [= <-]. cbn. now rewrite <- He.
Qed.

Lemma well_formed_reset session evs names :
  well_formed evs (_reset_runtime_state session evs names).
Proof. constructor; cbn; auto; discriminate. Qed.

Lemma forallb_snoc {A} (f : A -> bool) l x :
  forallb f (l ++ [x]) = forallb f l && f x.
Proof. rewrite forallb_app. cbn. now rewrite andb_true_r. Qed.

Lemma well_formed_message evs d c :
  well_formed evs c -> well_formed evs (on_message d c).
Proof.
  intros [He Hp Hm Hc Hf]. unfold on_message.
  split_ifs; constructor; cbn; auto;
    rewrite forallb_snoc, Hm; reflexivity.
Qed.

Lemma well_formed_event evs ev c :
  well_formed evs c -> well_formed evs (handle_event ev c).
Proof.
  intros Hwf. unfold handle_event.
  set (data := if is_dict (dict_get "data" ev) then _ else _).
  set (rid := dict_get "requestId" ev).
  destruct (str_eq (dict_get "type" ev) "connected").
  { destruct Hwf. unfold on_connected. split_ifs; constructor; cbn; auto. }
  destruct (str_eq (dict_get "type" ev) "message" && is_dict data).
  { now apply well_formed_message. }
  destruct (str_eq (dict_get "type" ev) "usage" && is_dict data).
  { destruct Hwf. constructor; cbn; auto. }
  destruct (str_eq (dict_get "type" ev) "tool_confirmation_request"
            && is_dict data).
  { apply well_formed_mark. destruct Hwf. constructor; cbn; auto.
    intros p [= <-]. cbn. auto. }
  destruct (str_eq (dict_get "type" ev) "user_question_request"
            && is_dict data).
  { apply well_formed_mark. destruct Hwf. constructor; cbn; auto.
    intros p [= <-]. cbn. auto. }
  destruct (str_eq (dict_get "type" ev) "agent_list" && is_dict data).
  { apply well_formed_mark. destruct Hwf.
    destruct (is_list (dict_get "agents" (fields_of data)));
      constructor; cbn; auto; discriminate. }
  destruct (str_eq (dict_get "type" ev) "agent_switched" && is_dict data).
  { apply well_formed_mark. destruct Hwf. constructor; cbn; auto. }
  destruct (str_eq (dict_get "type" ev) "rollback_result" && is_dict data).
  { apply well_formed_mark. destruct Hwf. constructor; cbn; auto. }
  destruct (str_eq (dict_get "type" ev) "error").
  { apply well_formed_mark. destruct Hwf. constructor; cbn; auto.
    intros _. right. discriminate. }
  destruct (str_eq (dict_get "type" ev) "complete" && is_dict data).
  { apply well_formed_mark. destruct Hwf.
    split_ifs; constructor; cbn; auto. }
  assumption.
Qed.

Lemma well_formed_failure evs text c :
  well_formed evs c -> well_formed evs (reader_except text c).
Proof.
  intros Hwf. unfold reader_except.
  destruct (_completed_event c); cbn; [assumption |].
  destruct Hwf. constructor; cbn; auto. intros _. right. discriminate.
Qed.

Lemma well_formed_session evs sid c :
  well_formed evs c -> well_formed evs (set_session_id sid c).
Proof. intros []. constructor; cbn; auto. Qed.

Lemma reachable_well_formed session evs names c :
  reachable session evs names c -> well_formed evs c.
Proof.
  induction 1;
    auto using well_formed_reset, well_formed_event, well_formed_failure,
      well_formed_session.
Qed.

(** ** Result construction *)

Lemma build_result_generic c :
  _pending_request c = None -> _error c = None ->
  (forall fe, _final_event c = Some fe ->
     (fe_type fe = "agent_list" -> _agent_list_data c = None)
     /\ (fe_type fe = "agent_switched" -> _agent_switched_data c = None)
     /\ (fe_type fe = "rollback_result" ->
         _rollback_result_data c = None)) ->
  _build_result c = generic_result c.
Proof.
  intros Hp He Hno. unfold _build_result, final_is. rewrite Hp, He.
  destruct (_final_event c) as [fe |]; [| reflexivity].
  destruct (Hno fe eq_refl) as (Ha & Hs & Hr).
  destruct (fe_type fe =? "agent_list")%string eqn:E1.
  { apply String.eqb_eq in E1. rewrite (Ha E1), E1. reflexivity. }
  destruct (fe_type fe =? "agent_switched")%string eqn:E2.
  { apply String.eqb_eq in E2. rewrite (Hs E2), E2. reflexivity. }
  destruct (fe_type fe =? "rollback_result")%string eqn:E3.
  { apply String.eqb_eq in E3. rewrite (Hr E3). reflexivity. }
  reflexivity.
Qed.

(** C1.  Precedence of [_build_result] on every state an operation can
    reach: a pending interactive request wins and gives one of the two
    [requires_] statuses; otherwise a stored error gives status [error];
    otherwise the payload stored for the kind of the final event gives the
    agent-list, agent-switched or rollback shape (a falsy rollback
    [success] turning into the [rollback_failed] error); otherwise the
    generic success carries the user messages, followed by one assistant
    message taken from the final content or else the streaming content when
    either is non-empty, and the usage snapshot. *)
Theorem build_result_precedence session evs names c :
  reachable session evs names c ->
  let r := _build_result c in
  (forall p, _pending_request c = Some p ->
     (status r = "requires_confirmation" \/ status r = "requires_question")
     /\ status r = pr_status p
     /\ request_id r = pr_request_id p
     /\ request_data r = Some (pr_request_data p))
  /\ (_pending_request c = None ->
      forall e, _error c = Some e ->
        status r = "error"
        /\ error_code r = err_code e
        /\ message r = err_message e)
  /\ (_pending_request c = None -> _error c = None ->
      forall fe d, _final_event c = Some fe ->
        (fe_type fe = "agent_list" -> _agent_list_data c = Some d ->
           status r = "success"
           /\ agents r
              = Some match dict_get "agents" d with JArr l => l | _ => [] end)
        /\ (fe_type fe = "agent_switched" ->
            _agent_switched_data c = Some d ->
              status r = "success"
              /\ current_agent_id r
                 = agent_id_text (dict_get "currentAgentId" d))
        /\ (fe_type fe = "rollback_result" ->
            _rollback_result_data c = Some d ->
              (truthy (dict_get "success" d) = true ->
                 status r = "success" /\ request_data r = Some d)
              /\ (truthy (dict_get "success" d) = false ->
                  status r = "error"
                  /\ error_code r = JStr "rollback_failed")))
  /\ (_pending_request c = None -> _error c = None ->
      (forall fe, _final_event c = Some fe ->
         (fe_type fe = "agent_list" -> _agent_list_data c = None)
         /\ (fe_type fe = "agent_switched" ->
             _agent_switched_data c = None)
         /\ (fe_type fe = "rollback_result" ->
             _rollback_result_data c = None)) ->
      status r = "success"
      /\ usage r = _usage c
      /\ forallb is_user_entry (_messages c) = true
      /\ (_assistant_final_content c <> "" ->
          messages r
          = (_messages c
             ++ [assistant_entry (_assistant_final_content c)])%list)
      /\ (_assistant_final_content c = "" ->
          _assistant_stream_content c <> "" ->
          messages r
          = (_messages c
             ++ [assistant_entry (_assistant_stream_content c)])%list)
      /\ (_assistant_final_content c = "" ->
          _assistant_stream_content c = "" ->
          messages r = _messages c)).
Proof.
  intros Hreach r. subst r.
  pose proof (reachable_well_formed _ _ _ _ Hreach) as Hwf.
  split; [| split; [| split]].
  - intros p Hp. unfold _build_result. rewrite Hp. cbn.
    repeat split. exact (wf_pending _ _ Hwf p Hp).
  - intros Hp e He. unfold _build_result. rewrite Hp, He. cbn. auto.
  - intros Hp He fe d Hfe. split; [| split].
    + intros Ht Hd. unfold _build_result, final_is.
      rewrite Hp, He, Hfe, Ht, Hd. cbn. auto.
    + intros Ht Hd. unfold _build_result, final_is.
      rewrite Hp, He, Hfe, Ht, Hd. cbn. auto.
    + intros Ht Hd. unfold _build_result, final_is, rollback_result.
      rewrite Hp, He, Hfe, Ht, Hd. cbn.
      split; intros ->; cbn; auto.
  - intros Hp He Hno.
    rewrite (build_result_generic c Hp He Hno).
    unfold generic_result. cbn.
    split; [reflexivity | split; [reflexivity | split]].
    { exact (wf_messages _ _ Hwf). }
    split; [| split].
    + intros Hne. apply String.eqb_neq in Hne. rewrite Hne. cbn.
      rewrite Hne. reflexivity.
    + intros Hf Hne. apply String.eqb_neq in Hne. rewrite Hf. cbn.
      rewrite Hne. reflexivity.
    + intros Hf Hs. rewrite Hf, Hs. reflexivity.
Qed.

(** ** Handling of single events *)

Lemma handle_connected data c :
  exists cid,
    handle_event (event "connected" data) c
    = set_connected true (set_connection_id cid c).
Proof.
  unfold handle_event, event, on_connected. cbn.
  split_ifs; eexists; reflexivity.
Qed.

Lemma handle_user text c :
  text <> "" ->
  handle_event (user_message text) c
  = set_messages
      (_messages c ++ [user_entry text (_outbound_image_names c)]) c.
Proof.
  intros Hne. apply String.eqb_neq in Hne.
  unfold handle_event, user_message, event, on_message, user_entry. cbn.
  rewrite Hne. cbn. destruct (_outbound_image_names c); reflexivity.
Qed.

Lemma handle_chunk text c :
  handle_event (assistant_chunk text) c = set_stream_content text c.
Proof. reflexivity. Qed.

Lemma handle_final text c :
  handle_event (assistant_final text) c = set_final_content text c.
Proof. reflexivity. Qed.

Lemma handle_complete d c :
  mem "complete" (_completion_events c) = true ->
  exists sid u,
    handle_event (event "complete" (JObj d)) c
    = set_completed true
        (set_final_event
           (Some {| fe_type := "complete"; fe_data := d;
                    fe_request_id := JNull |})
           (set_usage u (set_session_id sid c))).
Proof.
  intros Hin.
  unfold handle_event, event, on_complete, _mark_complete_if_needed. cbn.
  split_ifs; cbn in *; try congruence;
    try (rewrite Hin in *; discriminate);
    do 2 eexists; reflexivity.
Qed.

(** C2.  From the reset state of an operation whose terminal set holds
    [complete], handling [connected], a user message, the streaming
    assistant chunks ["a"] then ["ab"], and [complete] ends the wait with a
    success Result whose history is the user entry followed by one
    assistant entry of content ["ab"]: the later chunk replaced the earlier
    one.  With a non-streaming assistant message among them, its content is
    the one reported. *)
Theorem streaming_last_write_wins session evs names connected_data text
    complete_data :
  mem "complete" evs = true ->
  text <> "" ->
  let run events :=
    fold_left (fun c ev => handle_event ev c) events
      (_reset_runtime_state session evs names) in
  let c :=
    run [event "connected" connected_data; user_message text;
         assistant_chunk "a"; assistant_chunk "ab";
         event "complete" (JObj complete_data)] in
  _completed_event c = true
  /\ status (_build_result c) = "success"
  /\ messages (_build_result c)
     = [user_entry text names; assistant_entry "ab"]
  /\ forall final_text, final_text <> "" ->
       messages
         (_build_result
            (run [event "connected" connected_data; user_message text;
                  assistant_chunk "a"; assistant_final final_text;
                  assistant_chunk "ab";
                  event "complete" (JObj complete_data)]))
       = [user_entry text names; assistant_entry final_text].
Proof.
  intros Hin Hne run c. subst c run. cbn [fold_left].
  destruct (handle_connected connected_data
              (_reset_runtime_state session evs names)) as [cid ->].
  rewrite (handle_user text _ Hne), !handle_chunk.
  split; [| split; [| split]].
  - edestruct handle_complete as (sid & u & ->); [exact Hin | reflexivity].
  - edestruct handle_complete as (sid & u & ->); [exact Hin | reflexivity].
  - edestruct handle_complete as (sid & u & ->); [exact Hin | reflexivity].
  - intros final_text Hf. apply String.eqb_neq in Hf.
    rewrite handle_final, handle_chunk.
    edestruct handle_complete as (sid & u & ->); [exact Hin |].
    unfold _build_result, generic_result. cbn. rewrite Hf. cbn.
    rewrite Hf. reflexivity.
Qed.

(** When no interactive request is pending and no error is stored, a
    terminal [rollback_result] event with data
    [{success: false, error: "conflict", sessionId: "s1"}] gives a Result
    of status [error], error code [rollback_failed] and message
    ["conflict"]. *)
Lemma conflict_event_builds_error request c :
  _pending_request c = None ->
  _error c = None ->
  mem "rollback_result" (_completion_events c) = true ->
  let c' := handle_event (rollback_conflict request) c in
  let r := _build_result c' in
  _completed_event c' = true
  /\ status r = "error"
  /\ error_code r = JStr "rollback_failed"
  /\ message r = JStr "conflict"
  /\ contains "conflict" (py_str (message r)) = true
  /\ session_id r = Some "s1".
Proof.
  intros Hp He Hin c' r. subst r c'.
  unfold handle_event, rollback_conflict, _mark_complete_if_needed. cbn.
  rewrite Hin. cbn.
  unfold _build_result, final_is. cbn. rewrite Hp, He. cbn.
  repeat split.
Qed.

(** ** The reader *)

Lemma reader_run_stopped items r c :
  alive r = false -> reader_run items (r, c) = (r, c).
Proof.
  intros Hdead. induction items as [| item items IH]; [reflexivity |].
  cbn. unfold reader_run in IH. rewrite Hdead. cbn. exact IH.
Qed.

(** C10.  Handling an [agent_list] event whose data holds a list under
    [agents] clears the pending interactive request, so the Result built
    from that state has neither [requires_] status; and when [agent_list]
    is terminal for the operation the reader stops on that block, so
    nothing that arrives later can store a request again. *)
Theorem agent_list_clears_pending ev d c :
  dict_get "type" ev = JStr "agent_list" ->
  dict_get "data" ev = JObj d ->
  is_list (dict_get "agents" d) = true ->
  let c' := handle_event ev c in
  _pending_request c' = None
  /\ status (_build_result c') <> "requires_confirmation"
  /\ status (_build_result c') <> "requires_question"
  /\ (mem "agent_list" (_completion_events c) = true ->
      _completed_event c' = true
      /\ (exists fe, _final_event c' = Some fe /\ fe_type fe = "agent_list")
      /\ forall r raw later,
           alive r = true -> data_lines r <> [] ->
           json_loads (join_lines (data_lines r)) = Parsed (JObj ev) ->
           rstrip_crlf raw = "" ->
           snd (reader_run (RawLine raw :: later) (r, c)) = c').
Proof.
  intros Ht Hd Hl c'.
  assert (Hc' : c' = _mark_complete_if_needed "agent_list" d
                       (dict_get "requestId" ev)
                       (set_pending None (set_agent_list (Some d) c))).
  { subst c'. unfold handle_event, on_agent_list.
    rewrite Ht, Hd. cbn. rewrite Hl. reflexivity. }
  assert (Hp : _pending_request c' = None).
  { rewrite Hc'. unfold _mark_complete_if_needed. split_ifs; reflexivity. }
  split; [exact Hp |].
  assert (Hs : status (_build_result c') = "error"
               \/ status (_build_result c') = "success").
  { unfold _build_result. rewrite Hp.
    destruct (_error c'); [left; reflexivity |].
    destruct (if final_is "agent_list" c' then _ else _);
      [right; reflexivity |].
    destruct (if final_is "agent_switched" c' then _ else _);
      [right; reflexivity |].
    destruct (if final_is "rollback_result" c' then _ else _);
      [| right; reflexivity].
    unfold rollback_result. split_ifs; auto. }
  split; [| split].
  - destruct Hs as [-> | ->]; discriminate.
  - destruct Hs as [-> | ->]; discriminate.
  - intros Hin.
    assert (Hdone : _completed_event c' = true).
    { rewrite Hc'. unfold _mark_complete_if_needed. cbn. rewrite Hin.
      reflexivity. }
    split; [exact Hdone | split].
    + rewrite Hc'. unfold _mark_complete_if_needed. cbn. rewrite Hin. cbn.
      eexists. split; reflexivity.
    + intros r raw later Ha Hne Hparse Hblank.
      change (reader_run (RawLine raw :: later) (r, c))
        with (reader_run later (reader_step (RawLine raw) (r, c))).
      unfold reader_step. rewrite Ha, Hblank. cbn -[join_lines].
      destruct (data_lines r) as [| l ls] eqn:Hlines; [congruence |].
      unfold _handle_data_block. rewrite Hparse.
      fold c'. rewrite Hdone. cbn -[join_lines].
      now rewrite reader_run_stopped.
Qed.


(** A block that parses, but not to a dictionary, is not dropped: the
    AttributeError of [event.get] reaches the reader's [except] clause,
    which records [event_stream_error] and ends the reader. *)
Lemma non_object_block_stops_reader r c v raw :
  alive r = true ->
  data_lines r <> [] ->
  json_loads (join_lines (data_lines r)) = Parsed v ->
  is_dict v = false ->
  rstrip_crlf raw = "" ->
  _completed_event c = false ->
  let rc := reader_step (RawLine raw) (r, c) in
  alive (fst rc) = false
  /\ _completed_event (snd rc) = true
  /\ _error (snd rc)
     = Some {| err_code := JStr "event_stream_error";
               err_message :=
                 JStr ("读取 SSE 事件失败: '" ++ type_name v
                       ++ "' object has no attribute 'get'");
               err_available_agents := None |}.
Proof.
  intros Ha Hne Hparse Hv Hblank Hc rc. subst rc.
  unfold reader_step. rewrite Ha, Hblank. cbn -[join_lines].
  destruct (data_lines r) as [| l ls] eqn:Hlines; [congruence |].
  unfold _handle_data_block. rewrite Hparse.
  destruct v; try discriminate; unfold reader_except; rewrite Hc;
    cbn -[join_lines]; auto.
Qed.

(** ** Error results of the health check *)

(** C9, as the code has it.  When [/health] cannot be reached, two
    [health_check] calls both give status [error], error code
    [connection_failed] and the same suggestion, which is built from the
    port alone; each message is the same template over host and port
    followed by the text of the URL error of that call, so the two Results
    are equal as soon as the two errors read the same. *)
Theorem health_check_unreachable_twice e1 e2 :
  is_url_error e1 = true ->
  is_url_error e2 = true ->
  let r1 := health_check (inl e1) in
  let r2 := health_check (inl e2) in
  status r1 = "error" /\ status r2 = "error"
  /\ error_code r1 = JStr "connection_failed"
  /\ error_code r2 = JStr "connection_failed"
  /\ suggestion r1 = Some server_hint
  /\ suggestion r2 = Some server_hint
  /\ message r1
     = JStr ("无法连接到 SSE 服务器 (" ++ _host cfg ++ ":"
             ++ str_of_Z (_port cfg) ++ "): " ++ exn_str e1)
  /\ message r2
     = JStr ("无法连接到 SSE 服务器 (" ++ _host cfg ++ ":"
             ++ str_of_Z (_port cfg) ++ "): " ++ exn_str e2)
  /\ (exn_str e1 = exn_str e2 -> r1 = r2).
Proof.
  intros H1 H2 r1 r2. subst r1 r2.
  destruct e1; try discriminate; destruct e2; try discriminate;
    cbn -[String.append]; repeat split;
    intros E; unfold _connection_failed_result;
    cbn -[String.append] in *; rewrite E; reflexivity.
Qed.

(** ** One message operation *)


(** A stream that does not open ends the operation before the wait: the
    exception goes to the [except] clauses and nothing is posted. *)
Lemma open_failure_sends_nothing payload session evs ensure names wait e :
  open_outcome w = Some e ->
  exists m out,
    _run_message_operation payload session evs ensure names wait = (m, out)
    /\ out <> Stuck
    /\ existsb is_post (trace m) = false.
Proof.
  intros Hopen.
  assert (Hbody :
            operation_body payload session ensure wait
              (initial session evs names)
            = (fst (emit AGetEvents (initial session evs names)), Exc e)).
  { unfold operation_body, operation_setup, _open_event_stream.
    rewrite Hopen. reflexivity. }
  unfold _run_message_operation, try_finally, try_except.
  rewrite Hbody.
  set (m0 := fst (emit AGetEvents (initial session evs names))).
  assert (Hexc : exists out,
             operation_except e m0 = (m0, out) /\ out <> Stuck).
  { unfold operation_except, bind, get_client, ret, raise.
    destruct e as [text | code reason body | text | text];
      try (eexists; split; [reflexivity | discriminate]).
    destruct (_http_error_to_result code reason body);
      eexists; split; try reflexivity; discriminate. }
  destruct Hexc as (out & -> & Hout).
  exists (_close_event_stream m0), out.
  destruct out; try congruence; repeat split; auto.
Qed.

(** Every exit of a message operation goes through [_close_event_stream]:
    its steps are the last actions of the run, the handles are released and
    the completion flag is set. *)
Lemma teardown_precedes_exit payload session evs ensure names wait m out :
  _run_message_operation payload session evs ensure names wait = (m, out) ->
  out <> Stuck ->
  exists m1,
    m = _close_event_stream m1
    /\ trace m = (trace m1 ++ ASetCompleted :: closing_steps m1)%list
    /\ existsb is_post (closing_steps m1) = false
    /\ _completed_event (cl m) = true
    /\ _stream_response m = false
    /\ _stream_sock m = false
    /\ _reader_thread m = false.
Proof.
  unfold _run_message_operation, try_finally. intros Hrun Hout.
  destruct (try_except _ _ _) as [m1 r1].
  assert (Hm : m = _close_event_stream m1).
  { destruct r1; inversion Hrun; subst; congruence. }
  exists m1. split; [exact Hm |]. subst m. cbn.
  repeat split. unfold closing_steps.
  destruct (_stream_sock m1), (_reader_thread m1 && alive (rd m1)),
    (_stream_response m1); reflexivity.
Qed.

(** ** The client stays reachable throughout a run *)

Section Invariant.

Variable session : option string.
Variables evs names : list string.

Let reach := reachable session evs names.

Lemma reader_step_reachable item r c :
  reach c -> reach (snd (reader_step item (r, c))).
Proof.
  intros Hc. unfold reader_step.
  destruct (alive r); cbn [negb snd]; [| exact Hc].
  destruct item as [raw | | text]; cbn [snd];
    [| exact Hc | now constructor].
  destruct (starts_with "data:" (rstrip_crlf raw)); [exact Hc |].
  destruct (rstrip_crlf raw =? "")%string; [| exact Hc].
  destruct (data_lines r) as [| l ls]; [exact Hc |].
  unfold _handle_data_block.
  destruct (json_loads (join_lines (l :: ls))) as [[] | |]; cbn [snd];
    try exact Hc; now constructor.
Qed.

Lemma reader_run_reachable items r c :
  reach c -> reach (snd (reader_run items (r, c))).
Proof.
  revert r c. induction items as [| item items IH]; intros r c Hc;
    [exact Hc |].
  change (reader_run (item :: items) (r, c))
    with (reader_run items (reader_step item (r, c))).
  pose proof (reader_step_reachable item r c Hc) as Hs.
  destruct (reader_step item (r, c)) as [r' c']. now apply IH.
Qed.

Local Abbreviation keeps := (preserves reach).

Lemma keeps_ret {A} (a : A) : keeps (ret a).
Proof. intros m m' r [= <- _] H. exact H. Qed.

Lemma keeps_raise {A} e : keeps (@raise A e).
Proof. intros m m' r [= <- _] H. exact H. Qed.

Lemma keeps_stuck {A} : keeps (fun m => (m, @Stuck A)).
Proof. intros m m' r [= <- _] H. exact H. Qed.

Lemma keeps_bind {A B} (x : M A) (k : A -> M B) :
  keeps x -> (forall a, keeps (k a)) -> keeps (bind x k).
Proof.
  intros Hx Hk m m' r. unfold bind.
  destruct (x m) as [m1 [a | e |]] eqn:Ex; intros Hr Hm.
  - eapply Hk; [exact Hr |]. eapply Hx; eauto.
  - injection Hr as <- _. eapply Hx; eauto.
  - injection Hr as <- _. eapply Hx; eauto.
Qed.

Lemma keeps_emit a : keeps (emit a).
Proof. intros m m' r [= <- _] H. exact H. Qed.

Lemma keeps_get : keeps get_client.
Proof. intros m m' r [= <- _] H. exact H. Qed.

Lemma keeps_session sid : keeps (modify_client (set_session_id sid)).
Proof. intros m m' r [= <- _] H. cbn. now constructor. Qed.

Lemma keeps_advance items : keeps (advance items).
Proof.
  intros m m' r [= <- _] H. cbn. now apply reader_run_reachable.
Qed.

Lemma keeps_open : keeps _open_event_stream.
Proof.
  unfold _open_event_stream. apply keeps_bind; [apply keeps_emit |].
  intros _. destruct (open_outcome w); [apply keeps_raise |].
  intros m m' r [= <- _] H. exact H.
Qed.

Lemma keeps_start : keeps start_reader.
Proof.
  unfold start_reader. apply keeps_bind; [apply keeps_emit |].
  intros _ m m' r [= <- _] H. exact H.
Qed.

Lemma keeps_check_post : keeps check_post_response.
Proof.
  unfold check_post_response.
  destruct (post_outcome w) as [e | v]; [apply keeps_raise |].
  destruct (_ && _); [apply keeps_raise | apply keeps_ret].
Qed.

Create HintDb keeps.

#[local] Hint Resolve keeps_ret keeps_raise keeps_stuck keeps_emit keeps_get
  keeps_session keeps_advance keeps_open keeps_start keeps_check_post
  : keeps.

Ltac keeps_step :=
  match goal with
  | |- keeps (bind _ _) => apply keeps_bind; [| intros ?]
  | |- keeps (if ?b then _ else _) => destruct b
  | |- keeps (match ?x with _ => _ end) => destruct x
  | |- keeps _ => solve [auto with keeps]
  end.

Lemma keeps_bind_session sid : keeps (_bind_session_to_connection sid).
Proof. unfold _bind_session_to_connection. repeat keeps_step. Qed.

Lemma keeps_ensure_session : keeps _ensure_session_for_connection.
Proof. unfold _ensure_session_for_connection. repeat keeps_step. Qed.

Lemma keeps_poll wait deadline passes checked :
  keeps (poll wait deadline passes checked).
Proof.
  revert checked. induction passes as [| tk rest IH]; intros checked; cbn.
  - apply keeps_stuck.
  - repeat keeps_step; apply IH.
Qed.

#[local] Hint Resolve keeps_bind_session keeps_ensure_session keeps_poll
  : keeps.

Lemma keeps_setup payload ensure :
  keeps (operation_setup payload session ensure).
Proof. unfold operation_setup. repeat keeps_step. Qed.

Lemma keeps_wait wait : keeps (operation_wait wait).
Proof. unfold operation_wait. repeat keeps_step. Qed.

Lemma initial_reachable : reach (cl (initial session evs names)).
Proof. constructor. Qed.

End Invariant.

(** ** The polling loop *)

Lemma poll_idle wait passes rest checked m m' :
  idle wait passes m = Some m' ->
  poll wait deadline_of (passes ++ rest) checked m
  = poll wait deadline_of rest checked m'.
Proof.
  revert m. induction passes as [| tk passes IH]; intros m Hidle.
  - injection Hidle as <-. reflexivity.
  - cbn [idle] in Hidle.
    destruct (0 <? deadline_of - now tk) eqn:Htime; [| discriminate].
    destruct (post_done tk) eqn:Hpost; [discriminate |].
    destruct (wait && _completed_event (cl (observe (arrivals tk) m)))
      eqn:Hdone; [discriminate |].
    cbn [andb negb] in Hidle.
    cbn [app poll]. unfold bind at 1, advance at 1.
    assert (Hlate : (deadline_of - now tk <=? 0) = false)
      by (apply Z.ltb_lt in Htime; apply Z.leb_gt; exact Htime).
    rewrite Hlate. unfold bind at 1, get_client at 1.
    rewrite Hdone, Hpost. cbn [andb]. now apply IH.
Qed.

(** With [wait_sse_completion], the loop is left normally only on a set
    completion flag. *)
Lemma poll_leaves_on_completion deadline passes checked m m' left :
  poll true deadline passes checked m = (m', Val left) ->
  _completed_event (cl m') = true.
Proof.
  revert checked m. induction passes as [| tk rest IH]; intros checked m.
  - discriminate.
  - cbn [poll]. unfold bind at 1, advance at 1.
    destruct (deadline - now tk <=? 0); [discriminate |].
    unfold bind at 1, get_client at 1. cbn [andb].
    destruct (_completed_event (cl (observe (arrivals tk) m))) eqn:Hdone.
    + intros [= <- _]. exact Hdone.
    + destruct (post_done tk && negb checked).
      * unfold bind at 1, check_post_response.
        destruct (post_outcome w) as [e | v]; [discriminate |].
        destruct (_ && _); [discriminate |]. cbn [negb]. apply IH.
      * apply IH.
Qed.

Lemma not_late tk :
  0 < deadline_of - now tk -> (deadline_of - now tk <=? 0) = false.
Proof. intros H. apply Z.leb_gt. exact H. Qed.

(** C4.  In an operation that waits for the stream, once the command has
    been posted: if on some pass before the deadline the completion flag is
    still unset and the POST is seen finished with a dictionary whose
    [success] is falsy, the operation raises at that pass and returns
    status [error]; the passes still to come are not run. *)
Theorem post_failure_ends_wait payload session evs ensure names m1 sent
    passes m2 tk rest response :
  operation_setup payload session ensure (initial session evs names)
  = (m1, Val sent) ->
  ticks w = (passes ++ tk :: rest)%list ->
  idle true passes m1 = Some m2 ->
  0 < deadline_of - now tk ->
  _completed_event (cl (observe (arrivals tk) m2)) = false ->
  post_done tk = true ->
  post_outcome w = inr (JObj response) ->
  truthy (dict_get "success" response) = false ->
  exists r,
    _run_message_operation payload session evs ensure names true
    = (_close_event_stream (observe (arrivals tk) m2), Val r)
    /\ status r = "error"
    /\ error_code r = JStr "unexpected_error"
    /\ message r = JStr ("发送消息失败: " ++ py_repr (JObj response)).
Proof.
  intros Hsetup Hticks Hidle Htime Hdone Hpost Hout Hfalsy.
  unfold _run_message_operation, try_finally, try_except, operation_body.
  unfold bind at 1. rewrite Hsetup.
  unfold operation_wait. unfold bind at 1.
  rewrite Hticks, (poll_idle _ _ _ _ _ _ Hidle).
  cbn [poll]. unfold bind at 1, advance at 1.
  rewrite (not_late _ Htime). unfold bind at 1, get_client at 1.
  rewrite Hdone, Hpost. cbn [andb negb].
  unfold bind at 1, check_post_response. rewrite Hout.
  cbn [is_dict fields_of andb]. rewrite Hfalsy. cbn [negb].
  unfold raise, operation_except, bind, get_client, ret.
  eexists. repeat split.
Qed.

(** ** Commands that do not wait for the stream, and commands that do *)


Lemma http_error_status code reason body r :
  _http_error_to_result code reason body = inr r -> status r = "error".
Proof.
  unfold _http_error_to_result.
  repeat match goal with
         | |- context [match ?x with _ => _ end] =>
             lazymatch x with
             | json_loads _ => fail
             | _ => destruct x
             end
         end;
    intros [= <-]; reflexivity.
Qed.


Lemma build_success evs c :
  well_formed evs c ->
  status (_build_result c) = "success" ->
  _pending_request c = None /\ _error c = None.
Proof.
  intros Hwf. unfold _build_result.
  destruct (_pending_request c) as [p |] eqn:Hp.
  - cbn. destruct (wf_pending _ _ Hwf p Hp) as [-> | ->]; discriminate.
  - destruct (_error c); [discriminate | auto].
Qed.

Lemma wait_result m m' r :
  operation_wait true m = (m', Val r) ->
  r = _build_result (cl m') /\ _completed_event (cl m') = true.
Proof.
  unfold operation_wait. unfold bind at 1.
  destruct (poll true deadline_of (ticks w) false m) as [m1 [left | e |]]
    eqn:Hpoll; try discriminate.
  apply poll_leaves_on_completion in Hpoll.
  unfold bind at 1.
  assert (Hc : fst ((if snd left && negb (fst left)
                     then check_post_response else ret tt) m1) = m1).
  { unfold check_post_response.
    destruct (snd left && negb (fst left)); [| reflexivity].
    destruct (post_outcome w); [reflexivity |].
    destruct (_ && _); reflexivity. }
  destruct ((if snd left && negb (fst left) then check_post_response
             else ret tt) m1) as [m2 [[] | e |]];
    try discriminate.
  cbn in Hc. subst m2.
  unfold bind, get_client, ret. intros [= <- <-]. auto.
Qed.



(** ** Every run ends, and ends after teardown *)

Lemma ends_bind {A B} (x : M A) (k : A -> M B) :
  ends x -> (forall a, ends (k a)) -> ends (bind x k).
Proof.
  intros Hx Hk m. unfold bind. specialize (Hx m).
  destruct (x m) as [m1 [a | e |]]; cbn in *;
    [apply Hk | discriminate | congruence].
Qed.

Lemma ends_ret {A} (a : A) : ends (ret a).
Proof. intros m. discriminate. Qed.

Lemma ends_raise {A} e : ends (@raise A e).
Proof. intros m. discriminate. Qed.

Lemma ends_check_post : ends check_post_response.
Proof.
  unfold check_post_response.
  destruct (post_outcome w); [apply ends_raise |].
  destruct (_ && _); [apply ends_raise | apply ends_ret].
Qed.

Lemma ends_unit (f : machine -> machine) :
  ends (fun m => (f m, Val tt)).
Proof. intros m. discriminate. Qed.

Create HintDb ends.

#[local] Hint Resolve ends_ret ends_raise ends_check_post ends_unit : ends.

Ltac ends_step :=
  match goal with
  | |- ends (bind _ _) => apply ends_bind; [| intros ?]
  | |- ends (if ?b then _ else _) => destruct b
  | |- ends (match ?x with _ => _ end) => destruct x
  | |- ends _ => solve [auto with ends]
  end.

Lemma ends_emit a : ends (emit a).
Proof. apply ends_unit. Qed.

Lemma ends_advance items : ends (advance items).
Proof. apply ends_unit. Qed.

Lemma ends_modify f : ends (modify_client f).
Proof. apply ends_unit. Qed.

Lemma ends_get : ends get_client.
Proof. intros m. discriminate. Qed.

#[local] Hint Resolve ends_emit ends_advance ends_modify ends_get : ends.

Lemma ends_setup payload session ensure :
  ends (operation_setup payload session ensure).
Proof.
  unfold operation_setup, _open_event_stream, start_reader,
    _bind_session_to_connection, _ensure_session_for_connection.
  repeat ends_step.
Qed.

Lemma ends_poll wait deadline passes checked :
  (exists tk, In tk passes /\ deadline - now tk <= 0) ->
  ends (poll wait deadline passes checked).
Proof.
  revert checked. induction passes as [| tk rest IH];
    intros checked (late & Hin & Hlate).
  - destruct Hin.
  - cbn [poll]. apply ends_bind; [auto with ends | intros _].
    destruct (deadline - now tk <=? 0) eqn:E; [apply ends_raise |].
    assert (Hrest : exists tk', In tk' rest /\ deadline - now tk' <= 0).
    { destruct Hin as [<- | Hin].
      - apply Z.leb_gt in E. lia.
      - eauto. }
    repeat ends_step; apply IH; exact Hrest.
Qed.

Lemma ends_except e : ends (operation_except e).
Proof. unfold operation_except. repeat ends_step. Qed.

Lemma ends_body payload session ensure wait :
  (exists tk, In tk (ticks w) /\ deadline_of - now tk <= 0) ->
  ends (operation_body payload session ensure wait).
Proof.
  intros Hlate. unfold operation_body, operation_wait.
  apply ends_bind; [apply ends_setup | intros _].
  apply ends_bind; [now apply ends_poll | intros left].
  repeat ends_step.
Qed.

(** When the clock of the world passes the deadline, an operation ends with
    a Result or an exception, and [_close_event_stream] has run before
    either reaches the caller. *)
Theorem operation_exits_after_teardown payload session evs ensure names
    wait :
  (exists tk, In tk (ticks w) /\ deadline_of - now tk <= 0) ->
  exists m1 out,
    _run_message_operation payload session evs ensure names wait
    = (_close_event_stream m1, out)
    /\ out <> Stuck
    /\ trace (_close_event_stream m1)
       = (trace m1 ++ ASetCompleted :: closing_steps m1)%list
    /\ existsb is_post (closing_steps m1) = false
    /\ _completed_event (cl (_close_event_stream m1)) = true.
Proof.
  intros Hlate.
  assert (Hends : ends (try_except
                          (operation_body payload session ensure wait)
                          operation_except)).
  { intros m. unfold try_except.
    pose proof (ends_body payload session ensure wait Hlate m) as Hbody.
    destruct (operation_body payload session ensure wait m)
      as [m1 [r | e |]]; cbn in *;
      [discriminate | apply ends_except | congruence]. }
  specialize (Hends (initial session evs names)).
  destruct (_run_message_operation payload session evs ensure names wait)
    as [m out] eqn:Hrun.
  assert (Hout : out <> Stuck).
  { unfold _run_message_operation, try_finally in Hrun.
    destruct (try_except _ _ _) as [m1 [r | e |]]; cbn in Hends;
      inversion Hrun; subst; congruence. }
  destruct (teardown_precedes_exit _ _ _ _ _ _ _ _ Hrun Hout)
    as (m1 & -> & Htrace & Hposts & Hdone & _).
  exists m1, out. auto.
Qed.

(** ** More on the reader and the handlers *)

Lemma reader_step_settled item rc : settled rc -> settled (reader_step item rc).
Proof.
  destruct rc as [r c]. unfold settled, reader_step. cbn [fst snd].
  intros Hs.
  destruct (alive r) eqn:Ha; cbn [negb fst snd]; [| intros _; exact Ha].
  assert (Hc : _completed_event c = false).
  { destruct (_completed_event c); [| reflexivity].
    specialize (Hs eq_refl). discriminate. }
  destruct item as [raw | | text]; cbn [fst snd]; try reflexivity.
  destruct (starts_with "data:" (rstrip_crlf raw)); cbn [fst snd];
    [rewrite Hc; discriminate |].
  destruct (rstrip_crlf raw =? "")%string; cbn [fst snd];
    [| rewrite Hc; discriminate].
  destruct (data_lines r) as [| l ls]; cbn [fst snd alive].
  - rewrite Hc. discriminate.
  - destruct (_handle_data_block (join_lines (l :: ls)) c) as [e | c'];
      cbn [fst snd alive]; [reflexivity |].
    intros ->. reflexivity.
Qed.

Lemma reader_run_settled items rc : settled rc -> settled (reader_run items rc).
Proof.
  revert rc. induction items as [| item items IH]; intros rc Hs;
    [exact Hs |].
  change (reader_run (item :: items) rc)
    with (reader_run items (reader_step item rc)).
  apply IH. now apply reader_step_settled.
Qed.

Lemma reader_run_app items later rc :
  reader_run (items ++ later) rc = reader_run later (reader_run items rc).
Proof. unfold reader_run. apply fold_left_app. Qed.

(** Once the completion flag is set, by a terminal event or by a stream
    failure, the reader has stopped: whatever the stream still delivers,
    the client and the reader stay as they are.  Only the first terminal
    event of an operation is ever handled. *)
Theorem completion_freezes_client session evs names items later :
  let start := (fresh_reader, _reset_runtime_state session evs names) in
  _completed_event (snd (reader_run items start)) = true ->
  reader_run (items ++ later) start = reader_run items start.
Proof.
  intros start Hdone. rewrite reader_run_app.
  assert (Hs : settled (reader_run items start)).
  { apply reader_run_settled. intros Hc. discriminate. }
  specialize (Hs Hdone).
  destruct (reader_run items start) as [r c]. cbn in Hs.
  now apply reader_run_stopped.
Qed.

Lemma mark_complete_keeps t d r c :
  _messages (_mark_complete_if_needed t d r c) = _messages c
  /\ _outbound_image_names (_mark_complete_if_needed t d r c)
     = _outbound_image_names c.
Proof.
  destruct (mark_complete_cases t d r c) as [-> | [_ ->]]; auto.
Qed.

Lemma on_message_history d c :
  let content :=
    match dict_get "content" d with
    | JNull => ""
    | _ => py_str (dict_get "content" d)
    end in
  _messages (on_message d c)
  = (_messages c
     ++ (if str_eq (dict_get "role" d) "user" && negb (content =? "")%string
         then [user_entry content (_outbound_image_names c)] else []))%list
  /\ _outbound_image_names (on_message d c) = _outbound_image_names c.
Proof.
  intros content. unfold on_message. fold content.
  destruct (str_eq (dict_get "role" d) "system"
            && truthy (dict_get "sessionId" d)) eqn:Hsys.
  - apply andb_true_iff in Hsys. destruct Hsys as [Hsys _].
    destruct (dict_get "role" d) as [| | | | role | |]; try discriminate.
    cbn in Hsys. apply String.eqb_eq in Hsys. subst role.
    cbn. now rewrite app_nil_r.
  - destruct (str_eq (dict_get "role" d) "user" && negb (content =? "")%string).
    + unfold user_entry. cbn.
      destruct (_outbound_image_names c); auto.
    + destruct (str_eq (dict_get "role" d) "assistant"); cbn;
        [destruct (truthy (dict_get "streaming" d)) |]; cbn;
        now rewrite app_nil_r.
Qed.

Lemma handle_event_other ev c :
  let data :=
    if is_dict (dict_get "data" ev) then dict_get "data" ev
    else py_or (dict_get "data" ev) (JObj []) in
  str_eq (dict_get "type" ev) "connected"
  || negb (str_eq (dict_get "type" ev) "message" && is_dict data) = true ->
  _messages (handle_event ev c) = _messages c
  /\ _outbound_image_names (handle_event ev c) = _outbound_image_names c.
Proof.
  intros data Hother. unfold handle_event. fold data.
  destruct (str_eq (dict_get "type" ev) "connected").
  { unfold on_connected. split_ifs; cbn; auto. }
  cbn in Hother. apply negb_true_iff in Hother. rewrite Hother.
  unfold on_interactive, on_agent_list, on_error, on_complete.
  repeat match goal with
         | |- context [_mark_complete_if_needed ?t ?d ?r ?c] =>
             destruct (mark_complete_keeps t d r c) as [-> ->]
         | |- context [if ?b then _ else _] => destruct b
         | |- context [match ?x with _ => _ end] => destruct x
         end;
    cbn; auto.
Qed.

Lemma str_eq_other v a b :
  str_eq v a = true -> (a =? b)%string = false -> str_eq v b = false.
Proof.
  destruct v; try discriminate. cbn. intros Ha Hab.
  apply String.eqb_eq in Ha. now subst.
Qed.

Lemma handle_event_history ev c :
  _messages (handle_event ev c)
  = (_messages c ++ history_entry (_outbound_image_names c) ev)%list
  /\ _outbound_image_names (handle_event ev c) = _outbound_image_names c.
Proof.
  pose proof (handle_event_other ev c) as Hother. cbn zeta in Hother.
  destruct (str_eq (dict_get "type" ev) "connected") eqn:Hconn.
  { destruct (Hother eq_refl) as [-> ->]. split; [| reflexivity].
    unfold history_entry.
    rewrite (str_eq_other _ _ "message" Hconn eq_refl).
    destruct (dict_get "data" ev); cbn; now rewrite app_nil_r. }
  destruct (str_eq (dict_get "type" ev) "message") eqn:Hmsg.
  - destruct (dict_get "data" ev) as [| b | n | x | s | items | d] eqn:Hd.
    7: { unfold handle_event, history_entry. rewrite Hconn, Hmsg, Hd.
         cbn [is_dict fields_of andb].
         apply on_message_history. }
    all: unfold history_entry; rewrite Hd, app_nil_r.
    all: match type of Hd with
         | _ = ?raw =>
             destruct (truthy raw) eqn:Ht;
             [ apply Hother; unfold py_or; rewrite Ht; reflexivity
             | unfold handle_event; rewrite Hconn, Hmsg, Hd;
               cbn [is_dict]; unfold py_or; rewrite Ht;
               cbn [is_dict fields_of andb];
               pose proof (on_message_history [] c) as Hm; cbn in Hm;
               rewrite app_nil_r in Hm; exact Hm ]
         end.
  - cbn [andb negb orb] in Hother. destruct (Hother eq_refl) as [-> ->].
    split; [| reflexivity]. unfold history_entry. rewrite Hmsg.
    destruct (dict_get "data" ev); cbn; now rewrite app_nil_r.
Qed.

(** The message history only grows, and it holds exactly the user messages
    with non-empty content, in the order the events arrive, whatever other
    events come between them. *)
Theorem history_keeps_arrival_order events c :
  _messages (fold_left (fun c ev => handle_event ev c) events c)
  = (_messages c
     ++ flat_map (history_entry (_outbound_image_names c)) events)%list.
Proof.
  revert c. induction events as [| ev events IH]; intros c; cbn [fold_left].
  - cbn. now rewrite app_nil_r.
  - rewrite IH. destruct (handle_event_history ev c) as [-> ->].
    cbn [flat_map]. now rewrite app_assoc.
Qed.

(** An event is dropped without any change of state when its kind is none
    of the ten handled ones, and also when its payload is a value that is
    neither a dictionary nor falsy, unless its kind is [connected] or
    [error]. *)
Theorem unhandled_events_change_nothing ev c :
  (forallb (fun kind => negb (str_eq (dict_get "type" ev) kind))
     known_kinds = true ->
   handle_event ev c = c)
  /\ (str_eq (dict_get "type" ev) "connected" = false ->
      str_eq (dict_get "type" ev) "error" = false ->
      is_dict (dict_get "data" ev) = false ->
      truthy (dict_get "data" ev) = true ->
      handle_event ev c = c).
Proof.
  split.
  - intros Hk. cbn in Hk.
    repeat (apply andb_true_iff in Hk; destruct Hk as [? Hk]).
    repeat match goal with
           | H : negb _ = true |- _ => apply negb_true_iff in H
           end.
    unfold handle_event.
    repeat match goal with
           | H : str_eq _ _ = false |- _ => rewrite H; clear H
           end.
    reflexivity.
  - intros Hconn Herr Hd Ht. unfold handle_event, py_or.
    rewrite Hconn, Herr, Hd, Ht, Hd.
    now rewrite !andb_false_r.
Qed.

Lemma rstrip_crlf_app raw eol :
  rstrip_crlf eol = "" -> rstrip_crlf (raw ++ eol) = rstrip_crlf raw.
Proof.
  intros Heol. induction raw as [| a raw IH]; cbn; [exact Heol |].
  now rewrite IH.
Qed.

(** What the reader does with single lines: a line is read the same with
    or without its line terminator, [\n] or [\r\n]; a line that is neither
    blank nor a [data:] line (a comment, an [event:] or [id:] field) is
    skipped; a blank line with nothing buffered handles no event. *)
Theorem reader_line_rules raw rc :
  reader_step (RawLine (raw ++ String "010"%char "")) rc
  = reader_step (RawLine raw) rc
  /\ reader_step
       (RawLine (raw ++ String "013"%char (String "010"%char ""))) rc
     = reader_step (RawLine raw) rc
  /\ (starts_with "data:" (rstrip_crlf raw) = false ->
      rstrip_crlf raw <> "" ->
      reader_step (RawLine raw) rc = rc)
  /\ (rstrip_crlf raw = "" -> data_lines (fst rc) = [] ->
      snd (reader_step (RawLine raw) rc) = snd rc).
Proof.
  destruct rc as [r c]. unfold reader_step.
  rewrite !rstrip_crlf_app by reflexivity.
  split; [reflexivity | split; [reflexivity | split]].
  - intros Hdata Hne. apply String.eqb_neq in Hne. rewrite Hdata, Hne.
    destruct (alive r); reflexivity.
  - intros Hblank Hbuf. cbn [fst snd] in *. rewrite Hblank, Hbuf.
    destruct (alive r); reflexivity.
Qed.

Lemma reader_accumulates raws buffer c :
  Forall (fun raw => starts_with "data:" (rstrip_crlf raw) = true) raws ->
  reader_run (map RawLine raws) ({| data_lines := buffer; alive := true |}, c)
  = ({| data_lines := (buffer ++ map line_payload raws)%list;
        alive := true |}, c).
Proof.
  intros Hdata. revert buffer.
  induction Hdata as [| raw raws Hraw _ IH]; intros buffer.
  - cbn. now rewrite app_nil_r.
  - cbn [map].
    change (reader_run (RawLine raw :: map RawLine raws) ?rc)
      with (reader_run (map RawLine raws) (reader_step (RawLine raw) rc)).
    unfold reader_step at 1. cbn [alive negb data_lines]. rewrite Hraw.
    rewrite IH. cbn [map]. now rewrite <- app_assoc.
Qed.

(** A block of one or more [data:] lines followed by a blank line is
    handled as one event: the payloads, each stripped of the prefix and of
    leading blanks, are joined with newlines and given to
    [_handle_data_block]; the buffer is emptied and the reader goes on
    unless the operation is complete, or stops on an exception of the
    handler. *)
Theorem data_block_is_one_event raws blank c :
  raws <> [] ->
  Forall (fun raw => starts_with "data:" (rstrip_crlf raw) = true) raws ->
  rstrip_crlf blank = "" ->
  reader_run (map RawLine raws ++ [RawLine blank]) (fresh_reader, c)
  = match _handle_data_block (join_lines (map line_payload raws)) c with
    | inr c' =>
        ({| data_lines := []; alive := negb (_completed_event c') |}, c')
    | inl e =>
        ({| data_lines := map line_payload raws; alive := false |},
         reader_except (exn_str e) c)
    end.
Proof.
  intros Hne Hdata Hblank.
  rewrite reader_run_app. unfold fresh_reader.
  rewrite (reader_accumulates raws [] c Hdata). cbn [app].
  cbn [reader_run fold_left]. unfold reader_step.
  cbn [alive negb data_lines]. rewrite Hblank.
  cbn [starts_with String.eqb].
  destruct (map line_payload raws) as [| l ls] eqn:Hl.
  - destruct raws; [congruence | discriminate].
  - reflexivity.
Qed.

(** ** More on the polling loop *)

Lemma check_post_accepts response m :
  post_outcome w = inr response ->
  refusal response = false ->
  check_post_response m = (m, Val tt).
Proof.
  unfold check_post_response, refusal. intros -> ->. reflexivity.
Qed.

Lemma poll_quiet passes rest checked m m' :
  (forall tk, In tk passes -> post_done tk = true ->
     exists response,
       post_outcome w = inr response /\ refusal response = false) ->
  quiet passes m = Some m' ->
  exists checked',
    poll true deadline_of (passes ++ rest) checked m
    = poll true deadline_of rest checked' m'.
Proof.
  revert checked m. induction passes as [| tk passes IH];
    intros checked m Hpost Hquiet.
  - injection Hquiet as <-. exists checked. reflexivity.
  - cbn [quiet] in Hquiet.
    destruct (0 <? deadline_of - now tk) eqn:Htime; [| discriminate].
    destruct (_completed_event (cl (observe (arrivals tk) m))) eqn:Hdone;
      [discriminate |].
    cbn [andb negb] in Hquiet.
    assert (Hrest : forall tk', In tk' passes -> post_done tk' = true ->
              exists response,
                post_outcome w = inr response /\ refusal response = false)
      by (intros tk' Hin; apply Hpost; now right).
    cbn [app poll]. unfold bind at 1, advance at 1.
    rewrite (not_late tk) by (now apply Z.ltb_lt).
    unfold bind at 1, get_client at 1. rewrite Hdone. cbn [andb].
    destruct (post_done tk && negb checked) eqn:Hcheck.
    + apply andb_true_iff in Hcheck. destruct Hcheck as [Hp _].
      destruct (Hpost tk (or_introl eq_refl) Hp) as (response & Hout & Hok).
      unfold bind at 1. rewrite (check_post_accepts response _ Hout Hok).
      cbn [negb]. now apply IH.
    + now apply IH.
Qed.

(** The success path of an operation that waits for the stream.  After
    passes in which the deadline is ahead and the completion flag unset,
    the first pass before the deadline that finds the flag set ends the
    wait, and the Result is the one [_build_result] gives for the state of
    that pass, provided the POST, if it was seen finished by then, was not
    refused.  The POST may as well still be in flight. *)
Theorem completion_returns_built_result payload session evs ensure names m1
    sent passes m2 tk rest :
  operation_setup payload session ensure (initial session evs names)
  = (m1, Val sent) ->
  ticks w = (passes ++ tk :: rest)%list ->
  quiet passes m1 = Some m2 ->
  0 < deadline_of - now tk ->
  _completed_event (cl (observe (arrivals tk) m2)) = true ->
  (forall tk', In tk' (passes ++ [tk]) -> post_done tk' = true ->
     exists response,
       post_outcome w = inr response /\ refusal response = false) ->
  _run_message_operation payload session evs ensure names true
  = (_close_event_stream (observe (arrivals tk) m2),
     Val (_build_result (cl (observe (arrivals tk) m2)))).
Proof.
  intros Hsetup Hticks Hquiet Htime Hdone Hpost.
  unfold _run_message_operation, try_finally, try_except, operation_body.
  unfold bind at 1. rewrite Hsetup.
  unfold operation_wait. unfold bind at 1. rewrite Hticks.
  destruct (poll_quiet passes (tk :: rest) false m1 m2) as [checked ->];
    [| exact Hquiet |].
  { intros tk' Hin. apply Hpost. apply in_or_app. now left. }
  cbn [poll]. unfold bind at 1, advance at 1.
  rewrite (not_late _ Htime). unfold bind at 1, get_client at 1.
  rewrite Hdone. cbn [andb]. unfold ret at 1. cbn [fst snd].
  destruct (post_done tk && negb checked) eqn:Hcheck.
  - apply andb_true_iff in Hcheck. destruct Hcheck as [Hp _].
    destruct (Hpost tk) as (response & Hout & Hok);
      [apply in_or_app; right; now left | exact Hp |].
    unfold bind at 1. rewrite (check_post_accepts response _ Hout Hok).
    reflexivity.
  - reflexivity.
Qed.

(** A terminal event does not win over a POST already seen refused: when
    the pass that finds the completion flag set also finds the POST
    finished with a falsy [success], the check made after the loop raises
    and the Result is the [unexpected_error], not the one of the event. *)
Theorem completion_with_refused_post payload session evs ensure names m1
    sent passes m2 tk rest response :
  operation_setup payload session ensure (initial session evs names)
  = (m1, Val sent) ->
  ticks w = (passes ++ tk :: rest)%list ->
  idle true passes m1 = Some m2 ->
  0 < deadline_of - now tk ->
  _completed_event (cl (observe (arrivals tk) m2)) = true ->
  post_done tk = true ->
  post_outcome w = inr (JObj response) ->
  truthy (dict_get "success" response) = false ->
  exists r,
    _run_message_operation payload session evs ensure names true
    = (_close_event_stream (observe (arrivals tk) m2), Val r)
    /\ status r = "error"
    /\ error_code r = JStr "unexpected_error"
    /\ message r = JStr ("发送消息失败: " ++ py_repr (JObj response)).
Proof.
  intros Hsetup Hticks Hidle Htime Hdone Hpost Hout Hfalsy.
  unfold _run_message_operation, try_finally, try_except, operation_body.
  unfold bind at 1. rewrite Hsetup.
  unfold operation_wait. unfold bind at 1.
  rewrite Hticks, (poll_idle _ _ _ _ _ _ Hidle).
  cbn [poll]. unfold bind at 1, advance at 1.
  rewrite (not_late _ Htime). unfold bind at 1, get_client at 1.
  rewrite Hdone, Hpost. cbn [andb negb]. unfold ret at 1. cbn [fst snd andb negb].
  unfold bind at 1, check_post_response. rewrite Hout.
  cbn [is_dict fields_of andb]. rewrite Hfalsy. cbn [negb].
  unfold raise, operation_except, bind, get_client, ret.
  eexists. repeat split.
Qed.

(** The overall deadline.  After passes in which the deadline is ahead and
    the completion flag unset, a pass that reads the clock at or past the
    deadline ends the operation with the [timeout] error, carrying the
    session id the client holds at that moment. *)
Theorem deadline_ends_wait payload session evs ensure names m1 sent passes
    m2 tk rest :
  operation_setup payload session ensure (initial session evs names)
  = (m1, Val sent) ->
  ticks w = (passes ++ tk :: rest)%list ->
  quiet passes m1 = Some m2 ->
  deadline_of - now tk <= 0 ->
  (forall tk', In tk' passes -> post_done tk' = true ->
     exists response,
       post_outcome w = inr response /\ refusal response = false) ->
  exists r,
    _run_message_operation payload session evs ensure names true
    = (_close_event_stream (observe (arrivals tk) m2), Val r)
    /\ status r = "error"
    /\ error_code r = JStr "timeout"
    /\ message r = JStr "等待 SSE 响应完成超时"
    /\ session_id r = _session_id (cl (observe (arrivals tk) m2)).
Proof.
  intros Hsetup Hticks Hquiet Htime Hpost.
  unfold _run_message_operation, try_finally, try_except, operation_body.
  unfold bind at 1. rewrite Hsetup.
  unfold operation_wait. unfold bind at 1. rewrite Hticks.
  destruct (poll_quiet passes (tk :: rest) false m1 m2 Hpost Hquiet)
    as [checked ->].
  cbn [poll]. unfold bind at 1, advance at 1.
  apply Z.leb_le in Htime. rewrite Htime.
  unfold raise, operation_except, bind, get_client, ret.
  eexists. repeat split.
Qed.

(** ** The requests of a run *)

Lemma silent_bind {A B} (x : M A) (k : A -> M B) :
  silent x -> (forall a, silent (k a)) -> silent (bind x k).
Proof.
  intros Hx Hk m m' r. unfold bind.
  destruct (x m) as [m1 [a | e |]] eqn:Ex; intros Hr.
  - rewrite (Hk a _ _ _ Hr). eapply Hx; eauto.
  - injection Hr as <- _. eapply Hx; eauto.
  - injection Hr as <- _. eapply Hx; eauto.
Qed.

Lemma silent_ret {A} (a : A) : silent (ret a).
Proof. intros m m' r [= <- _]. reflexivity. Qed.

Lemma silent_raise {A} e : silent (@raise A e).
Proof. intros m m' r [= <- _]. reflexivity. Qed.

Lemma silent_get : silent get_client.
Proof. intros m m' r [= <- _]. reflexivity. Qed.

Lemma silent_advance items : silent (advance items).
Proof. intros m m' r [= <- _]. reflexivity. Qed.

Lemma silent_check_post : silent check_post_response.
Proof.
  unfold check_post_response.
  destruct (post_outcome w); [apply silent_raise |].
  destruct (_ && _); [apply silent_raise | apply silent_ret].
Qed.

Lemma silent_poll wait deadline passes checked :
  silent (poll wait deadline passes checked).
Proof.
  revert checked. induction passes as [| tk rest IH]; intros checked;
    cbn [poll].
  - intros m m' r [= <- _]. reflexivity.
  - apply silent_bind; [apply silent_advance | intros _].
    destruct (deadline - now tk <=? 0); [apply silent_raise |].
    apply silent_bind; [apply silent_get | intros c].
    destruct (wait && _completed_event c); [apply silent_ret |].
    destruct (post_done tk && negb checked); [| apply IH].
    apply silent_bind; [apply silent_check_post | intros _].
    destruct (negb wait); [apply silent_ret | apply IH].
Qed.

Lemma silent_wait wait : silent (operation_wait wait).
Proof.
  unfold operation_wait.
  apply silent_bind; [apply silent_poll | intros left].
  apply silent_bind.
  - destruct (_ && _); [apply silent_check_post | apply silent_ret].
  - intros _. apply silent_bind; [apply silent_get | intros c].
    apply silent_ret.
Qed.

Lemma silent_except e : silent (operation_except e).
Proof.
  unfold operation_except.
  apply silent_bind; [apply silent_get | intros c].
  destruct e as [text | code reason body | text | text];
    try apply silent_ret.
  destruct (_http_error_to_result code reason body);
    [apply silent_raise | apply silent_ret].
Qed.

Lemma closing_steps_post_nothing m : filter is_post (closing_steps m) = [].
Proof.
  unfold closing_steps.
  destruct (_stream_sock m), (_reader_thread m && alive (rd m)),
    (_stream_response m); reflexivity.
Qed.

(** The trace of a run is that of its setup followed by actions that are
    no posts: the wait and the [except] clauses issue none, and neither
    does the teardown. *)
Lemma run_trace payload session evs ensure names wait :
  exists tail,
    trace (fst (_run_message_operation payload session evs ensure names
                  wait))
    = (trace (fst (operation_setup payload session ensure
                     (initial session evs names))) ++ tail)%list
    /\ filter is_post tail = [].
Proof.
  unfold _run_message_operation, try_finally, try_except, operation_body.
  unfold bind at 1.
  destruct (operation_setup payload session ensure
              (initial session evs names)) as [m1 [sent | e |]] eqn:Hsetup;
    cbn [fst].
  - destruct (operation_wait wait m1) as [m2 [r | e |]] eqn:Hwait;
      pose proof (silent_wait wait _ _ _ Hwait) as Ht2.
    + cbn [fst trace _close_event_stream]. rewrite Ht2.
      eexists. split; [reflexivity |].
      cbn [filter is_post]. apply closing_steps_post_nothing.
    + destruct (operation_except e m2) as [m3 [r | e3 |]] eqn:Hex;
        pose proof (silent_except e _ _ _ Hex) as Ht3;
        cbn [fst trace _close_event_stream]; rewrite ?Ht3, ?Ht2.
      * eexists. split; [reflexivity |].
        cbn [filter is_post]. apply closing_steps_post_nothing.
      * eexists. split; [reflexivity |].
        cbn [filter is_post]. apply closing_steps_post_nothing.
      * exists []. now rewrite app_nil_r.
    + cbn [fst]. rewrite Ht2. exists []. now rewrite app_nil_r.
  - destruct (operation_except e m1) as [m3 [r | e3 |]] eqn:Hex;
      pose proof (silent_except e _ _ _ Hex) as Ht3;
      cbn [fst trace _close_event_stream]; rewrite ?Ht3.
    + eexists. split; [reflexivity |].
      cbn [filter is_post]. apply closing_steps_post_nothing.
    + eexists. split; [reflexivity |].
      cbn [filter is_post]. apply closing_steps_post_nothing.
    + exists []. now rewrite app_nil_r.
  - exists []. now rewrite app_nil_r.
Qed.

Ltac split_inner :=
  match goal with
  | |- context [match ?x with _ => _ end] =>
      lazymatch x with
      | context [match _ with _ => _ end] => fail
      | _ => destruct x eqn:?
      end
  end.

(** What the setup has done when it ends, however it ends: the stream
    request comes first, at most one session call follows, and the command
    is posted last and at most once, with the payload the caller gave plus
    the session id. *)
Lemma setup_trace payload session evs ensure names :
  let t :=
    trace (fst (operation_setup payload session ensure
                  (initial session evs names))) in
  hd_error t = Some AGetEvents
  /\ post_sequence_ok (filter is_post t) = true
  /\ forall p, In (APost "/message" p) t ->
       (opt_truthy session = true ->
          p = dict_set "sessionId" (of_opt session) payload)
       /\ (opt_truthy session = false ->
           p = payload
           \/ (ensure = true
               /\ exists response sid,
                    create_outcome w = inr (JObj response)
                    /\ truthy (dict_get "success" response) = true
                    /\ session_of response = Some sid
                    /\ sid <> ""
                    /\ p = dict_set "sessionId" (JStr sid) payload)).
Proof.
  intros t. subst t.
  unfold operation_setup, _open_event_stream, start_reader,
    _bind_session_to_connection, _ensure_session_for_connection, advance,
    bind, emit, get_client, modify_client, ret, raise, initial.
  cbn -[reader_run _reset_runtime_state dict_set session_of].
  repeat (split_inner;
          cbn -[reader_run _reset_runtime_state dict_set session_of]).
  all: split; [reflexivity | split; [reflexivity |]].
  all: intros p Hin;
    repeat match goal with
           | H : _ \/ _ |- _ => destruct H as [H | H]
           | H : False |- _ => destruct H
           end;
    try discriminate;
    match goal with
    | H : APost _ _ = APost _ _ |- _ => injection H as <-
    end;
    (split; intros Htruthy; try discriminate; try reflexivity).
  all: first
         [ left; reflexivity
         | right; split; [reflexivity |]; do 2 eexists;
           split; [reflexivity |];
           split; [apply negb_false_iff; eassumption |];
           split; [eassumption |];
           split; [intros ->; cbn in *; discriminate | reflexivity] ].
Qed.

Lemma dict_get_set k v d : dict_get k (dict_set k v d) = v.
Proof.
  induction d as [| [k' v'] d IH]; cbn.
  - now rewrite String.eqb_refl.
  - destruct (k =? k')%string eqn:E; cbn; rewrite ?String.eqb_refl, ?E; auto.
Qed.

(** The requests of every run, however it ends.  The stream request comes
    first.  Of POSTs there are at most two: at most one session call
    ([/session/load] or [/session/create]) and after it at most one post of
    the command, so a command is never sent twice.  The command goes out
    with the caller's payload and, when the caller named a session, with
    that session id; otherwise with the id the server returned for the
    session created for this connection, or with none. *)
Theorem requests_of_a_run payload session evs ensure names wait :
  let t :=
    trace (fst (_run_message_operation payload session evs ensure names
                  wait)) in
  hd_error t = Some AGetEvents
  /\ post_sequence_ok (filter is_post t) = true
  /\ forall p, In (APost "/message" p) t ->
       (opt_truthy session = true ->
          p = dict_set "sessionId" (of_opt session) payload
          /\ dict_get "sessionId" p = of_opt session)
       /\ (opt_truthy session = false ->
           p = payload
           \/ (ensure = true
               /\ exists response sid,
                    create_outcome w = inr (JObj response)
                    /\ truthy (dict_get "success" response) = true
                    /\ session_of response = Some sid
                    /\ sid <> ""
                    /\ p = dict_set "sessionId" (JStr sid) payload)).
Proof.
  intros t. subst t.
  destruct (run_trace payload session evs ensure names wait)
    as (tail & -> & Htail).
  destruct (setup_trace payload session evs ensure names)
    as (Hhd & Hposts & Hmsg).
  split; [| split].
  - destruct (trace (fst (operation_setup payload session ensure
                            (initial session evs names))));
      [discriminate | exact Hhd].
  - now rewrite filter_app, Htail, app_nil_r.
  - intros p Hin. apply in_app_or in Hin. destruct Hin as [Hin | Hin].
    + destruct (Hmsg p Hin) as [Hgiven Hnone]. split; [| exact Hnone].
      intros Ht. split; [now apply Hgiven |].
      rewrite (Hgiven Ht). apply dict_get_set.
    + exfalso.
      assert (Hf : In (APost "/message" p) (filter is_post tail))
        by (apply filter_In; auto).
      rewrite Htail in Hf. exact Hf.
Qed.

(** ** The payload behind a final event *)

Lemma mark_complete_data t d r c :
  _agent_list_data (_mark_complete_if_needed t d r c) = _agent_list_data c
  /\ _agent_switched_data (_mark_complete_if_needed t d r c)
     = _agent_switched_data c
  /\ _rollback_result_data (_mark_complete_if_needed t d r c)
     = _rollback_result_data c
  /\ _error (_mark_complete_if_needed t d r c) = _error c.
Proof.
  destruct (mark_complete_cases t d r c) as [-> | [_ ->]]; auto.
Qed.

Lemma mark_complete_final kind t d r c :
  final_is kind (_mark_complete_if_needed t d r c) = true ->
  (t =? kind)%string = true \/ final_is kind c = true.
Proof.
  destruct (mark_complete_cases t d r c) as [-> | [_ ->]]; auto.
Qed.

Lemma typed_payloads_mark t d r c :
  (t = "agent_list" -> _agent_list_data c <> None) ->
  (t = "agent_switched" -> _agent_switched_data c <> None) ->
  (t = "rollback_result" -> _rollback_result_data c <> None) ->
  (t = "error" -> _error c <> None) ->
  typed_payloads c -> typed_payloads (_mark_complete_if_needed t d r c).
Proof.
  intros Ha Hs Hr He [Ia Is Ir Ie].
  destruct (mark_complete_data t d r c) as (Ea & Es & Er & Ee).
  constructor; intros Hf; apply mark_complete_final in Hf;
    rewrite ?Ea, ?Es, ?Er, ?Ee;
    (destruct Hf as [Hf | Hf]; [apply String.eqb_eq in Hf | ]); auto.
Qed.

Lemma typed_payloads_event ev c :
  typed_payloads c -> typed_payloads (handle_event ev c).
Proof.
  intros Htp. unfold handle_event.
  set (data := if is_dict (dict_get "data" ev) then _ else _).
  set (rid := dict_get "requestId" ev).
  destruct (str_eq (dict_get "type" ev) "connected").
  { destruct Htp. unfold on_connected. split_ifs; constructor; cbn; auto. }
  destruct (str_eq (dict_get "type" ev) "message" && is_dict data).
  { destruct Htp. unfold on_message. split_ifs; constructor; cbn; auto. }
  destruct (str_eq (dict_get "type" ev) "usage" && is_dict data).
  { destruct Htp. constructor; cbn; auto. }
  destruct (str_eq (dict_get "type" ev) "tool_confirmation_request"
            && is_dict data).
  { apply typed_payloads_mark; try discriminate.
    destruct Htp. constructor; cbn; auto. }
  destruct (str_eq (dict_get "type" ev) "user_question_request"
            && is_dict data).
  { apply typed_payloads_mark; try discriminate.
    destruct Htp. constructor; cbn; auto. }
  destruct (str_eq (dict_get "type" ev) "agent_list" && is_dict data).
  { unfold on_agent_list.
    apply typed_payloads_mark; try discriminate;
      destruct (is_list (dict_get "agents" (fields_of data)));
      try (intros _; cbn; discriminate);
      destruct Htp; constructor; cbn; auto; discriminate. }
  destruct (str_eq (dict_get "type" ev) "agent_switched" && is_dict data).
  { apply typed_payloads_mark; try discriminate;
      try (intros _; cbn; discriminate).
    destruct Htp. constructor; cbn; auto. discriminate. }
  destruct (str_eq (dict_get "type" ev) "rollback_result" && is_dict data).
  { apply typed_payloads_mark; try discriminate;
      try (intros _; cbn; discriminate).
    destruct Htp. constructor; cbn; auto. discriminate. }
  destruct (str_eq (dict_get "type" ev) "error").
  { unfold on_error.
    apply typed_payloads_mark; try discriminate;
      try (intros _; cbn; discriminate).
    destruct Htp. constructor; cbn; auto. discriminate. }
  destruct (str_eq (dict_get "type" ev) "complete" && is_dict data).
  { unfold on_complete. apply typed_payloads_mark; try discriminate.
    destruct Htp. split_ifs; constructor; cbn; auto. }
  assumption.
Qed.

Lemma reachable_typed_payloads session evs names c :
  reachable session evs names c -> typed_payloads c.
Proof.
  induction 1 as [| ev c _ IH | text c _ IH | sid c _ IH].
  - constructor; discriminate.
  - now apply typed_payloads_event.
  - unfold reader_except. destruct (_completed_event c); [exact IH |].
    destruct IH. constructor; cbn; auto. discriminate.
  - destruct IH. constructor; cbn; auto.
Qed.

Lemma mark_complete_split t d r c :
  (mem t (_completion_events c) = false
   /\ _mark_complete_if_needed t d r c = c)
  \/ (mem t (_completion_events c) = true
      /\ _mark_complete_if_needed t d r c
         = set_completed true
             (set_final_event
                (Some {| fe_type := t; fe_data := d; fe_request_id := r |})
                c)).
Proof.
  unfold _mark_complete_if_needed.
  destruct (mem t (_completion_events c)); cbn; auto.
Qed.

(** Recording a final event on a state [c] that differs from [c0] at most
    in the payload stored for the kind of the event. *)
Lemma final_payloads_mark evs t d r c0 c :
  well_formed evs c0 ->
  final_payloads c0 ->
  _final_event c = _final_event c0 ->
  _completion_events c = _completion_events c0 ->
  _completed_event c = _completed_event c0 ->
  (if (t =? "agent_list")%string then _agent_list_data c = Some d
   else _agent_list_data c = _agent_list_data c0) ->
  (if (t =? "agent_switched")%string then _agent_switched_data c = Some d
   else _agent_switched_data c = _agent_switched_data c0) ->
  (if (t =? "rollback_result")%string then _rollback_result_data c = Some d
   else _rollback_result_data c = _rollback_result_data c0) ->
  final_payloads (_mark_complete_if_needed t d r c).
Proof.
  intros Hwf [Ic Ia Is Ir] Hfinal Hevents Hdone Ha Hs Hr.
  destruct (mark_complete_split t d r c) as [[Hout ->] | [_ ->]].
  - (* not a terminal kind: a recorded final event is of another kind *)
    assert (Hother : forall fe, _final_event c0 = Some fe ->
                       (t =? fe_type fe)%string = false).
    { intros fe Hfe. destruct (String.eqb_spec t (fe_type fe)) as [-> |];
        [| reflexivity].
      pose proof (wf_final _ _ Hwf fe Hfe) as Hin.
      rewrite Hevents, (wf_events _ _ Hwf) in Hout. congruence. }
    constructor.
    + rewrite Hfinal, Hdone. exact Ic.
    + intros fe Hfe Ht. rewrite Hfinal in Hfe.
      pose proof (Hother fe Hfe) as Hne. rewrite Ht in Hne.
      rewrite Hne in Ha. rewrite Ha. now apply Ia.
    + intros fe Hfe Ht. rewrite Hfinal in Hfe.
      pose proof (Hother fe Hfe) as Hne. rewrite Ht in Hne.
      rewrite Hne in Hs. rewrite Hs. now apply Is.
    + intros fe Hfe Ht. rewrite Hfinal in Hfe.
      pose proof (Hother fe Hfe) as Hne. rewrite Ht in Hne.
      rewrite Hne in Hr. rewrite Hr. now apply Ir.
  - constructor; cbn.
    + reflexivity.
    + intros fe [= <-] Ht. cbn in *. subst t. exact Ha.
    + intros fe [= <-] Ht. cbn in *. subst t. exact Hs.
    + intros fe [= <-] Ht. cbn in *. subst t. exact Hr.
Qed.

Lemma final_payloads_event evs ev c :
  well_formed evs c -> final_payloads c -> final_payloads (handle_event ev c).
Proof.
  intros Hwf Hfp. unfold handle_event.
  set (data := if is_dict (dict_get "data" ev) then _ else _).
  set (rid := dict_get "requestId" ev).
  destruct (str_eq (dict_get "type" ev) "connected").
  { destruct Hfp. unfold on_connected. split_ifs; constructor; cbn; auto. }
  destruct (str_eq (dict_get "type" ev) "message" && is_dict data).
  { destruct Hfp. unfold on_message. split_ifs; constructor; cbn; auto. }
  destruct (str_eq (dict_get "type" ev) "usage" && is_dict data).
  { destruct Hfp. constructor; cbn; auto. }
  destruct (str_eq (dict_get "type" ev) "tool_confirmation_request"
            && is_dict data).
  { unfold on_interactive.
    eapply final_payloads_mark; eauto; reflexivity. }
  destruct (str_eq (dict_get "type" ev) "user_question_request"
            && is_dict data).
  { unfold on_interactive.
    eapply final_payloads_mark; eauto; reflexivity. }
  destruct (str_eq (dict_get "type" ev) "agent_list" && is_dict data).
  { unfold on_agent_list.
    eapply final_payloads_mark; eauto;
      destruct (is_list (dict_get "agents" (fields_of data)));
      reflexivity. }
  destruct (str_eq (dict_get "type" ev) "agent_switched" && is_dict data).
  { eapply final_payloads_mark; eauto; reflexivity. }
  destruct (str_eq (dict_get "type" ev) "rollback_result" && is_dict data).
  { eapply final_payloads_mark; eauto; reflexivity. }
  destruct (str_eq (dict_get "type" ev) "error").
  { unfold on_error.
    eapply final_payloads_mark; eauto; reflexivity. }
  destruct (str_eq (dict_get "type" ev) "complete" && is_dict data).
  { unfold on_complete.
    eapply final_payloads_mark; eauto;
      destruct (truthy (dict_get "sessionId" (fields_of data)));
      destruct (dict_get "usage" (fields_of data)); reflexivity. }
  assumption.
Qed.

Lemma reachable_final_payloads session evs names c :
  reachable session evs names c -> final_payloads c.
Proof.
  induction 1 as [| ev c Hreach IH | text c _ IH | sid c _ IH].
  - constructor; cbn; congruence.
  - eapply final_payloads_event; eauto.
    eapply reachable_well_formed; eauto.
  - unfold reader_except. destruct (_completed_event c); [exact IH |].
    destruct IH. constructor; cbn; auto.
  - destruct IH. constructor; cbn; auto.
Qed.

Lemma quiet_reachable session evs names passes m m' :
  quiet passes m = Some m' ->
  reachable session evs names (cl m) ->
  reachable session evs names (cl m').
Proof.
  revert m. induction passes as [| tk passes IH]; intros m Hquiet Hreach.
  - injection Hquiet as <-. exact Hreach.
  - cbn [quiet] in Hquiet.
    destruct ((0 <? deadline_of - now tk)
              && negb (_completed_event (cl (observe (arrivals tk) m))));
      [| discriminate].
    apply (IH _ Hquiet). apply reader_run_reachable. exact Hreach.
Qed.

(** The client state at the pass that ends the wait of an operation. *)
Lemma pass_reachable payload session evs ensure names m1 sent passes m2 tk :
  operation_setup payload session ensure (initial session evs names)
  = (m1, Val sent) ->
  quiet passes m1 = Some m2 ->
  reachable session evs names (cl (observe (arrivals tk) m2)).
Proof.
  intros Hsetup Hquiet.
  apply reader_run_reachable.
  apply (quiet_reachable _ _ _ _ _ _ Hquiet).
  exact (keeps_setup session evs names payload ensure _ _ _ Hsetup
           (initial_reachable session evs names)).
Qed.

(** ** What a command that waits can return *)

Lemma http_error_shape code reason body r :
  _http_error_to_result code reason body = inr r ->
  status r = "error" /\ agents r = None /\ available_agents r = None
  /\ request_data r = None.
Proof.
  unfold _http_error_to_result.
  repeat match goal with
         | |- context [match ?x with _ => _ end] =>
             lazymatch x with
             | json_loads _ => fail
             | _ => destruct x
             end
         end;
    intros [= <-]; repeat split.
Qed.

Lemma except_shape e m m' r :
  operation_except e m = (m', Val r) ->
  status r = "error" /\ agents r = None /\ available_agents r = None
  /\ request_data r = None.
Proof.
  unfold operation_except, bind, get_client, ret, raise.
  destruct e as [text | code reason body | text | text].
  - intros [= _ <-]. repeat split.
  - destruct (_http_error_to_result code reason body) eqn:Eh;
      [discriminate |].
    intros [= _ <-]. eapply http_error_shape; eauto.
  - intros [= _ <-]. repeat split.
  - intros [= _ <-]. repeat split.
Qed.

(** A Result returned by an operation that waits is either built by
    [_build_result] from a reachable state whose completion flag is set, or
    it comes from an [except] clause. *)
Lemma run_result_cases payload session evs ensure names m r :
  _run_message_operation payload session evs ensure names true = (m, Val r) ->
  (exists c,
     reachable session evs names c
     /\ _completed_event c = true
     /\ r = _build_result c)
  \/ (status r = "error" /\ agents r = None /\ available_agents r = None
      /\ request_data r = None).
Proof.
  unfold _run_message_operation, try_finally, try_except, operation_body.
  unfold bind at 1.
  destruct (operation_setup payload session ensure
              (initial session evs names)) as [m1 [sent | e |]] eqn:Hsetup.
  - pose proof (keeps_setup session evs names payload ensure _ _ _ Hsetup
                  (initial_reachable session evs names)) as Hr1.
    destruct (operation_wait true m1) as [m2 [r2 | e |]] eqn:Hwait.
    + intros [= <- <-]. left.
      pose proof (keeps_wait session evs names true _ _ _ Hwait Hr1) as Hr2.
      destruct (wait_result _ _ _ Hwait) as [-> Hdone].
      exists (cl m2). auto.
    + destruct (operation_except e m2) as [m3 [r3 | e3 |]] eqn:Hex;
        try discriminate.
      intros [= <- <-]. right. eapply except_shape; eauto.
    + discriminate.
  - destruct (operation_except e m1) as [m3 [r3 | e3 |]] eqn:Hex;
      try discriminate.
    intros [= <- <-]. right. eapply except_shape; eauto.
  - discriminate.
Qed.

(** The final event of a completed state with no stored error. *)
Lemma completed_final evs c :
  well_formed evs c ->
  _completed_event c = true ->
  _error c = None ->
  exists fe, _final_event c = Some fe /\ mem (fe_type fe) evs = true.
Proof.
  intros Hwf Hdone He.
  destruct (wf_completed _ _ Hwf Hdone) as [Hf | Hf]; [| congruence].
  destruct (_final_event c) as [fe |] eqn:Hfe; [| congruence].
  exists fe. split; [reflexivity |]. exact (wf_final _ _ Hwf fe Hfe).
Qed.

(** The state a built Result comes from is the one the operation leaves,
    up to the completion flag that teardown sets again. *)
Lemma run_result_state payload session evs ensure names m r :
  _run_message_operation payload session evs ensure names true = (m, Val r) ->
  (exists c,
     reachable session evs names c
     /\ _completed_event c = true
     /\ r = _build_result c
     /\ cl m = set_completed true c)
  \/ (status r = "error" /\ agents r = None /\ available_agents r = None
      /\ request_data r = None).
Proof.
  unfold _run_message_operation, try_finally, try_except, operation_body.
  unfold bind at 1.
  destruct (operation_setup payload session ensure
              (initial session evs names)) as [m1 [sent | e |]] eqn:Hsetup.
  - pose proof (keeps_setup session evs names payload ensure _ _ _ Hsetup
                  (initial_reachable session evs names)) as Hr1.
    destruct (operation_wait true m1) as [m2 [r2 | e |]] eqn:Hwait.
    + intros [= <- <-]. left.
      pose proof (keeps_wait session evs names true _ _ _ Hwait Hr1) as Hr2.
      destruct (wait_result _ _ _ Hwait) as [-> Hdone].
      exists (cl m2). auto.
    + destruct (operation_except e m2) as [m3 [r3 | e3 |]] eqn:Hex;
        try discriminate.
      intros [= <- <-]. right. eapply except_shape; eauto.
    + discriminate.
  - destruct (operation_except e m1) as [m3 [r3 | e3 |]] eqn:Hex;
      try discriminate.
    intros [= <- <-]. right. eapply except_shape; eauto.
  - discriminate.
Qed.

(** Which branch of [_build_result] gives a list of available agents. *)
Lemma build_result_available c listed :
  available_agents (_build_result c) = Some listed ->
  _pending_request c = None
  /\ exists e,
       _error c = Some e
       /\ err_available_agents e = Some listed
       /\ _build_result c
          = with_available_agents (err_available_agents e)
              (with_message (err_message e)
                 (with_error_code (err_code e)
                    (with_usage (_usage c)
                       (with_messages (_messages c)
                          (with_session_id (_session_id c)
                             (result "error")))))).
Proof.
  unfold _build_result.
  destruct (_pending_request c) as [p |]; [discriminate |].
  destruct (_error c) as [e |].
  - cbn. intros He. split; [reflexivity |]. exists e. auto.
  - unfold agent_list_result, agent_switched_result, rollback_result,
      generic_result.
    split_ifs; cbn; discriminate.
Qed.

(** [list_agents] the way a caller sees it.  A Result of status [success]
    carries a list of agents, and the list is one of two.  Either the
    operation ended on an [agent_list] event with no error stored, and the
    list is the [agents] of that event's data (empty when it is not a list)
    with the event's [currentAgentId]; or the probe ended with a stored
    error that came with a list of available agents, and the list is that
    one, with no current agent. *)
Theorem list_agents_success_has_agents session m r :
  list_agents session = (m, Val r) ->
  status r = "success" ->
  (exists fe,
     _final_event (cl m) = Some fe
     /\ fe_type fe = "agent_list"
     /\ _error (cl m) = None
     /\ agents r
        = Some match dict_get "agents" (fe_data fe) with
               | JArr l => l
               | _ => []
               end
     /\ current_agent_id r
        = agent_id_text (dict_get "currentAgentId" (fe_data fe)))
  \/ (exists e listed,
        _error (cl m) = Some e
        /\ err_available_agents e = Some listed
        /\ agents r = Some listed
        /\ current_agent_id r = None).
Proof.
  unfold list_agents.
  destruct (_run_message_operation _ session ["agent_list"; "error"] true []
              true) as [m0 out] eqn:Hrun.
  destruct out as [raw | e |]; try discriminate.
  destruct (run_result_state _ _ _ _ _ _ _ Hrun)
    as [(c & Hreach & Hdone & -> & Hstate) | (Hs & Ha & Hav & _)].
  2: { rewrite Hav.
       destruct ((status raw =? "success")%string) eqn:E;
         [apply String.eqb_eq in E; congruence |].
       intros [= _ <-] Hsuccess. congruence. }
  pose proof (reachable_well_formed _ _ _ _ Hreach) as Hwf.
  pose proof (reachable_typed_payloads _ _ _ _ Hreach) as Htp.
  pose proof (reachable_final_payloads _ _ _ _ Hreach) as Hfp.
  assert (Hraw : status (_build_result c) = "success" ->
                 exists fe,
                   _final_event c = Some fe
                   /\ fe_type fe = "agent_list"
                   /\ _error c = None
                   /\ _build_result c = agent_list_result c (fe_data fe)).
  { intros Hsuccess.
    destruct (build_success _ _ Hwf Hsuccess) as [Hp He].
    destruct (completed_final _ _ Hwf Hdone He) as (fe & Hfe & Hin).
    exists fe. split; [exact Hfe |].
    cbn in Hin. apply orb_true_iff in Hin. destruct Hin as [Hin | Hin].
    - apply String.eqb_eq in Hin.
      split; [exact Hin |]. split; [exact He |].
      unfold _build_result, final_is. rewrite Hp, He, Hfe, Hin.
      now rewrite (fp_agent_list _ Hfp fe Hfe Hin).
    - rewrite orb_false_r in Hin. apply String.eqb_eq in Hin.
      pose proof (tp_error _ Htp) as Herr.
      unfold final_is in Herr. rewrite Hfe, Hin in Herr.
      specialize (Herr eq_refl). congruence. }
  destruct ((status (_build_result c) =? "success")%string) eqn:E.
  - apply String.eqb_eq in E.
    destruct (Hraw E) as (fe & Hfe & Hkind & He & Hbuilt).
    rewrite Hbuilt. cbn [agents agent_list_result with_current_agent_id
                           with_agents].
    intros [= <- <-] _. left. exists fe.
    rewrite Hstate. cbn. auto.
  - destruct (agents (_build_result c));
      (destruct (available_agents (_build_result c)) as [listed |] eqn:Hav;
       [| intros [= _ <-] Hsuccess; apply String.eqb_neq in E; congruence]);
      destruct (build_result_available c listed Hav)
        as (_ & e & He & Hlisted & Hbuilt);
      intros [= <- <-] _; right; exists e, listed;
      rewrite Hstate, Hbuilt; cbn; auto.
Qed.

(** [switch_agent] and [rollback_to] the way a caller sees them: a Result
    of status [success] is always the one of their own terminal event, with
    the text of the switch, or with the server's rollback data and the
    rollback text. *)
Theorem typed_commands_return_typed_success :
  (forall agent_id session m r,
     switch_agent agent_id session = (m, Val r) ->
     status r = "success" ->
     exists text,
       message r = JStr text /\ text <> "" /\ messages r = []
       /\ agents r = None)
  /\ (forall session message_index rollback_files selected_files m r,
     rollback_to session message_index rollback_files selected_files
     = (m, Val r) ->
     status r = "success" ->
     message r = JStr "回滚执行成功"
     /\ exists d,
          request_data r = Some d
          /\ truthy (dict_get "success" d) = true).
Proof.
  split.
  - intros agent_id session m r Hrun Hsuccess.
    destruct (run_result_cases _ _ _ _ _ _ _ Hrun)
      as [(c & Hreach & Hdone & ->) | (Hs & _)]; [| congruence].
    pose proof (reachable_well_formed _ _ _ _ Hreach) as Hwf.
    pose proof (reachable_typed_payloads _ _ _ _ Hreach) as Htp.
    destruct (build_success _ _ Hwf Hsuccess) as [Hp He].
    destruct (completed_final _ _ Hwf Hdone He) as (fe & Hfe & Hin).
    unfold _build_result, final_is. rewrite Hp, He, Hfe.
    cbn in Hin. apply orb_true_iff in Hin. destruct Hin as [Hin | Hin].
    + apply String.eqb_eq in Hin.
      pose proof (tp_agent_switched _ Htp) as Hdata.
      unfold final_is in Hdata. rewrite Hfe, Hin in Hdata.
      specialize (Hdata eq_refl). rewrite Hin. cbn.
      destruct (_agent_switched_data c) as [d |]; [| congruence].
      unfold agent_switched_result. cbn.
      destruct (truthy (dict_get "agentName" d));
        eexists; repeat split; discriminate.
    + rewrite orb_false_r in Hin. apply String.eqb_eq in Hin.
      pose proof (tp_error _ Htp) as Herr.
      unfold final_is in Herr. rewrite Hfe, Hin in Herr.
      specialize (Herr eq_refl). congruence.
  - intros session message_index rollback_files selected_files m r Hrun
      Hsuccess.
    destruct (run_result_cases _ _ _ _ _ _ _ Hrun)
      as [(c & Hreach & Hdone & ->) | (Hs & _)]; [| congruence].
    pose proof (reachable_well_formed _ _ _ _ Hreach) as Hwf.
    pose proof (reachable_typed_payloads _ _ _ _ Hreach) as Htp.
    destruct (build_success _ _ Hwf Hsuccess) as [Hp He].
    destruct (completed_final _ _ Hwf Hdone He) as (fe & Hfe & Hin).
    revert Hsuccess.
    unfold _build_result, final_is. rewrite Hp, He, Hfe.
    cbn in Hin. apply orb_true_iff in Hin. destruct Hin as [Hin | Hin].
    + apply String.eqb_eq in Hin.
      pose proof (tp_rollback_result _ Htp) as Hdata.
      unfold final_is in Hdata. rewrite Hfe, Hin in Hdata.
      specialize (Hdata eq_refl). rewrite Hin. cbn.
      destruct (_rollback_result_data c) as [d |]; [| congruence].
      unfold rollback_result.
      destruct (truthy (dict_get "success" d)) eqn:Hok; cbn;
        [| discriminate].
      intros _. split; [reflexivity |]. exists d. auto.
    + rewrite orb_false_r in Hin. apply String.eqb_eq in Hin.
      pose proof (tp_error _ Htp) as Herr.
      unfold final_is in Herr. rewrite Hfe, Hin in Herr.
      specialize (Herr eq_refl). congruence.
Qed.

(** ** A rollback the server refuses *)

(** C6, as the code has it.  When [rollback_to] ends its wait on a pass
    before the deadline at which the recorded terminal event is a
    [rollback_result] whose data has a false [success], the error text
    ["conflict"] and the session id ["s1"], with no interactive request
    pending and no error stored, and the POST of the command has not been
    seen failed or refused, the Result has status [error], error code
    [rollback_failed], the message ["conflict"] and the session id of the
    event. *)
Theorem rollback_conflict_is_error session message_index rollback_files
    selected_files m1 sent passes m2 tk rest d request :
  let payload : dict :=
    [("type", JStr "rollback");
     ("rollback",
      JObj ([("messageIndex", JInt message_index);
             ("rollbackFiles", JBool rollback_files)]
            ++ match selected_files with
               | [] => []
               | files => [("selectedFiles", JArr (map JStr files))]
               end)%list)] in
  let c := cl (observe (arrivals tk) m2) in
  operation_setup payload (Some session) false
    (initial (Some session) ["rollback_result"; "error"] [])
  = (m1, Val sent) ->
  ticks w = (passes ++ tk :: rest)%list ->
  quiet passes m1 = Some m2 ->
  0 < deadline_of - now tk ->
  _final_event c
  = Some {| fe_type := "rollback_result"; fe_data := d;
            fe_request_id := request |} ->
  dict_get "success" d = JBool false ->
  dict_get "error" d = JStr "conflict" ->
  dict_get "sessionId" d = JStr "s1" ->
  _pending_request c = None ->
  _error c = None ->
  (forall tk', In tk' (passes ++ [tk]) -> post_done tk' = true ->
     exists response,
       post_outcome w = inr response /\ refusal response = false) ->
  exists r,
    rollback_to session message_index rollback_files selected_files
    = (_close_event_stream (observe (arrivals tk) m2), Val r)
    /\ status r = "error"
    /\ error_code r = JStr "rollback_failed"
    /\ message r = JStr "conflict"
    /\ contains "conflict" (py_str (message r)) = true
    /\ session_id r = Some "s1"
    /\ request_data r = Some d.
Proof.
  intros payload c Hsetup Hticks Hquiet Htime Hfinal Hsuccess Herror Hsid
    Hpending Hstored Hpost.
  pose proof (pass_reachable _ _ _ _ _ _ _ _ _ tk Hsetup Hquiet) as Hreach.
  fold c in Hreach.
  pose proof (reachable_final_payloads _ _ _ _ Hreach) as Hfp.
  assert (Hdone : _completed_event c = true)
    by (apply (fp_completed _ Hfp); congruence).
  pose proof (fp_rollback_result _ Hfp _ Hfinal eq_refl) as Hdata.
  cbn [fe_data] in Hdata.
  exists (_build_result c). split.
  - unfold rollback_to. fold payload.
    exact (completion_returns_built_result payload (Some session)
             ["rollback_result"; "error"] false [] m1 sent passes m2 tk rest
             Hsetup Hticks Hquiet Htime Hdone Hpost).
  - unfold _build_result, final_is. rewrite Hpending, Hstored, Hfinal.
    cbn [fe_type String.eqb Ascii.eqb Bool.eqb]. rewrite Hdata.
    unfold rollback_result, py_or. rewrite Hsuccess, Herror, Hsid.
    cbn. repeat split.
Qed.

(** ** Error results of the HTTP commands *)

Lemma parse_error_body_raises body e :
  parse_error_body body = inl e <->
  body <> "" /\ exists text, json_loads body = Raised text /\ e = OtherError text.
Proof.
  unfold parse_error_body. split.
  - destruct (body =? "")%string eqn:Hb; [discriminate |].
    apply String.eqb_neq in Hb.
    destruct (json_loads body) as [[] | | text]; try discriminate.
    intros [= <-]. eauto.
  - intros (Hb & text & Hl & ->). apply String.eqb_neq in Hb.
    now rewrite Hb, Hl.
Qed.

Lemma http_error_msg_truthy code reason parsed_body :
  truthy (http_error_msg code reason parsed_body) = true.
Proof. unfold http_error_msg, py_or. split_ifs; auto. Qed.

Lemma classify_shape code reason parsed_body :
  let msg := http_error_msg code reason parsed_body in
  let classified :=
    match (if code =? 404 then py_in "Session not found" msg
           else Some false) with
    | None => inl (not_iterable msg)
    | Some true =>
        inr (with_message (JStr ("会话不存在: " ++ py_str msg))
               (with_error_code (JStr "session_not_found") (result "error")))
    | Some false =>
    match (if code =? 400 then py_in "Session not found" msg
           else Some false) with
    | None => inl (not_iterable msg)
    | Some true =>
        inr (with_message (JStr ("会话不存在或连接已关闭: " ++ py_str msg))
               (with_error_code (JStr "session_not_found") (result "error")))
    | Some false =>
    match py_in "No active connection" msg with
    | None => inl (not_iterable msg)
    | Some true =>
        inr (with_suggestion (Some server_hint)
               (with_message msg
                  (with_error_code (JStr "connection_failed")
                     (result "error"))))
    | Some false =>
        inr (with_message msg
               (with_error_code (JStr "server_error") (result "error")))
    end end end in
  (py_in "No active connection" msg = None ->
   classified = inl (not_iterable msg))
  /\ (py_in "No active connection" msg <> None ->
      exists r,
        classified = inr r
        /\ status r = "error"
        /\ (error_code r = JStr "session_not_found"
            \/ error_code r = JStr "connection_failed"
            \/ error_code r = JStr "server_error")).
Proof.
  intros msg classified. subst classified.
  destruct msg as [| b | n | x | s | items | d]; cbn [py_in];
    (split; [intros Hnone | intros Hsome]); try discriminate;
    try congruence.
  - destruct (code =? 404); reflexivity || (destruct (code =? 400); reflexivity).
  - destruct (code =? 404); reflexivity || (destruct (code =? 400); reflexivity).
  - destruct (code =? 404); reflexivity || (destruct (code =? 400); reflexivity).
  - destruct (code =? 404); reflexivity || (destruct (code =? 400); reflexivity).
  - split_ifs; eexists; split; try reflexivity; cbn; auto.
  - split_ifs; eexists; split; try reflexivity; cbn; auto.
  - split_ifs; eexists; split; try reflexivity; cbn; auto.
Qed.

(** [_http_error_to_result] raises in exactly two cases.  Either
    [json.loads] raises for the body an exception other than
    [JSONDecodeError], which the handler does not catch; or the value to
    classify (the [error] of the body, else its [message], else the status
    line) is not something [in] can search, which is the case of a number
    or a boolean, and the exception is the TypeError of that test.  The
    value to classify is always truthy.  Whenever the handler returns, the
    Result has status [error] and one of three error codes. *)
Theorem http_error_raises_or_classifies code reason body :
  (forall e,
     _http_error_to_result code reason body = inl e <->
     (body <> ""
      /\ exists text, json_loads body = Raised text /\ e = OtherError text)
     \/ (exists parsed_body,
           parse_error_body body = inr parsed_body
           /\ py_in "No active connection"
                (http_error_msg code reason parsed_body) = None
           /\ e = not_iterable (http_error_msg code reason parsed_body)))
  /\ (forall parsed_body,
        truthy (http_error_msg code reason parsed_body) = true
        /\ (py_in "No active connection"
              (http_error_msg code reason parsed_body) = None <->
            (exists b, http_error_msg code reason parsed_body = JBool b)
            \/ (exists n, http_error_msg code reason parsed_body = JInt n)
            \/ (exists x, http_error_msg code reason parsed_body = JFloat x)))
  /\ (forall r,
        _http_error_to_result code reason body = inr r ->
        status r = "error"
        /\ (error_code r = JStr "session_not_found"
            \/ error_code r = JStr "connection_failed"
            \/ error_code r = JStr "server_error")).
Proof.
  split; [| split].
  - intros e. unfold _http_error_to_result.
    destruct (parse_error_body body) as [e0 | parsed_body] eqn:Hparse.
    + split.
      * intros [= <-]. left. now apply parse_error_body_raises.
      * intros [Hraised | (pb & [=] & _)].
        apply parse_error_body_raises in Hraised. congruence.
    + destruct (classify_shape code reason parsed_body) as [Hnone Hsome].
      fold (http_error_msg code reason parsed_body).
      split.
      * intros He. right. exists parsed_body. split; [reflexivity |].
        destruct (py_in "No active connection"
                    (http_error_msg code reason parsed_body)) eqn:Hin.
        -- destruct Hsome as (r & Hr & _); [discriminate |]. congruence.
        -- split; [reflexivity |]. rewrite (Hnone eq_refl) in He. congruence.
      * intros [Hraised | (pb & [= <-] & Hin & ->)].
        -- apply parse_error_body_raises in Hraised. congruence.
        -- exact (Hnone Hin).
  - intros parsed_body.
    pose proof (http_error_msg_truthy code reason parsed_body) as Ht.
    split; [exact Ht |].
    destruct (http_error_msg code reason parsed_body); cbn in *;
      split; try discriminate; eauto;
      intros [[? [=]] | [[? [=]] | [? [=]]]].
  - intros r. unfold _http_error_to_result.
    destruct (parse_error_body body) as [e0 | parsed_body]; [discriminate |].
    destruct (classify_shape code reason parsed_body) as [Hnone Hsome].
    fold (http_error_msg code reason parsed_body).
    destruct (py_in "No active connection"
                (http_error_msg code reason parsed_body)) eqn:Hin.
    + destruct Hsome as (r' & Hr & Hs & Hc); [discriminate |].
      rewrite Hr. intros [= <-]. auto.
    + rewrite (Hnone eq_refl). discriminate.
Qed.

Lemma contains_nonempty needle text :
  needle <> "" -> contains needle text = true -> text <> "".
Proof.
  intros Hn Hc ->. destruct needle; [congruence | discriminate].
Qed.

(** How the same HTTP answer is reported by different commands.  When the
    server answers 404 or 400 with a body whose [error] is a text that
    mentions "Session not found", [delete_session],
    [list_rollback_points] and the message operations report
    [session_not_found]; [abort_task] has no clause for HTTP errors and
    reports [connection_failed] with the status line in its message. *)
Theorem session_not_found_by_command code reason body d text session m :
  code = 404 \/ code = 400 ->
  body <> "" ->
  json_loads body = Parsed (JObj d) ->
  dict_get "error" d = JStr text ->
  contains "Session not found" text = true ->
  let e := HTTPError code reason body in
  (exists r,
     delete_session session (inl e) = inr r
     /\ error_code r = JStr "session_not_found")
  /\ (exists r,
     list_rollback_points session (inl e) = inr r
     /\ error_code r = JStr "session_not_found")
  /\ (exists r,
     operation_except e m = (m, Val r)
     /\ error_code r = JStr "session_not_found")
  /\ error_code (abort_task session (inl e)) = JStr "connection_failed"
  /\ message (abort_task session (inl e))
     = JStr ("无法连接到 SSE 服务器 (" ++ _host cfg ++ ":"
             ++ str_of_Z (_port cfg) ++ "): HTTP Error " ++ str_of_Z code
             ++ ": " ++ reason).
Proof.
  intros Hcode Hbody Hparse Herror Hfound e.
  assert (Htext : (text =? "")%string = false).
  { apply String.eqb_neq.
    eapply contains_nonempty; [| exact Hfound]. discriminate. }
  assert (Hresult : exists r,
             _http_error_to_result code reason body = inr r
             /\ error_code r = JStr "session_not_found").
  { assert (Hmsg : http_error_msg code reason d = JStr text).
    { unfold http_error_msg. rewrite Herror.
      unfold py_or. cbn [truthy]. rewrite Htext. cbn [negb truthy].
      rewrite Htext. reflexivity. }
    unfold _http_error_to_result, parse_error_body.
    apply String.eqb_neq in Hbody. rewrite Hbody, Hparse.
    fold (http_error_msg code reason d).
    rewrite Hmsg. cbn [py_in]. rewrite Hfound.
    destruct Hcode as [-> | ->]; cbn [Z.eqb Pos.eqb];
      eexists; split; reflexivity. }
  destruct Hresult as (r & Hr & Hc).
  subst e. unfold delete_session, list_rollback_points, session_except,
    operation_except, bind, get_client, ret.
  rewrite Hr.
  repeat split; eauto.
Qed.

Lemma connection_failed_status e : status (_connection_failed_result e) = "error".
Proof. reflexivity. Qed.

Lemma session_except_cases session e :
  (exists code reason body,
     e = HTTPError code reason body
     /\ session_except session e = _http_error_to_result code reason body)
  \/ (exists r, session_except session e = inr r /\ status r = "error").
Proof.
  destruct e as [text | code reason body | text | text]; cbn;
    [right | left | right | right]; eauto 6.
Qed.

Lemma accepted_cases prefix response :
  (exists d,
     response = JObj d /\ truthy (dict_get "success" d) = true
     /\ accepted prefix response = inr d)
  \/ ((forall d, response = JObj d -> truthy (dict_get "success" d) = false)
      /\ exists text, accepted prefix response = inl (OtherError text)).
Proof.
  unfold accepted, no_get.
  destruct response as [| b | n | x | s | items | d];
    try (right; split; [discriminate | eauto]).
  destruct (truthy (dict_get "success" d)) eqn:Hok.
  - left. eauto.
  - right. split; [intros d' [= <-]; exact Hok | eauto].
Qed.

(** [abort_task], [delete_session] and [list_rollback_points] succeed
    exactly when the server's answer is a dictionary with a truthy
    [success]; every other answer or failure gives status [error], or, for
    the two session commands, the exception of the HTTP-error handler and
    nothing else.  A successful deletion reports the truth value of
    [deleted]; a successful listing reports the [points] of the answer, the
    empty list when [points] is not a list, and their count as [total]. *)
Theorem session_commands_succeed_iff session outcome :
  (status (abort_task session outcome) = "success" <-> accepts outcome)
  /\ (status (abort_task session outcome) = "success"
      \/ status (abort_task session outcome) = "error")
  /\ (forall r, delete_session session outcome = inr r ->
        (status r = "success" <-> accepts outcome)
        /\ (status r = "success" \/ status r = "error")
        /\ (forall d, outcome = inr (JObj d) -> status r = "success" ->
              deleted r = Some (truthy (dict_get "deleted" d))
              /\ session_id r = Some session))
  /\ (forall r, list_rollback_points session outcome = inr r ->
        (status r = "success" <-> accepts outcome)
        /\ (status r = "success" \/ status r = "error")
        /\ (forall d, outcome = inr (JObj d) -> status r = "success" ->
              let points :=
                match dict_get "points" d with JArr l => l | _ => [] end in
              rollback_points r = Some points
              /\ total r = Some (Z.of_nat (length points))
              /\ session_id r = Some session))
  /\ (forall e,
        delete_session session outcome = inl e
        \/ list_rollback_points session outcome = inl e ->
        exists code reason body,
          outcome = inl (HTTPError code reason body)
          /\ _http_error_to_result code reason body = inl e).
Proof.
  assert (Hattempt : forall prefix,
            (exists d, outcome = inr (JObj d)
                       /\ truthy (dict_get "success" d) = true
                       /\ match outcome with
                          | inl e => inl e
                          | inr response => accepted prefix response
                          end = inr d)
            \/ (~ accepts outcome
                /\ exists e, match outcome with
                             | inl e => inl e
                             | inr response => accepted prefix response
                             end = inl e
                   /\ forall code reason body,
                        e = HTTPError code reason body -> outcome = inl e)).
  { intros prefix. destruct outcome as [e | response].
    - right. split.
      + intros (d & Hd & _). discriminate.
      + exists e. split; auto.
    - destruct (accepted_cases prefix response)
        as [(d & -> & Hok & ->) | (Hno & text & ->)].
      + left. eauto.
      + right. split.
        * intros (d & [= ->] & Hok). rewrite (Hno d eq_refl) in Hok.
          discriminate.
        * exists (OtherError text). split; auto. discriminate. }
  assert (Hexc : forall e (r : ClientResult),
            session_except session e = inr r -> status r = "error").
  { intros e r Hr.
    destruct (session_except_cases session e)
      as [(code & reason & body & -> & Hh) | (r' & Hr' & Hs)].
    - rewrite Hh in Hr. eapply http_error_status; eauto.
    - congruence. }
  assert (Hraise : forall e e',
            session_except session e = inl e' ->
            exists code reason body,
              e = HTTPError code reason body
              /\ _http_error_to_result code reason body = inl e').
  { intros e e' He.
    destruct (session_except_cases session e)
      as [(code & reason & body & -> & Hh) | (r' & Hr' & Hs)].
    - rewrite Hh in He. eauto.
    - congruence. }
  assert (Habort : status (abort_task session outcome) = "success"
                   /\ accepts outcome
                   \/ status (abort_task session outcome) = "error"
                      /\ ~ accepts outcome).
  { unfold abort_task.
    destruct (Hattempt "发送中断请求失败: ")
      as [(d & Hd & Hok & ->) | (Hno & e & -> & _)].
    - left. split; [reflexivity | exists d; auto].
    - right. split; [| exact Hno]. destruct (is_url_error e); reflexivity. }
  split; [| split; [| split; [| split]]].
  - destruct Habort as [[Hs Ha] | [Hs Ha]]; rewrite Hs; split; auto.
    + discriminate.
    + intros Ha'. contradiction.
  - destruct Habort as [[Hs _] | [Hs _]]; auto.
  - intros r. unfold delete_session.
    destruct (Hattempt "删除会话失败: ")
      as [(d & Hd & Hok & ->) | (Hno & e & -> & _)].
    + intros [= <-]. split; [| split].
      * split; [intros _; exists d; auto | reflexivity].
      * left. reflexivity.
      * intros d' Hd' _. rewrite Hd in Hd'. injection Hd' as <-.
        split; reflexivity.
    + intros Hr. pose proof (Hexc _ _ Hr) as Hs. rewrite Hs.
      split; [| split].
      * split; [discriminate | intros Ha; contradiction].
      * right. reflexivity.
      * discriminate.
  - intros r. unfold list_rollback_points.
    destruct (Hattempt "获取回滚点失败: ")
      as [(d & Hd & Hok & ->) | (Hno & e & -> & _)].
    + intros [= <-]. split; [| split].
      * split; [intros _; exists d; auto | reflexivity].
      * left. reflexivity.
      * intros d' Hd' _. rewrite Hd in Hd'. injection Hd' as <-.
        repeat split.
    + intros Hr. pose proof (Hexc _ _ Hr) as Hs. rewrite Hs.
      split; [| split].
      * split; [discriminate | intros Ha; contradiction].
      * right. reflexivity.
      * discriminate.
  - intros e' [He | He].
    + unfold delete_session in He.
      destruct (Hattempt "删除会话失败: ")
        as [(d & Hd & Hok & Ha) | (Hno & e & Ha & Hhttp)];
        rewrite Ha in He; [discriminate |].
      destruct (Hraise _ _ He) as (code & reason & body & -> & Hh).
      exists code, reason, body. split; [eapply Hhttp; eauto | exact Hh].
    + unfold list_rollback_points in He.
      destruct (Hattempt "获取回滚点失败: ")
        as [(d & Hd & Hok & Ha) | (Hno & e & Ha & Hhttp)];
        rewrite Ha in He; [discriminate |].
      destruct (Hraise _ _ He) as (code & reason & body & -> & Hh).
      exists code, reason, body. split; [eapply Hhttp; eauto | exact Hh].
Qed.

(** ** The printed object and the command line *)

Lemma dict_get_set_other k k' v d :
  (k =? k')%string = false -> dict_get k (dict_set k' v d) = dict_get k d.
Proof.
  intros Hk. induction d as [| [k'' v''] d IH]; cbn.
  - now rewrite Hk.
  - destruct (k' =? k'')%string eqn:E; cbn.
    + apply String.eqb_eq in E. subst k''. now rewrite Hk.
    + now rewrite IH.
Qed.

Lemma dict_has_set_other k k' v d :
  (k =? k')%string = false -> dict_has k (dict_set k' v d) = dict_has k d.
Proof.
  intros Hk. induction d as [| [k'' v''] d IH]; cbn.
  - now rewrite Hk.
  - destruct (k' =? k'')%string eqn:E; cbn.
    + apply String.eqb_eq in E. subst k''. now rewrite Hk.
    + now rewrite IH.
Qed.

Lemma dict_has_set k v d : dict_has k (dict_set k v d) = true.
Proof.
  induction d as [| [k' v'] d IH]; cbn.
  - now rewrite String.eqb_refl.
  - destruct (k =? k')%string eqn:E; cbn; rewrite ?String.eqb_refl, ?E; auto.
Qed.

Lemma set_if_other b k k' v d :
  (k =? k')%string = false ->
  dict_get k (set_if b k' v d) = dict_get k d
  /\ dict_has k (set_if b k' v d) = dict_has k d.
Proof.
  intros Hk. unfold set_if. destruct b; auto.
  now rewrite dict_get_set_other, dict_has_set_other.
Qed.

Lemma set_some_other {A} k k' (f : A -> json) field d :
  (k =? k')%string = false ->
  dict_get k (set_some k' f field d) = dict_get k d
  /\ dict_has k (set_some k' f field d) = dict_has k d.
Proof.
  intros Hk. unfold set_some. destruct field; auto.
  now rewrite dict_get_set_other, dict_has_set_other.
Qed.

Lemma set_some_same {A} k (f : A -> json) field d :
  dict_has k (set_some k f field d) = is_some field || dict_has k d.
Proof.
  unfold set_some. destruct field; cbn; auto using dict_has_set.
Qed.

Lemma set_if_same b k v d :
  dict_has k (set_if b k v d) = b || dict_has k d.
Proof.
  unfold set_if. destruct b; cbn; auto using dict_has_set.
Qed.

Lemma setdefault_other k k' v d :
  (k =? k')%string = false ->
  dict_get k (dict_setdefault k' v d) = dict_get k d
  /\ dict_has k (dict_setdefault k' v d) = dict_has k d.
Proof.
  intros Hk. unfold dict_setdefault. destruct (dict_has k' d); auto.
  now rewrite dict_get_set_other, dict_has_set_other.
Qed.

Lemma request_keys_other k st rd d :
  existsb (String.eqb k) request_key_names = false ->
  dict_get k (request_keys st rd d) = dict_get k d
  /\ dict_has k (request_keys st rd d) = dict_has k d.
Proof.
  cbn. intros Hk.
  repeat (apply orb_false_elim in Hk; destruct Hk as [? Hk]).
  assert (Hnull : forall k' v x data,
            (k =? k')%string = false ->
            dict_get k match v with
                       | JNull => data
                       | _ => dict_set k' x data
                       end = dict_get k data
            /\ dict_has k match v with
                          | JNull => data
                          | _ => dict_set k' x data
                          end = dict_has k data).
  { intros k' v x data Hk'.
    destruct v; auto;
      now rewrite dict_get_set_other, dict_has_set_other. }
  unfold request_keys.
  destruct (st =? "requires_confirmation")%string;
    [| destruct (st =? "requires_question")%string].
  - rewrite (proj1 (setdefault_other k "message" _ _ ltac:(assumption))),
      (proj2 (setdefault_other k "message" _ _ ltac:(assumption))).
    rewrite
      (proj1 (set_if_other _ k "available_options" _ _ ltac:(assumption))),
      (proj2 (set_if_other _ k "available_options" _ _ ltac:(assumption))).
    rewrite (proj1 (set_if_other _ k "tool_call" _ _ ltac:(assumption))),
      (proj2 (set_if_other _ k "tool_call" _ _ ltac:(assumption))).
    now rewrite dict_get_set_other, dict_has_set_other.
  - rewrite (proj1 (setdefault_other k "message" _ _ ltac:(assumption))),
      (proj2 (setdefault_other k "message" _ _ ltac:(assumption))).
    rewrite (proj1 (Hnull "multi_select" _ _ _ ltac:(assumption))),
      (proj2 (Hnull "multi_select" _ _ _ ltac:(assumption))).
    rewrite (proj1 (Hnull "options" _ _ _ ltac:(assumption))),
      (proj2 (Hnull "options" _ _ _ ltac:(assumption))).
    rewrite (proj1 (set_if_other _ k "question" _ _ ltac:(assumption))),
      (proj2 (set_if_other _ k "question" _ _ ltac:(assumption))).
    now rewrite dict_get_set_other, dict_has_set_other.
  - now rewrite dict_get_set_other, dict_has_set_other.
Qed.

Ltac skip_key :=
  match goal with
  | |- context [dict_get ?k (set_some ?k' ?f ?o ?d)] =>
      rewrite (proj1 (set_some_other k k' f o d eq_refl))
  | |- context [dict_has ?k (set_some ?k' ?f ?o ?d)] =>
      rewrite (proj2 (set_some_other k k' f o d eq_refl))
  | |- context [dict_get ?k (set_if ?b ?k' ?v ?d)] =>
      rewrite (proj1 (set_if_other b k k' v d eq_refl))
  | |- context [dict_has ?k (set_if ?b ?k' ?v ?d)] =>
      rewrite (proj2 (set_if_other b k k' v d eq_refl))
  | |- context [dict_get ?k (request_keys ?st ?rd ?d)] =>
      rewrite (proj1 (request_keys_other k st rd d eq_refl))
  | |- context [dict_has ?k (request_keys ?st ?rd ?d)] =>
      rewrite (proj2 (request_keys_other k st rd d eq_refl))
  end.

Ltac same_key := first [ rewrite set_some_same | rewrite set_if_same ].

(** The object [to_dict] prints, key by key.  The four base keys are always
    present and hold the Result's fields.  [error_code] and [request_id]
    are present exactly when the field is truthy, and then hold it; each of
    the optional listing fields is present exactly when it is not [None],
    so an empty list of sessions is printed and a missing one is not. *)
Theorem to_dict_keys r :
  let out := to_dict r in
  dict_get "status" out = JStr (status r)
  /\ dict_get "session_id" out = of_opt (session_id r)
  /\ dict_get "messages" out = JArr (messages r)
  /\ dict_get "usage" out = JObj (usage r)
  /\ dict_has "error_code" out = truthy (error_code r)
  /\ (truthy (error_code r) = true ->
      dict_get "error_code" out = error_code r)
  /\ dict_has "request_id" out = truthy (request_id r)
  /\ (truthy (request_id r) = true ->
      dict_get "request_id" out = request_id r)
  /\ dict_has "sessions" out = is_some (sessions r)
  /\ dict_has "total" out = is_some (total r)
  /\ dict_has "agents" out = is_some (agents r)
  /\ dict_has "current_agent_id" out = is_some (current_agent_id r)
  /\ dict_has "available_agents" out = is_some (available_agents r)
  /\ dict_has "rollback_points" out = is_some (rollback_points r)
  /\ dict_has "deleted" out = is_some (deleted r)
  /\ dict_has "health" out = is_some (health r).
Proof.
  intros out. subst out. unfold to_dict.
  destruct (request_data r) as [[| x rd] |];
    (repeat split; try intros Htruthy;
     repeat skip_key; try same_key; repeat skip_key;
     try reflexivity;
     try (unfold set_if; rewrite Htruthy; now rewrite ?dict_get_set);
     try apply orb_false_r).
Qed.

Lemma interactive_result st t d rid c :
  _build_result (on_interactive st t d rid c)
  = with_request_data (Some d)
      (with_request_id rid
         (with_usage (_usage c)
            (with_messages (_messages c)
               (with_session_id (_session_id c) (result st))))).
Proof.
  unfold on_interactive.
  destruct (mark_complete_cases t d rid
              (set_pending
                 (Some {| pr_status := st; pr_request_id := rid;
                          pr_request_data := d |}) c)) as [-> | [_ ->]];
    reflexivity.
Qed.

Lemma request_keys_confirmation rd data :
  dict_get "request_data" (request_keys "requires_confirmation" rd data)
  = JObj rd
  /\ (dict_has "message" data = false ->
      dict_get "message" (request_keys "requires_confirmation" rd data)
      = JStr "需要确认工具执行").
Proof.
  unfold request_keys.
  change ("requires_confirmation" =? "requires_confirmation")%string
    with true.
  cbv iota zeta. split.
  - rewrite (proj1 (setdefault_other "request_data" "message" _ _ eq_refl)).
    repeat skip_key. apply dict_get_set.
  - intros Hno. unfold dict_setdefault.
    repeat skip_key. rewrite dict_has_set_other by reflexivity.
    rewrite Hno. apply dict_get_set.
Qed.

(** From a confirmation request on the stream to the printed object.
    Whatever the client has seen before, once a
    [tool_confirmation_request] with dictionary data is handled the Result
    has status [requires_confirmation], the event's request id and its data
    unchanged, and no error code.  Printed, a non-empty data comes out
    under [request_data] with the default message; an empty data leaves
    both keys out. *)
Theorem confirmation_request_is_reported ev d c :
  dict_get "type" ev = JStr "tool_confirmation_request" ->
  dict_get "data" ev = JObj d ->
  let r := _build_result (handle_event ev c) in
  let out := to_dict r in
  status r = "requires_confirmation"
  /\ request_id r = dict_get "requestId" ev
  /\ request_data r = Some d
  /\ session_id r = _session_id (handle_event ev c)
  /\ dict_get "status" out = JStr "requires_confirmation"
  /\ dict_has "error_code" out = false
  /\ (d <> [] ->
      dict_get "request_data" out = JObj d
      /\ dict_get "message" out = JStr "需要确认工具执行")
  /\ (d = [] ->
      dict_has "request_data" out = false
      /\ dict_has "message" out = false).
Proof.
  intros Htype Hdata r out.
  assert (Hev : handle_event ev c
                = on_interactive "requires_confirmation"
                    "tool_confirmation_request" d
                    (dict_get "requestId" ev) c).
  { unfold handle_event. rewrite Htype, Hdata. reflexivity. }
  assert (Hr : r = with_request_data (Some d)
                     (with_request_id (dict_get "requestId" ev)
                        (with_usage (_usage c)
                           (with_messages (_messages c)
                              (with_session_id (_session_id c)
                                 (result "requires_confirmation")))))).
  { subst r. rewrite Hev. apply interactive_result. }
  assert (Hsession : _session_id (handle_event ev c) = _session_id c).
  { rewrite Hev. unfold on_interactive.
    destruct (mark_complete_cases "tool_confirmation_request" d
                (dict_get "requestId" ev)
                (set_pending
                   (Some {| pr_status := "requires_confirmation";
                            pr_request_id := dict_get "requestId" ev;
                            pr_request_data := d |}) c)) as [-> | [_ ->]];
      reflexivity. }
  destruct (to_dict_keys r) as (Hst & _ & _ & _ & Hcode & _).
  fold out in Hst, Hcode.
  rewrite Hsession. subst out. rewrite Hst, Hcode. rewrite Hr.
  do 6 (split; [reflexivity |]).
  split.
  - intros Hd. destruct d as [| x d']; [congruence |].
    unfold to_dict. cbn [request_data with_request_data].
    split; repeat skip_key.
    + apply request_keys_confirmation.
    + apply request_keys_confirmation. repeat skip_key. reflexivity.
  - intros ->. unfold to_dict. cbn [request_data with_request_data].
    cbv iota. split; repeat skip_key; reflexivity.
Qed.

(** ** The command line *)

Lemma validated_has_action a :
  validate_args a = None ->
  (given (arg_message a) || arg_confirm a || arg_reject a
   || arg_answer a || arg_abort a
   || given (arg_switch_agent a) || arg_list_sessions a
   || given (arg_load_session a)
   || given (arg_delete_session a) || arg_list_agents a
   || arg_list_rollback_points a
   || is_some (arg_rollback_to a) || arg_health a) = true.
Proof.
  unfold validate_args. intros H.
  repeat match type of H with
         | (if ?b then _ else _) = None =>
             destruct b eqn:?; [discriminate |]
         end.
  now apply negb_false_iff.
Qed.

(** After [validate_args] has accepted the arguments, [run_command] ends
    the way one of the client's methods ended: the closing
    "invalid combination" Result of [run_command] is never produced by
    [run_command] itself.  The commands that answer or act on a running
    session are only reached with a non-empty session id, and an answer or
    a confirmation only with a non-empty request id. *)
Theorem validated_command_is_a_client_call api a :
  validate_args a = None ->
  In (run_command api a) (client_calls api a)
  /\ ((arg_confirm a || arg_reject a || arg_answer a || arg_abort a
       || arg_list_rollback_points a || is_some (arg_rollback_to a)) = true ->
      given (arg_session a) = true)
  /\ ((arg_confirm a || arg_reject a || arg_answer a) = true ->
      given (arg_request_id a) = true).
Proof.
  intros Hvalid. pose proof (validated_has_action a Hvalid) as Haction.
  split; [| split].
  - unfold run_command, switch_then_chat, client_calls.
    destruct (arg_health a); [cbn; auto |].
    destruct (arg_list_sessions a); [cbn; auto |].
    destruct (given (arg_delete_session a)); [cbn; auto |].
    destruct (arg_list_rollback_points a); [cbn; auto |].
    destruct (arg_rollback_to a) as [message_index |]; [cbn; auto 6 |].
    destruct (arg_list_agents a); [cbn; auto 7 |].
    destruct (arg_confirm a); [cbn; auto 8 |].
    destruct (arg_reject a); [cbn; auto 9 |].
    destruct (arg_answer a); [cbn; auto 10 |].
    destruct (arg_abort a); [cbn; auto 11 |].
    cbn [orb is_some] in Haction. rewrite !orb_false_r in Haction.
    destruct (given (arg_load_session a)) eqn:Hload.
    + destruct (api_load_session api (arg_load_session a))
        as [load_result | e |] eqn:Hl;
        try (cbn; auto 12).
      destruct (negb (status load_result =? "success")%string);
        [cbn; auto 12 |].
      destruct (given (arg_message a)) eqn:Hm;
        destruct (given (arg_switch_agent a)) eqn:Hs; cbn [negb andb].
      * destruct (api_switch_agent api (arg_switch_agent a)
                    (arg_load_session a))
          as [switch_result | e' |] eqn:Hsw;
          try (cbn; auto 14).
        destruct (negb (status switch_result =? "success")%string);
          [cbn; auto 14 |].
        cbn. auto 16.
      * cbn. auto 16.
      * destruct (api_switch_agent api (arg_switch_agent a)
                    (arg_load_session a))
          as [switch_result | e' |] eqn:Hsw;
          try (cbn; auto 14).
        destruct (negb (status switch_result =? "success")%string);
          cbn; auto 14.
      * cbn; auto 12.
    + cbn [orb] in Haction. rewrite ?orb_false_r in Haction.
      destruct (given (arg_message a)) eqn:Hm;
        destruct (given (arg_switch_agent a)) eqn:Hs; cbn [negb andb];
        try discriminate.
      * destruct (api_switch_agent api (arg_switch_agent a)
                    (arg_session a))
          as [switch_result | e' |] eqn:Hsw;
          try (cbn; auto 14).
        destruct (negb (status switch_result =? "success")%string);
          [cbn; auto 14 |].
        cbn. auto 16.
      * cbn. auto 16.
      * destruct (api_switch_agent api (arg_switch_agent a)
                    (arg_session a))
          as [switch_result | e' |] eqn:Hsw;
          try (cbn; auto 14).
        destruct (negb (status switch_result =? "success")%string);
          cbn; auto 14.
  - unfold validate_args in Hvalid.
    repeat match type of Hvalid with
           | (if ?b then _ else _) = None =>
               destruct b eqn:?; [discriminate |]
           end.
    destruct (given (arg_session a)); [reflexivity |].
    destruct (arg_confirm a), (arg_reject a), (arg_answer a), (arg_abort a),
      (arg_list_rollback_points a), (arg_rollback_to a);
      cbn in *; auto; discriminate.
  - unfold validate_args in Hvalid.
    repeat match type of Hvalid with
           | (if ?b then _ else _) = None =>
               destruct b eqn:?; [discriminate |]
           end.
    destruct (given (arg_request_id a)); [reflexivity |].
    destruct (arg_confirm a), (arg_reject a), (arg_answer a);
      cbn in *; auto; discriminate.
Qed.

Lemma validation_text a text : validate_args a = Some text -> text <> "".
Proof.
  unfold validate_args. intros H.
  repeat match type of H with
         | (if ?b then _ else _) = Some _ =>
             destruct b; [injection H as <-; discriminate |]
         end.
  discriminate.
Qed.

(** What the process prints and how it exits.  When validation fails no
    method of the client is called: the object printed has status [error],
    code [invalid_args] and the validation text as message, and the exit
    code is 1.  Otherwise, when the command returns, the object printed is
    that of its Result, and the exit code is 0 exactly for the statuses
    [success], [requires_confirmation] and [requires_question], and 1 for
    every other status. *)
Theorem main_exit_code api a :
  (forall text, validate_args a = Some text ->
     exists out,
       (forall other, main other a = Val (out, 1))
       /\ dict_get "status" out = JStr "error"
       /\ dict_get "error_code" out = JStr "invalid_args"
       /\ dict_get "message" out = JStr text)
  /\ (forall out code, main api a = Val (out, code) ->
        (code = 0 \/ code = 1)
        /\ (code = 0 <->
            dict_get "status" out = JStr "success"
            \/ dict_get "status" out = JStr "requires_confirmation"
            \/ dict_get "status" out = JStr "requires_question"))
  /\ (validate_args a = None ->
      (forall r, run_command api a = Val r ->
         main api a = Val (to_dict r, exit_code r))
      /\ (forall e, run_command api a = Exc e -> main api a = Exc e)).
Proof.
  split; [| split].
  - intros text Htext. pose proof (validation_text a text Htext) as Hne.
    apply String.eqb_neq in Hne.
    eexists. split; [intros other; unfold main; rewrite Htext; reflexivity |].
    destruct (to_dict_keys
                (with_message (JStr text)
                   (with_error_code (JStr "invalid_args") (result "error"))))
      as (Hst & _ & _ & _ & _ & Hcode & _).
    split; [exact Hst |]. split; [exact (Hcode eq_refl) |].
    unfold to_dict. cbn [request_data with_message with_error_code result].
    cbv iota. repeat skip_key.
    cbn [message with_message truthy]. rewrite Hne. apply dict_get_set.
  - intros out code. unfold main.
    destruct (validate_args a) as [text |].
    + intros [= <- <-].
      destruct (to_dict_keys
                  (with_message (JStr text)
                     (with_error_code (JStr "invalid_args") (result "error"))))
        as (Hst & _).
      cbv zeta in Hst. rewrite Hst. cbn.
      split; [auto |]. split; [discriminate |].
      intros [H | [H | H]]; discriminate.
    + destruct (run_command api a) as [r | e |]; try discriminate.
      intros [= <- <-].
      destruct (to_dict_keys r) as (Hst & _). cbv zeta in Hst. rewrite Hst.
      unfold exit_code. cbn [mem].
      destruct (status r =? "success")%string eqn:E1;
        [apply String.eqb_eq in E1; rewrite E1; cbn; intuition |].
      destruct (status r =? "requires_confirmation")%string eqn:E2;
        [apply String.eqb_eq in E2; rewrite E2; cbn; intuition |].
      destruct (status r =? "requires_question")%string eqn:E3;
        [apply String.eqb_eq in E3; rewrite E3; cbn; intuition |].
      apply String.eqb_neq in E1, E2, E3. cbn.
      split; [auto |]. split; [discriminate |].
      intros [H | [H | H]]; injection H; intros; contradiction.
  - intros Hvalid. unfold main. rewrite Hvalid.
    split; [intros r -> | intros e ->]; reflexivity.
Qed.

End Client.

(** * The properties on sample runs *)

Lemma build_result_precedence_witness :
  let c :=
    handle_event sample_repr
      (event "tool_confirmation_request" (JObj [("tool", JStr "shell")]))
      (_reset_runtime_state None chat_events []) in
  reachable sample_repr None chat_events [] c
  /\ status (_build_result sample_repr c) = "requires_confirmation".
Proof.
  intros c.
  assert (Hc : reachable sample_repr None chat_events [] c)
    by (constructor; constructor).
  split; [exact Hc |].
  destruct (build_result_precedence sample_repr None chat_events [] c Hc)
    as [Hpending _].
  destruct (Hpending _ eq_refl) as (_ & Hstatus & _). exact Hstatus.
Defined.

Lemma streaming_last_write_wins_witness :
  messages
    (_build_result sample_repr
       (fold_left (fun c ev => handle_event sample_repr ev c)
          [event "connected" (JObj [("connectionId", JStr "c1")]);
           user_message "hi"; assistant_chunk "a"; assistant_chunk "ab";
           event "complete" (JObj [])]
          (_reset_runtime_state None chat_events [])))
  = [user_entry "hi" []; assistant_entry "ab"].
Proof.
  refine (proj1 (proj2 (proj2
            (streaming_last_write_wins sample_repr None chat_events []
               (JObj [("connectionId", JStr "c1")]) "hi" [] _ _)))).
  - reflexivity.
  - discriminate.
Defined.

Lemma rollback_conflict_is_error_witness :
  exists m r,
    rollback_to sample_loads sample_repr sample_cfg
      (sample_world connect_lines post_accepted conflict_passes)
      "s1" 3 false []
    = (m, Val r)
    /\ status r = "error"
    /\ error_code r = JStr "rollback_failed"
    /\ message r = JStr "conflict".
Proof.
  set (world := sample_world connect_lines post_accepted conflict_passes).
  pose (setup :=
          operation_setup sample_loads sample_repr world
            [("type", JStr "rollback");
             ("rollback",
              JObj [("messageIndex", JInt 3); ("rollbackFiles", JBool false)])]
            (Some "s1") false
            (initial (Some "s1") ["rollback_result"; "error"] [])).
  pose (sent := match snd setup with Val p => p | _ => [] end).
  pose proof (rollback_conflict_is_error sample_loads sample_repr sample_cfg
                world "s1" 3 false [] (fst setup) sent [pass 1 false]
                (fst setup)
                (delivery 2 (frame (rollback_conflict JNull)))
                [pass 3600 true]
                [("success", JBool false); ("error", JStr "conflict");
                 ("sessionId", JStr "s1")]
                JNull) as Hrun.
  cbv zeta in Hrun.
  destruct Hrun as (r & Hrun & Hstatus & Hcode & Hmessage & _);
    try (vm_compute; reflexivity).
  - intros tk' [<- | [<- | []]] Hdone; [discriminate |].
    eexists. split; reflexivity.
  - eexists. exists r. split; [exact Hrun |]. auto.
Defined.

(** C6 as stated fails: the terminal [rollback_result] event carries the
    conflict data, no request is pending and no error is stored, but the
    POST of the command is seen refused on the pass that sees the event;
    the check made after the loop raises, and the Result is the
    [unexpected_error] of the POST, whose message does not mention the
    conflict. *)
Lemma rollback_conflict_after_refused_post :
  let run :=
    rollback_to sample_loads sample_repr sample_cfg
      (sample_world connect_lines post_refused conflict_passes)
      "s1" 3 false [] in
  exists r,
    snd run = Val r
    /\ _final_event (cl (fst run))
       = Some {| fe_type := "rollback_result";
                 fe_data :=
                   [("success", JBool false); ("error", JStr "conflict");
                    ("sessionId", JStr "s1")];
                 fe_request_id := JNull |}
    /\ _pending_request (cl (fst run)) = None
    /\ _error (cl (fst run)) = None
    /\ status r = "error"
    /\ error_code r = JStr "unexpected_error"
    /\ error_code r <> JStr "rollback_failed"
    /\ contains "conflict" (py_str sample_repr (message r)) = false.
Proof.
  vm_compute. eexists. repeat split. discriminate.
Qed.

Lemma agent_list_clears_pending_witness :
  let c :=
    handle_event sample_repr
      (event "tool_confirmation_request" (JObj [("tool", JStr "shell")]))
      (_reset_runtime_state None ["agent_list"; "error"] []) in
  let ev := event "agent_list" (JObj [("agents", JArr [])]) in
  _pending_request c <> None
  /\ _pending_request (handle_event sample_repr ev c) = None
  /\ status (_build_result sample_repr (handle_event sample_repr ev c))
     <> "requires_confirmation".
Proof.
  intros c ev.
  destruct (agent_list_clears_pending sample_loads sample_repr ev
              [("agents", JArr [])] c eq_refl eq_refl eq_refl)
    as (Hp & Hs & _).
  split; [discriminate | auto].
Defined.



Lemma health_check_unreachable_twice_witness :
  health_check sample_cfg (inl refused)
  = health_check sample_cfg (inl refused)
  /\ suggestion (health_check sample_cfg (inl timed_out))
     = suggestion (health_check sample_cfg (inl refused)).
Proof.
  destruct (health_check_unreachable_twice sample_cfg refused refused
              eq_refl eq_refl) as (_ & _ & _ & _ & _ & _ & _ & _ & Hsame).
  destruct (health_check_unreachable_twice sample_cfg timed_out refused
              eq_refl eq_refl) as (_ & _ & _ & _ & H1 & H2 & _).
  split; [exact (Hsame eq_refl) | congruence].
Defined.

(** C9 as stated fails: two unreachable calls whose URL errors read
    differently give different messages, so the messages are not a function
    of host and port alone. *)
Lemma health_check_messages_differ :
  is_url_error refused = true
  /\ is_url_error timed_out = true
  /\ message (health_check sample_cfg (inl refused))
     <> message (health_check sample_cfg (inl timed_out))
  /\ health_check sample_cfg (inl refused)
     <> health_check sample_cfg (inl timed_out).
Proof.
  repeat split; intros Hsame; vm_compute in Hsame; discriminate.
Qed.



Lemma post_failure_ends_wait_witness :
  exists m r,
    send_chat sample_loads sample_repr sample_cfg
      (sample_world connect_lines post_refused silent_passes)
      "hi" None [] (Encoded []) true
    = (m, Val r)
    /\ status r = "error"
    /\ error_code r = JStr "unexpected_error".
Proof.
  set (world := sample_world connect_lines post_refused silent_passes).
  pose (m1 := fst (operation_setup sample_loads sample_repr world
                     chat_payload None true (initial None chat_events []))).
  destruct (post_failure_ends_wait sample_loads sample_repr sample_cfg world
              chat_payload None chat_events true [] m1
              (dict_set "sessionId" (JStr "s1") chat_payload)
              [pass 1 false] m1 (pass 2 true) [pass 3600 true]
              [("success", JBool false)])
    as (r & Hrun & Hs & Hc & _);
    try (vm_compute; reflexivity).
  exists (_close_event_stream
            (observe sample_loads sample_repr (arrivals (pass 2 true)) m1)),
    r.
  split; [exact Hrun | auto].
Defined.


Lemma operation_exits_after_teardown_witness :
  exists m out,
    send_chat sample_loads sample_repr sample_cfg
      (sample_world connect_lines post_accepted
         silent_passes)
      "hi" None [] (Encoded []) true
    = (m, out)
    /\ out <> Stuck
    /\ _completed_event (cl m) = true.
Proof.
  destruct (operation_exits_after_teardown sample_loads sample_repr
              sample_cfg
              (sample_world connect_lines
                 post_accepted silent_passes)
              chat_payload
              None chat_events true [] true)
    as (m1 & out & Hrun & Hout & _ & _ & Hdone).
  - exists {| arrivals := []; now := 3600; post_done := true |}.
    split; [right; right; left; reflexivity | discriminate].
  - exists (_close_event_stream m1), out. repeat split; assumption.
Defined.

(** C7.  The exception clause for HTTP errors can itself raise: when the
    POST to [/message] is answered with HTTP 400 and the body
    [{"error":400}], the [in msg] tests of [_http_error_to_result] raise
    TypeError; [_close_event_stream] still runs, and the exception, not a
    Result, reaches the caller.  With a text under [error] the same run
    returns an error Result. *)
Lemma http_error_handler_escapes :
  let run body :=
    send_chat sample_loads sample_repr sample_cfg
      (sample_world connect_lines (inl (HTTPError 400 "Bad Request" body))
         silent_passes)
      "hi" None [] (Encoded []) true in
  snd (run error_body)
  = Exc (OtherError "argument of type 'int' is not iterable")
  /\ _completed_event (cl (fst (run error_body))) = true
  /\ _stream_response (fst (run error_body)) = false
  /\ (exists r, snd (run "") = Val r /\ status r = "error").
Proof.
  vm_compute. repeat split. eexists. split; reflexivity.
Qed.

(** ** Whole runs *)

(** A chat whose stream delivers a user message and two assistant chunks,
    then [complete]. *)
Example chat_round_trip :
  let run :=
    send_chat sample_loads sample_repr sample_cfg
      (sample_world connect_lines post_accepted
         [{| arrivals :=
               (frame (user_message "hi") ++ frame (assistant_chunk "a"))%list;
             now := 1; post_done := true |};
          {| arrivals :=
               (frame (assistant_chunk "ab")
                ++ frame (event "complete" (JObj [])))%list;
             now := 2; post_done := true |}])
      "hi" None [] (Encoded []) true in
  (exists r,
     snd run = Val r
     /\ status r = "success"
     /\ session_id r = Some "s1"
     /\ messages r = [user_entry "hi" []; assistant_entry "ab"])
  /\ trace (fst run)
     = [AGetEvents; AStartReader;
        APost "/session/create" [("connectionId", JStr "c1")];
        APost "/message"
          [("type", JStr "chat"); ("content", JStr "hi");
           ("yoloMode", JBool true); ("sessionId", JStr "s1")];
        ASetCompleted; ACloseSocket; ACloseResponse].
Proof.
  vm_compute. split; [eexists; repeat split |]; reflexivity.
Qed.

(** A rollback the server refuses. *)
Example rollback_round_trip :
  let run :=
    rollback_to sample_loads sample_repr sample_cfg
      (sample_world connect_lines post_accepted
         [{| arrivals := frame (rollback_conflict JNull);
             now := 1; post_done := false |}])
      "s1" 3 false [] in
  exists r,
    snd run = Val r
    /\ status r = "error"
    /\ error_code r = JStr "rollback_failed"
    /\ message r = JStr "conflict".
Proof.
  vm_compute. eexists. repeat split.
Qed.

Lemma non_object_block_stops_reader_witness :
  let r := {| data_lines := ["[1]"]; alive := true |} in
  let c := _reset_runtime_state None chat_events [] in
  alive
    (fst (reader_step (table_loads [("[1]", JArr [JInt 1])]) sample_repr
            (RawLine newline) (r, c))) = false.
Proof.
  intros r c.
  refine (proj1 (non_object_block_stops_reader
                   (table_loads [("[1]", JArr [JInt 1])]) sample_repr r c
                   (JArr [JInt 1]) newline eq_refl _ eq_refl eq_refl eq_refl
                   eq_refl)).
  discriminate.
Defined.

(** [send_chat] in the world where the acknowledgement above returned at
    once: the POST succeeds on the second pass, the stream stays silent,
    and the chat ends with the timeout of the third pass. *)
Example chat_waits_past_post :
  let run :=
    send_chat sample_loads sample_repr sample_cfg
      (sample_world connect_lines post_accepted
         silent_passes)
      "hi" None [] (Encoded []) true in
  exists r,
    snd run = Val r
    /\ status r = "error"
    /\ error_code r = JStr "timeout"
    /\ message r = JStr "等待 SSE 响应完成超时".
Proof.
  vm_compute. eexists. split; [reflexivity | repeat split].
Qed.


Lemma completion_freezes_client_witness :
  let start := (fresh_reader, _reset_runtime_state None chat_events []) in
  reader_run sample_loads sample_repr
    (reply_lines ++ frame (assistant_chunk "ab")) start
  = reader_run sample_loads sample_repr reply_lines start.
Proof.
  apply (completion_freezes_client sample_loads sample_repr None chat_events
           [] reply_lines (frame (assistant_chunk "ab"))).
  vm_compute. reflexivity.
Defined.

Lemma data_block_is_one_event_witness :
  let c := _reset_runtime_state None chat_events [] in
  let text := json_text (JObj (user_message "hi")) in
  reader_run sample_loads sample_repr
    (map RawLine ["data:" ++ no_break_space ++ " " ++ text ++ newline]
     ++ [RawLine newline])
    (fresh_reader, c)
  = ({| data_lines := []; alive := true |},
     handle_event sample_repr (user_message "hi") c).
Proof.
  intros c text.
  rewrite (data_block_is_one_event sample_loads sample_repr
             ["data:" ++ no_break_space ++ " " ++ text ++ newline] newline
             c).
  - vm_compute. reflexivity.
  - discriminate.
  - constructor; [vm_compute; reflexivity | constructor].
  - reflexivity.
Defined.

Lemma completion_returns_built_result_witness :
  exists m r,
    _run_message_operation sample_loads sample_repr sample_cfg
      (sample_world connect_lines post_accepted
         [pass 1 false; delivery 2 reply_lines; pass 3600 true])
      chat_payload None chat_events true [] true
    = (m, Val r)
    /\ status r = "success"
    /\ messages r = [user_entry "hi" []; assistant_entry "a"].
Proof.
  set (world := sample_world connect_lines post_accepted
                  [pass 1 false; delivery 2 reply_lines; pass 3600 true]).
  pose (m1 := fst (operation_setup sample_loads sample_repr world
                     chat_payload None true (initial None chat_events []))).
  pose proof (completion_returns_built_result sample_loads sample_repr
                sample_cfg world chat_payload None chat_events true [] m1
                (dict_set "sessionId" (JStr "s1") chat_payload)
                [pass 1 false] m1 (delivery 2 reply_lines)
                [pass 3600 true]) as Hrun.
  do 2 eexists. split; [apply Hrun; try (vm_compute; reflexivity) |].
  - intros tk' [<- | [<- | []]] Hdone; [discriminate |].
    eexists. split; reflexivity.
  - split; vm_compute; reflexivity.
Defined.

Lemma completion_with_refused_post_witness :
  exists m r,
    _run_message_operation sample_loads sample_repr sample_cfg
      (sample_world connect_lines post_refused
         [pass 1 false; delivery 2 reply_lines; pass 3600 true])
      chat_payload None chat_events true [] true
    = (m, Val r)
    /\ status r = "error"
    /\ error_code r = JStr "unexpected_error".
Proof.
  set (world := sample_world connect_lines post_refused
                  [pass 1 false; delivery 2 reply_lines; pass 3600 true]).
  pose (m1 := fst (operation_setup sample_loads sample_repr world
                     chat_payload None true (initial None chat_events []))).
  destruct (completion_with_refused_post sample_loads sample_repr sample_cfg
              world chat_payload None chat_events true [] m1
              (dict_set "sessionId" (JStr "s1") chat_payload)
              [pass 1 false] m1 (delivery 2 reply_lines) [pass 3600 true]
              [("success", JBool false)])
    as (r & Hrun & Hs & Hc & _);
    try (vm_compute; reflexivity).
  exists (_close_event_stream
            (observe sample_loads sample_repr
               (arrivals (delivery 2 reply_lines)) m1)), r.
  split; [exact Hrun | auto].
Defined.

Lemma deadline_ends_wait_witness :
  exists m r,
    _run_message_operation sample_loads sample_repr sample_cfg
      (sample_world connect_lines post_accepted silent_passes)
      chat_payload None chat_events true [] true
    = (m, Val r)
    /\ error_code r = JStr "timeout"
    /\ session_id r = Some "s1".
Proof.
  set (world := sample_world connect_lines post_accepted silent_passes).
  pose (m1 := fst (operation_setup sample_loads sample_repr world
                     chat_payload None true (initial None chat_events []))).
  destruct (deadline_ends_wait sample_loads sample_repr sample_cfg world
              chat_payload None chat_events true [] m1
              (dict_set "sessionId" (JStr "s1") chat_payload)
              [pass 1 false; pass 2 true] m1 (pass 3600 true) [])
    as (r & Hrun & _ & Hc & _ & Hsession);
    try (vm_compute; reflexivity).
  - cbn. discriminate.
  - intros tk' [<- | [<- | []]] Hdone; [discriminate |].
    eexists. split; reflexivity.
  - exists (_close_event_stream
              (observe sample_loads sample_repr
                 (arrivals (pass 3600 true)) m1)), r.
    split; [exact Hrun |]. split; [exact Hc |].
    rewrite Hsession. vm_compute. reflexivity.
Defined.

Lemma list_agents_success_has_agents_witness :
  let run :=
    list_agents probe_loads sample_repr sample_cfg
      (sample_world connect_lines post_accepted
         [pass 1 false; delivery 2 (frame probe_error); pass 3600 true])
      None in
  exists r listed,
    snd run = Val r /\ status r = "success" /\ agents r = Some listed.
Proof.
  intros run.
  pose (r := match snd run with Val r => r | _ => result "" end).
  destruct (list_agents_success_has_agents probe_loads sample_repr
              sample_cfg
              (sample_world connect_lines post_accepted
                 [pass 1 false; delivery 2 (frame probe_error);
                  pass 3600 true])
              None (fst run) r)
    as [(fe & _ & _ & _ & Hlisted & _) | (e & listed & _ & _ & Hlisted & _)];
    try (vm_compute; reflexivity).
  - exists r. eexists.
    split; [vm_compute; reflexivity |].
    split; [vm_compute; reflexivity | exact Hlisted].
  - exists r, listed.
    split; [vm_compute; reflexivity |].
    split; [vm_compute; reflexivity | exact Hlisted].
Defined.

(** The probe of [list_agents] answered by an error that lists the agents:
    the Result is a success with that list. *)
Example list_agents_by_probe :
  let run :=
    list_agents probe_loads sample_repr sample_cfg
      (sample_world connect_lines post_accepted
         [pass 1 false; delivery 2 (frame probe_error); pass 3600 true])
      None in
  exists r,
    snd run = Val r
    /\ status r = "success"
    /\ agents r = Some [JObj [("id", JStr "general")]]
    /\ session_id r = Some "s1".
Proof.
  vm_compute. eexists. repeat split.
Qed.

Lemma session_not_found_by_command_witness :
  let loads :=
    table_loads
      [(missing_session_body, JObj [("error", JStr "Session not found: s1")])]
  in
  let e := HTTPError 404 "Not Found" missing_session_body in
  (exists r,
     delete_session loads sample_repr sample_cfg "s1" (inl e) = inr r
     /\ error_code r = JStr "session_not_found")
  /\ error_code (abort_task sample_repr sample_cfg "s1" (inl e))
     = JStr "connection_failed".
Proof.
  intros loads e.
  destruct (session_not_found_by_command loads sample_repr sample_cfg 404
              "Not Found" missing_session_body
              [("error", JStr "Session not found: s1")]
              "Session not found: s1" "s1" (initial None chat_events []))
    as (Hdelete & _ & _ & Habort & _);
    try (vm_compute; reflexivity).
  - left. reflexivity.
  - discriminate.
  - split; [exact Hdelete | exact Habort].
Defined.

Lemma confirmation_request_is_reported_witness :
  let c := _reset_runtime_state (Some "s1") chat_events [] in
  let out := to_dict (_build_result sample_repr
                        (handle_event sample_repr confirmation_request c)) in
  dict_get "status" out = JStr "requires_confirmation"
  /\ dict_get "request_data" out = JObj [("tool", JStr "bash")]
  /\ dict_get "message" out = JStr "需要确认工具执行".
Proof.
  intros c out.
  destruct (confirmation_request_is_reported sample_repr
              confirmation_request [("tool", JStr "bash")] c)
    as (_ & _ & _ & _ & Hstatus & _ & Hdata & _);
    try reflexivity.
  destruct Hdata as [Hdata Hmessage]; [discriminate |].
  split; [exact Hstatus |]. split; [exact Hdata | exact Hmessage].
Defined.

Lemma validated_command_is_a_client_call_witness :
  In (run_command sample_api sample_arguments)
     (client_calls sample_api sample_arguments).
Proof.
  apply (validated_command_is_a_client_call sample_api sample_arguments).
  reflexivity.
Defined.


Lemma unhandled_events_change_nothing_witness :
  let c := _reset_runtime_state None chat_events [] in
  handle_event sample_repr (event "heartbeat" (JObj [("n", JInt 1)])) c = c
  /\ handle_event sample_repr (event "usage" (JInt 7)) c = c.
Proof.
  intros c. split.
  - apply (proj1 (unhandled_events_change_nothing sample_repr
                    (event "heartbeat" (JObj [("n", JInt 1)])) c)).
    reflexivity.
  - apply (proj2 (unhandled_events_change_nothing sample_repr
                    (event "usage" (JInt 7)) c)); reflexivity.
Defined.

Lemma reader_line_rules_witness :
  let rc := (fresh_reader, _reset_runtime_state None chat_events []) in
  reader_step sample_loads sample_repr
    (RawLine (": keep-alive" ++ String "010"%char "")) rc = rc.
Proof.
  intros rc.
  destruct (reader_line_rules sample_loads sample_repr ": keep-alive" rc)
    as (Hlf & _ & Hskip & _).
  rewrite Hlf. apply Hskip; [reflexivity | discriminate].
Defined.

Lemma requests_of_a_run_witness :
  let world := sample_world connect_lines post_accepted silent_passes in
  let named :=
    trace (fst (_run_message_operation sample_loads sample_repr sample_cfg
                  world chat_payload (Some "s1") chat_events true [] true)) in
  let unnamed :=
    trace (fst (_run_message_operation sample_loads sample_repr sample_cfg
                  world chat_payload None chat_events true [] true)) in
  hd_error named = Some AGetEvents
  /\ (forall p, In (APost "/message" p) named ->
        p = dict_set "sessionId" (JStr "s1") chat_payload)
  /\ (forall p, In (APost "/message" p) unnamed ->
        p = chat_payload
        \/ p = dict_set "sessionId" (JStr "s1") chat_payload).
Proof.
  intros world named unnamed.
  pose proof (requests_of_a_run sample_loads sample_repr sample_cfg world
                chat_payload (Some "s1") chat_events true [] true) as Hrun.
  pose proof (requests_of_a_run sample_loads sample_repr sample_cfg world
                chat_payload None chat_events true [] true) as Hnone.
  cbv zeta in Hrun, Hnone.
  destruct Hrun as (Hhead & _ & Hposts).
  destruct Hnone as (_ & _ & Hcreated).
  split; [exact Hhead |]. split.
  - intros p Hin. destruct (Hposts p Hin) as [Hnamed _].
    exact (proj1 (Hnamed eq_refl)).
  - intros p Hin. destruct (Hcreated p Hin) as [_ Hunnamed].
    destruct (Hunnamed eq_refl)
      as [Hp | (_ & response & sid & Hcreate & _ & Hsid & _ & Hp)].
    + left. exact Hp.
    + right. injection Hcreate as <-.
      injection Hsid as <-. exact Hp.
Defined.

Lemma typed_commands_return_typed_success_witness :
  let run :=
    switch_agent probe_loads sample_repr sample_cfg
      (sample_world connect_lines post_accepted
         [pass 1 false; delivery 2 (frame agent_switched_event);
          pass 3600 true])
      "general" None in
  exists r text,
    snd run = Val r /\ status r = "success" /\ message r = JStr text
    /\ text <> "".
Proof.
  intros run.
  pose (r := match snd run with Val r => r | _ => result "" end).
  destruct (proj1 (typed_commands_return_typed_success probe_loads
                     sample_repr sample_cfg
                     (sample_world connect_lines post_accepted
                        [pass 1 false;
                         delivery 2 (frame agent_switched_event);
                         pass 3600 true]))
              "general" None (fst run) r)
    as (text & Hmessage & Htext & _);
    try (vm_compute; reflexivity).
  exists r, text.
  split; [vm_compute; reflexivity |].
  split; [vm_compute; reflexivity |].
  split; [exact Hmessage | exact Htext].
Defined.

Lemma http_error_raises_or_classifies_witness :
  _http_error_to_result sample_loads sample_repr sample_cfg 400 "Bad Request"
    error_body
  = inl (not_iterable (JInt 400))
  /\ _http_error_to_result limit_loads sample_repr sample_cfg 400
       "Bad Request" long_integer
     = inl (OtherError limit_text).
Proof.
  split.
  - apply (proj2 (proj1 (http_error_raises_or_classifies sample_loads
                           sample_repr sample_cfg 400 "Bad Request"
                           error_body)
                    (not_iterable (JInt 400)))).
    right. exists [("error", JInt 400)].
    repeat split; vm_compute; reflexivity.
  - apply (proj2 (proj1 (http_error_raises_or_classifies limit_loads
                           sample_repr sample_cfg 400 "Bad Request"
                           long_integer)
                    (OtherError limit_text))).
    left. split; [discriminate |].
    exists limit_text. split; [vm_compute; reflexivity | reflexivity].
Defined.

Lemma session_commands_succeed_iff_witness :
  let answer := JObj [("success", JBool true); ("deleted", JInt 1)] in
  let listing :=
    JObj [("success", JBool true);
          ("points", JArr [JObj [("messageIndex", JInt 3)]])] in
  (exists r,
     delete_session sample_loads sample_repr sample_cfg "s1" (inr answer)
     = inr r
     /\ deleted r = Some true
     /\ session_id r = Some "s1")
  /\ (exists r,
        list_rollback_points sample_loads sample_repr sample_cfg "s1"
          (inr listing)
        = inr r
        /\ rollback_points r = Some [JObj [("messageIndex", JInt 3)]]
        /\ total r = Some 1).
Proof.
  intros answer listing. split.
  - pose (r := with_message (JStr "会话删除完成")
                 (with_deleted (Some true)
                    (with_session_id (Some "s1") (result "success")))).
    destruct (session_commands_succeed_iff sample_loads sample_repr
                sample_cfg "s1" (inr answer)) as (_ & _ & Hdelete & _).
    destruct (Hdelete r eq_refl) as (_ & _ & Hfields).
    exists r. split; [reflexivity |].
    exact (Hfields [("success", JBool true); ("deleted", JInt 1)] eq_refl
             eq_refl).
  - pose (r := with_total (Some 1)
                 (with_rollback_points
                    (Some [JObj [("messageIndex", JInt 3)]])
                    (with_session_id (Some "s1") (result "success")))).
    destruct (session_commands_succeed_iff sample_loads sample_repr
                sample_cfg "s1" (inr listing)) as (_ & _ & _ & Hlist & _).
    destruct (Hlist r eq_refl) as (_ & _ & Hfields).
    exists r. split; [reflexivity |].
    destruct (Hfields
                [("success", JBool true);
                 ("points", JArr [JObj [("messageIndex", JInt 3)]])]
                eq_refl eq_refl) as (Hpoints & Htotal & _).
    split; [exact Hpoints | exact Htotal].
Defined.

Lemma to_dict_keys_witness :
  let r := with_error_code (JStr "timeout") (result "error") in
  dict_get "error_code" (to_dict r) = JStr "timeout".
Proof.
  intros r.
  pose proof (to_dict_keys r) as Hkeys. cbv zeta in Hkeys.
  destruct Hkeys as (_ & _ & _ & _ & _ & Hcode & _).
  exact (Hcode eq_refl).
Defined.

Lemma main_exit_code_witness :
  let out := to_dict (with_message (JStr "send_chat") (result "success")) in
  main sample_api sample_arguments = Val (out, 0)
  /\ (dict_get "status" out = JStr "success"
      \/ dict_get "status" out = JStr "requires_confirmation"
      \/ dict_get "status" out = JStr "requires_question").
Proof.
  intros out.
  assert (Hmain : main sample_api sample_arguments = Val (out, 0))
    by (vm_compute; reflexivity).
  split; [exact Hmain |].
  destruct (main_exit_code sample_api sample_arguments) as (_ & Hexit & _).
  destruct (Hexit out 0 Hmain) as (_ & Hzero).
  exact (proj1 Hzero eq_refl).
Defined.
